(** * ClipboardImageDownloader: the bulk-download engine

    A shallow embedding of the class [ClipboardImageDownloader] of
    链接批量下载.py: the classifier [is_image_url], the naming resolver
    [get_filename_from_url], the fetcher [download_image] with its
    retries, the statements of [worker] as a small-step machine, and
    [download_all].

    Everything the program takes from outside (urllib, requests, Pillow,
    hashlib, the clock, the file system's permissions) is an oracle
    collected in the record [Outside]; the theorems hold for every oracle.
    Python exceptions are values of [res]; the state of the outside world
    and of the downloader object is passed explicitly. *)

From Stdlib Require Import ZArith Lia String Ascii List Permutation.
From Stdlib Require Import Strings.Byte.
From Stdlib Require Import PrimFloat Uint63.
From stdpp Require Import gmap strings list pretty sorting.

Local Open Scope Z_scope.
Local Open Scope string_scope.
Local Open Scope list_scope.
#[local] Set Warnings "-clear-no-such-hyp".

(** ** Exceptions and results *)

Inductive exn : Type :=
  | ValueError (msg : string)
  | KeyError (msg : string)
  | OSError (msg : string)
  | RequestException (msg : string)
  | HTTPError (status : Z).

(** [str(e)] as used for the failure list; of an [HTTPError] only the
    status code is kept. *)
Definition str_exn (e : exn) : string :=
  match e with
  | ValueError m | KeyError m | OSError m | RequestException m => m
  | HTTPError s => pretty s +:+ " Error"
  end.

Inductive res (A : Type) : Type :=
  | Ok (a : A)
  | Raise (e : exn).
Arguments Ok {A} a.
Arguments Raise {A} e.

(** ** Strings, the way [str] and [os.path] are used *)

Module Str.

Definition lower_ascii (c : ascii) : ascii :=
  let n := nat_of_ascii c in
  if (Nat.leb 65 n && Nat.leb n 90)%bool then ascii_of_nat (n + 32) else c.

(** [s.lower()], on the ASCII letters. *)
Fixpoint lower (s : string) : string :=
  match s with
  | EmptyString => EmptyString
  | String c r => String (lower_ascii c) (lower r)
  end.

(** [s.startswith(p)] *)
Fixpoint startswith (p s : string) : bool :=
  match p, s with
  | EmptyString, _ => true
  | String a p', String b s' => (if ascii_dec a b then startswith p' s' else false)
  | String _ _, EmptyString => false
  end.

(** [s.endswith(suf)] *)
Definition endswith (s suf : string) : bool :=
  startswith (String.rev suf) (String.rev s).

(** [sub in s] *)
Fixpoint contains (sub s : string) : bool :=
  startswith sub s ||
  match s with
  | EmptyString => false
  | String _ r => contains sub r
  end.

(** [s.split(c)[0]]: the text before the first [c]. *)
Fixpoint before (c : ascii) (s : string) : string :=
  match s with
  | EmptyString => EmptyString
  | String a r => if ascii_dec a c then EmptyString else String a (before c r)
  end.

(** The text after the last [c], and [s] itself when [c] does not occur. *)
Fixpoint after_last (c : ascii) (s : string) : string :=
  match s with
  | EmptyString => EmptyString
  | String a r =>
      if contains (String c EmptyString) r then after_last c r
      else if ascii_dec a c then r
      else s
  end.

(** [os.path.basename] (POSIX). *)
Definition basename (p : string) : string := after_last "/" p.

(** [splitext_go seen s]: split [s] at its last dot, provided a
    character other than a dot comes before it; [seen] tells whether
    such a character was already read. *)
Fixpoint splitext_go (seen : bool) (s : string) : string * string :=
  match s with
  | EmptyString => (EmptyString, EmptyString)
  | String a r =>
      if ascii_dec a "." then
        if (seen && negb (contains "." r))%bool then (EmptyString, s)
        else let '(n, e) := splitext_go seen r in (String a n, e)
      else let '(n, e) := splitext_go true r in (String a n, e)
  end.

(** [os.path.splitext] on a file name without directory part. *)
Definition splitext (s : string) : string * string := splitext_go false s.

(** [os.path.join(d, f)] (POSIX). *)
Definition join (d f : string) : string :=
  if startswith "/" f then f
  else if (String.eqb d "" || endswith d "/")%bool then d +:+ f
  else d +:+ "/" +:+ f.

(** [format(n, "0wd")]: decimal, sign first, zero-padded to width [w]. *)
Definition format_d (w : nat) (n : Z) : string :=
  let digits := pretty (Z.abs_N n) in
  let sign := if (n <? 0)%Z then "-" else "" in
  let used := (String.length sign + String.length digits)%nat in
  sign +:+ String.string_of_list_ascii (replicate (w - used)%nat "0"%char) +:+ digits.

(** [c] is one of the characters 0-9. *)
Definition is_digit (c : ascii) : bool :=
  (Nat.leb 48 (nat_of_ascii c) && Nat.leb (nat_of_ascii c) 57)%bool.

Fixpoint all_digits (s : string) : bool :=
  match s with
  | EmptyString => true
  | String c r => is_digit c && all_digits r
  end.

Fixpoint no_dot (s : string) : bool :=
  match s with
  | EmptyString => true
  | String c r => (if ascii_dec c "." then false else true) && no_dot r
  end.

End Str.

(** ** Configuration *)

(** A parsed [rename_pattern]: literal text and replacement fields.
    [{index:03d}] is [Index 3], [{index}] is [Index 0]; a field that
    [str.format] does not know among its keyword arguments is [Unknown]. *)
Inductive field : Type :=
  | Index (width : nat)
  | Filename
  | Timestamp
  | Date
  | Time
  | Unknown (name : string).

Inductive segment : Type :=
  | Lit (text : string)
  | Field (f : field).

Record Config : Type := {
  save_dir : string;
  max_workers : Z;
  timeout : Z;
  rename_pattern : list segment;
  auto_create_subdir : bool;
  subdir_pattern : string;
  deduplicate : bool;
  supported_extensions : list string;
  min_file_size : Z;
  max_file_size : Z;
  retry_attempts : Z;
  retry_delay : Z;
}.

(** The defaults of [__init__]; the home directory is written [~]. *)
Definition default_config : Config := {|
  save_dir := "~/Downloads/ClipboardImages";
  max_workers := 5;
  timeout := 30;
  rename_pattern := [Field (Index 3); Lit "_"; Field Filename];
  auto_create_subdir := true;
  subdir_pattern := "%Y-%m-%d";
  deduplicate := true;
  supported_extensions := [".jpg"; ".jpeg"; ".png"; ".gif"; ".bmp"; ".webp"; ".tiff"];
  min_file_size := 1024;
  max_file_size := 50 * 1024 * 1024;
  retry_attempts := 3;
  retry_delay := 2;
|}.

(** A naming pattern that starts with the index field and a separator
    that is neither a digit nor a dot, as [{index:03d}_{filename}] does. *)
Definition index_led (pattern : list segment) : Prop :=
  exists width c sep rest,
    pattern = Field (Index width) :: Lit (String c sep) :: rest /\
    Str.is_digit c = false /\ c <> "."%char.

(** A file name that carries the number [k] in front: the index field
    and a separator, with [image_] before it when the name is the one
    [get_filename_from_url] falls back on. *)
Definition tagged (k : Z) (name : string) : Prop :=
  exists lead width c tail,
    (lead = "" \/ lead = "image_") /\
    Str.is_digit c = false /\ c <> "."%char /\
    name = lead +:+ Str.format_d width k +:+ String c tail.

(** ** The outside world *)

(** What [requests.get(..., stream=True)] hands back: the status line
    and headers at once, the body while it is read.  [body] is what
    arrives; when [stream_error] is [Some e] the connection breaks with
    [e] after those bytes. *)
Record Response : Type := {
  status_code : Z;
  header_content_length : option Z;
  header_content_type : string;
  body : list byte;
  stream_error : option exn;
}.

Record Outside : Type := {
  (** [urlparse(url).path], or the [ValueError] urllib raises *)
  urlparse_path : string -> res string;
  unquote : string -> string;
  guess_extension : string -> option string;
  (** [datetime.fromtimestamp(t).strftime(fmt)] *)
  strftime : string -> Z -> string;
  (** [int(time.time())] at the n-th reading of the clock *)
  clock : nat -> Z;
  (** the reply to the n-th GET request of the run *)
  requests_get : nat -> string -> res Response;
  (** the Content-Type header of the reply to the n-th HEAD request *)
  requests_head : nat -> string -> res string;
  (** [hashlib.md5(b).hexdigest()] *)
  md5_hexdigest : list byte -> string;
  (** whether [Image.open] accepts the bytes, and [verify] after it *)
  image_open : list byte -> bool;
  image_verify : list byte -> bool;
  (** whether [open(path, 'wb')] succeeds *)
  may_write : string -> bool;
}.

Record World : Type := {
  fs : gmap string (list byte);
  ticks : nat;
  get_log : list string;
  head_log : list string;
}.

Definition set_fs (f : gmap string (list byte) -> gmap string (list byte)) (w : World) : World :=
  {| fs := f (fs w); ticks := ticks w; get_log := get_log w; head_log := head_log w |}.
Definition tick (w : World) : World :=
  {| fs := fs w; ticks := S (ticks w); get_log := get_log w; head_log := head_log w |}.
Definition log_get (url : string) (w : World) : World :=
  {| fs := fs w; ticks := ticks w; get_log := get_log w ++ [url]; head_log := head_log w |}.
Definition log_head (url : string) (w : World) : World :=
  {| fs := fs w; ticks := ticks w; get_log := get_log w; head_log := head_log w ++ [url] |}.

(** ** Computations that read and change the world and may raise *)

Definition M (A : Type) : Type := World -> res A * World.

Definition ret {A} (a : A) : M A := fun w => (Ok a, w).
Definition raise {A} (e : exn) : M A := fun w => (Raise e, w).
Definition bind {A B} (c : M A) (k : A -> M B) : M B :=
  fun w => match c w with
           | (Ok a, w') => k a w'
           | (Raise e, w') => (Raise e, w')
           end.
(** [try: c except: h] -- what [c] did to the world before it raised stays done. *)
Definition try_except {A} (c : M A) (h : exn -> M A) : M A :=
  fun w => match c w with
           | (Ok a, w') => (Ok a, w')
           | (Raise e, w') => h e w'
           end.
Definition lift {A} (r : res A) : M A := fun w => (r, w).

Notation "'let*' x ':=' c 'in' k" := (bind c (fun x => k))
  (at level 10, x name, c at level 100, k at level 200).
Notation "c '>>>' k" := (bind c (fun _ => k))
  (at level 90, right associativity).

(** ** The downloader object *)

Record Task : Type := {
  task_url : string;
  task_path : string;
  task_index : Z;
}.

Record Stats : Type := {
  total : Z;
  success : Z;
  failed : Z;
  skipped : Z;
  duplicate : Z;
}.

Definition zero_stats : Stats :=
  {| total := 0; success := 0; failed := 0; skipped := 0; duplicate := 0 |}.

(** The three lines a worker prints, one per finished task. *)
Inductive line : Type :=
  | Skipped (url : string)
  | Saved (url path : string)
  | Failed (url : string) (e : exn).

Definition line_url (l : line) : string :=
  match l with
  | Skipped url | Saved url _ | Failed url _ => url
  end.

(** [download_queue] is the list of tasks waiting and the queue's count
    of unfinished tasks, the one [task_done] lowers and [join] waits for. *)
Record Downloader : Type := {
  stats : Stats;
  downloaded_files : list string;
  failed_urls : list (string * string);
  url_hash_set : gset string;
  file_hash_set : gset string;
  download_queue : list Task;
  unfinished_tasks : Z;
  running : bool;
  printed : list line;
}.

(** The object [__init__] builds. *)
Definition new_downloader : Downloader := {|
  stats := zero_stats;
  downloaded_files := [];
  failed_urls := [];
  url_hash_set := ∅;
  file_hash_set := ∅;
  download_queue := [];
  unfinished_tasks := 0;
  running := false;
  printed := [];
|}.

Definition set_stats (f : Stats -> Stats) (d : Downloader) : Downloader :=
  {| stats := f (stats d); downloaded_files := downloaded_files d;
     failed_urls := failed_urls d; url_hash_set := url_hash_set d;
     file_hash_set := file_hash_set d; download_queue := download_queue d;
     unfinished_tasks := unfinished_tasks d; running := running d;
     printed := printed d |}.
Definition set_downloaded_files (l : list string) (d : Downloader) : Downloader :=
  {| stats := stats d; downloaded_files := l;
     failed_urls := failed_urls d; url_hash_set := url_hash_set d;
     file_hash_set := file_hash_set d; download_queue := download_queue d;
     unfinished_tasks := unfinished_tasks d; running := running d;
     printed := printed d |}.
Definition set_failed_urls (l : list (string * string)) (d : Downloader) : Downloader :=
  {| stats := stats d; downloaded_files := downloaded_files d;
     failed_urls := l; url_hash_set := url_hash_set d;
     file_hash_set := file_hash_set d; download_queue := download_queue d;
     unfinished_tasks := unfinished_tasks d; running := running d;
     printed := printed d |}.
Definition set_url_hash_set (s : gset string) (d : Downloader) : Downloader :=
  {| stats := stats d; downloaded_files := downloaded_files d;
     failed_urls := failed_urls d; url_hash_set := s;
     file_hash_set := file_hash_set d; download_queue := download_queue d;
     unfinished_tasks := unfinished_tasks d; running := running d;
     printed := printed d |}.
Definition set_file_hash_set (s : gset string) (d : Downloader) : Downloader :=
  {| stats := stats d; downloaded_files := downloaded_files d;
     failed_urls := failed_urls d; url_hash_set := url_hash_set d;
     file_hash_set := s; download_queue := download_queue d;
     unfinished_tasks := unfinished_tasks d; running := running d;
     printed := printed d |}.
Definition set_queue (q : list Task) (n : Z) (d : Downloader) : Downloader :=
  {| stats := stats d; downloaded_files := downloaded_files d;
     failed_urls := failed_urls d; url_hash_set := url_hash_set d;
     file_hash_set := file_hash_set d; download_queue := q;
     unfinished_tasks := n; running := running d;
     printed := printed d |}.
Definition set_running (b : bool) (d : Downloader) : Downloader :=
  {| stats := stats d; downloaded_files := downloaded_files d;
     failed_urls := failed_urls d; url_hash_set := url_hash_set d;
     file_hash_set := file_hash_set d; download_queue := download_queue d;
     unfinished_tasks := unfinished_tasks d; running := b;
     printed := printed d |}.
Definition print (l : line) (d : Downloader) : Downloader :=
  {| stats := stats d; downloaded_files := downloaded_files d;
     failed_urls := failed_urls d; url_hash_set := url_hash_set d;
     file_hash_set := file_hash_set d; download_queue := download_queue d;
     unfinished_tasks := unfinished_tasks d; running := running d;
     printed := printed d ++ [l] |}.

Definition set_total (n : Z) (s : Stats) : Stats :=
  {| total := n; success := success s; failed := failed s;
     skipped := skipped s; duplicate := duplicate s |}.
Definition incr_success (s : Stats) : Stats :=
  {| total := total s; success := success s + 1; failed := failed s;
     skipped := skipped s; duplicate := duplicate s |}.
Definition incr_failed (s : Stats) : Stats :=
  {| total := total s; success := success s; failed := failed s + 1;
     skipped := skipped s; duplicate := duplicate s |}.
Definition incr_skipped (s : Stats) : Stats :=
  {| total := total s; success := success s; failed := failed s;
     skipped := skipped s + 1; duplicate := duplicate s |}.
Definition incr_duplicate (s : Stats) : Stats :=
  {| total := total s; success := success s; failed := failed s;
     skipped := skipped s; duplicate := duplicate s + 1 |}.

(** ** The statements of [worker]

    A worker thread is at one statement of [worker]; between two
    statements any other thread may run.  Each constructor names the
    statement the thread executes next, with the locals it holds.  A
    statement runs as a whole, the call of [download_image] with its
    retries included. *)
Inductive pc : Type :=
  | AtLoop                                   (* while self.running: task = get() *)
  | Fetch (t : Task)                         (* success = self.download_image(..) *)
  | Hashing (t : Task)                       (* file_hash = self.calculate_file_hash(..) *)
  | IfDedup (t : Task) (h : option string)   (* if deduplicate and file_hash: *)
  | IfSeen (t : Task) (h : string)           (* if file_hash in self.file_hash_set: *)
  | RemoveDup (t : Task)                     (* os.remove(save_path) *)
  | CountDup (t : Task)                      (* stats['duplicate'] += 1 *)
  | CountSkip (t : Task)                     (* stats['skipped'] += 1 *)
  | PrintSkip (t : Task)
  | AddHash (t : Task) (h : string)          (* self.file_hash_set.add(file_hash) *)
  | AppendFile (t : Task)                    (* self.downloaded_files.append(..) *)
  | CountOk (t : Task)                       (* stats['success'] += 1 *)
  | PrintOk (t : Task)
  | AppendFail (t : Task) (e : exn)          (* self.failed_urls.append(..) *)
  | CountFail (t : Task) (e : exn)           (* stats['failed'] += 1 *)
  | PrintFail (t : Task) (e : exn)
  | TaskDone                                 (* finally: task_done() *)
  | Exited.

Record Sys : Type := {
  world : World;
  self : Downloader;
  threads : list pc;
}.

(** ** Book-keeping over the threads of a pool *)

(** The URL of the task a thread holds and has not printed a line for. *)
Definition pending_url (p : pc) : list string :=
  match p with
  | Fetch t | Hashing t | IfDedup t _ | IfSeen t _ | RemoveDup t | CountDup t
  | CountSkip t | PrintSkip t | AddHash t _ | AppendFile t | CountOk t
  | PrintOk t | AppendFail t _ | CountFail t _ | PrintFail t _ => [task_url t]
  | AtLoop | TaskDone | Exited => []
  end.

(** 1 for a thread that took a task and has not called [task_done] yet. *)
Definition in_flight (p : pc) : Z :=
  match p with
  | AtLoop | Exited => 0
  | _ => 1
  end.

(** 1 for a thread whose task is in none of [success], [failed], [skipped] yet. *)
Definition uncounted (p : pc) : Z :=
  match p with
  | Fetch _ | Hashing _ | IfDedup _ _ | IfSeen _ _ | RemoveDup _ | CountDup _
  | CountSkip _ | AddHash _ _ | AppendFile _ | CountOk _
  | AppendFail _ _ | CountFail _ _ => 1
  | _ => 0
  end.

(** 1 between [duplicate += 1] and [skipped += 1]. *)
Definition at_count_skip (p : pc) : Z :=
  match p with CountSkip _ => 1 | _ => 0 end.

(** 1 between a counter's increment and the line printed for it. *)
Definition at_print_skip (p : pc) : Z :=
  match p with PrintSkip _ => 1 | _ => 0 end.
Definition at_print_ok (p : pc) : Z :=
  match p with PrintOk _ => 1 | _ => 0 end.
Definition at_print_fail (p : pc) : Z :=
  match p with PrintFail _ _ => 1 | _ => 0 end.

Definition sum_over (f : pc -> Z) (ths : list pc) : Z :=
  foldr (fun p acc => (f p + acc)%Z) 0%Z ths.

Definition is_saved (l : line) : bool :=
  match l with Saved _ _ => true | _ => false end.
Definition is_skipped (l : line) : bool :=
  match l with Skipped _ => true | _ => false end.
Definition is_failed (l : line) : bool :=
  match l with Failed _ _ => true | _ => false end.

Definition count_lines (k : line -> bool) (ls : list line) : Z :=
  Z.of_nat (length (filter (fun l => k l = true) ls)).

(** What holds of a pool at every moment of a batch over [tasks] that
    started with [printed0] on the screen. *)
Record pool_inv (tasks : list Task) (printed0 : list line) (s : Sys) : Prop := {
  inv_total :
    total (stats (self s)) = Z.of_nat (length tasks);
  inv_counted :
    total (stats (self s)) =
    (success (stats (self s)) + failed (stats (self s)) + skipped (stats (self s))
     + Z.of_nat (length (download_queue (self s))) + sum_over uncounted (threads s))%Z;
  inv_unfinished :
    unfinished_tasks (self s) =
    (Z.of_nat (length (download_queue (self s))) + sum_over in_flight (threads s))%Z;
  inv_duplicate :
    duplicate (stats (self s)) =
    (skipped (stats (self s)) + sum_over at_count_skip (threads s))%Z;
  inv_lines :
    exists lines,
      printed (self s) = printed0 ++ lines /\
      map line_url lines ++ concat (map pending_url (threads s))
        ++ map task_url (download_queue (self s))
        ≡ₚ map task_url tasks /\
      success (stats (self s)) =
        (count_lines is_saved lines + sum_over at_print_ok (threads s))%Z /\
      failed (stats (self s)) =
        (count_lines is_failed lines + sum_over at_print_fail (threads s))%Z /\
      skipped (stats (self s)) =
        (count_lines is_skipped lines + sum_over at_print_skip (threads s))%Z;
}.

Section Engine.

Variable env : Outside.
Variable cfg : Config.

(** *** The file system and the network *)

Definition path_exists (p : string) : M bool :=
  fun w => (Ok (match fs w !! p with Some _ => true | None => false end), w).

Definition getsize (p : string) : M Z :=
  fun w => match fs w !! p with
           | Some b => (Ok (Z.of_nat (length b)), w)
           | None => (Raise (OSError "No such file or directory"), w)
           end.

Definition remove (p : string) : M unit :=
  fun w => match fs w !! p with
           | Some _ => (Ok tt, set_fs (delete p) w)
           | None => (Raise (OSError "No such file or directory"), w)
           end.

Definition read_file (p : string) : M (list byte) :=
  fun w => match fs w !! p with
           | Some b => (Ok b, w)
           | None => (Raise (OSError "No such file or directory"), w)
           end.

(** [with open(p, 'wb') as f: for chunk in response.iter_content(): f.write(chunk)]:
    the file is created empty, then holds what arrived. *)
Definition save_stream (p : string) (r : Response) : M unit :=
  fun w => if may_write env p then
             (match stream_error r with
              | None => Ok tt
              | Some e => Raise e
              end, set_fs (insert p (body r)) w)
           else (Raise (OSError "Permission denied"), w).

Definition time_time : M Z :=
  fun w => (Ok (clock env (ticks w)), tick w).

Definition now_strftime (fmt : string) : M string :=
  fun w => (Ok (strftime env fmt (clock env (ticks w))), tick w).

Definition sleep (seconds : Z) : M unit :=
  if (seconds <? 0)%Z then raise (ValueError "sleep length must be non-negative")
  else ret tt.

Definition http_get (url : string) : M Response :=
  fun w => (requests_get env (length (get_log w)) url, log_get url w).

Definition http_head (url : string) : M string :=
  fun w => (requests_head env (length (head_log w)) url, log_head url w).

(** *** Classifier: [is_image_url] *)

Definition image_types : list string :=
  ["image/jpeg"; "image/png"; "image/gif"; "image/bmp";
   "image/webp"; "image/tiff"; "image/svg+xml"].

(** The URL path ends, lower-cased, with a configured extension. *)
Definition has_image_extension (url : string) : Prop :=
  exists path,
    urlparse_path env url = Ok path /\
    existsb (fun ext => Str.endswith (Str.lower path) ext) (supported_extensions cfg) = true.

Definition is_image_url (url : string) : M bool :=
  try_except
    (let* parsed_path := lift (urlparse_path env url) in
     let path := Str.lower parsed_path in
     if existsb (fun ext => Str.endswith path ext) (supported_extensions cfg)
     then ret true
     else
       let* found :=
         try_except
           (let* header := http_head url in
            let content_type := Str.lower header in
            ret (existsb (fun image_type => Str.contains image_type content_type)
                         image_types))
           (fun _ => ret false) in
       if found then ret true else ret false)
    (fun _ => ret false).


(** *** Naming resolver: [get_filename_from_url] *)

(** [pattern.format(index=.., filename=.., timestamp=.., date=.., time=..)] *)
Fixpoint format_pattern (pattern : list segment) (index : Z) (filename : string)
         (timestamp : Z) (date time : string) : res string :=
  match pattern with
  | [] => Ok ""
  | seg :: rest =>
      match
        match seg with
        | Lit text => Ok text
        | Field (Index width) => Ok (Str.format_d width index)
        | Field Filename => Ok filename
        | Field Timestamp => Ok (pretty timestamp)
        | Field Date => Ok date
        | Field Time => Ok time
        | Field (Unknown name) => Raise (KeyError name)
        end
      with
      | Raise e => Raise e
      | Ok piece =>
          match format_pattern rest index filename timestamp date time with
          | Raise e => Raise e
          | Ok tail => Ok (piece +:+ tail)
          end
      end
  end.

Definition apply_pattern (index : Z) (filename : string) : M string :=
  let* timestamp := time_time in
  let* date := now_strftime "%Y%m%d" in
  let* time := now_strftime "%H%M%S" in
  lift (format_pattern (rename_pattern cfg) index filename timestamp date time).

Definition get_filename_from_url (url : string) (index : Z) : M string :=
  try_except
    (let* parsed_path := lift (urlparse_path env url) in
     let path := unquote env parsed_path in
     let filename := Str.basename path in
     if (negb (String.eqb path "") && negb (String.eqb filename ""))%bool then
       let filename := Str.before "#" (Str.before "?" filename) in
       let '(name, ext) := Str.splitext filename in
       let filename :=
         if String.eqb ext "" then
           name +:+ match guess_extension env parsed_path with
                    | Some guessed => if String.eqb guessed "" then ".jpg" else guessed
                    | None => ".jpg"
                    end
         else filename in
       apply_pattern index filename
     else
       let* t := time_time in
       apply_pattern index ("image_" +:+ pretty t +:+ ".jpg"))
    (fun _ =>
       let* t := time_time in
       ret ("image_" +:+ Str.format_d 3 index +:+ "_" +:+ pretty t +:+ ".jpg")).

(** [get_save_directory]; the directories themselves are not modelled. *)
Definition get_save_directory : M string :=
  if auto_create_subdir cfg then
    let* subdir_name := now_strftime (subdir_pattern cfg) in
    ret (Str.join (save_dir cfg) subdir_name)
  else ret (save_dir cfg).

(** Lines 338-345 of [download_all]: the destination of one task. *)
Definition resolve_path (save_dir : string) (url : string) (i : Z) : M string :=
  let* filename := get_filename_from_url url i in
  let save_path := Str.join save_dir filename in
  let* taken := path_exists save_path in
  if taken then
    let '(name, ext) := Str.splitext filename in
    let* t := time_time in
    let filename := name +:+ "_" +:+ pretty t +:+ ext in
    ret (Str.join save_dir filename)
  else ret save_path.

(** *** Fetcher: [download_image] *)

Definition raise_for_status (r : Response) : M unit :=
  if ((400 <=? status_code r) && (status_code r <? 600))%Z
  then raise (HTTPError (status_code r))
  else ret tt.

(** [response.content]: the whole body, read now. *)
Definition response_content (r : Response) : M (list byte) :=
  match stream_error r with
  | Some e => raise e
  | None => ret (body r)
  end.

(** Lines 214-239: request, check the headers, stream the body to
    [save_path]. *)
Definition fetch_and_save (url save_path : string) : M unit :=
  let* response := http_get url in
  raise_for_status response >>>
  let content_length := default 0%Z (header_content_length response) in
  if (content_length >? max_file_size cfg)%Z then
    raise (ValueError ("文件太大 (" +:+ pretty content_length +:+ " bytes)"))
  else if ((content_length >? 0) && (content_length <? min_file_size cfg))%Z then
    raise (ValueError ("文件太小 (" +:+ pretty content_length +:+ " bytes)"))
  else
    let content_type := Str.lower (header_content_type response) in
    (if negb (Str.contains "image/" content_type) then
       let* content := response_content response in
       if image_open env (take 100 content) then ret tt
       else raise (ValueError "内容不是有效的图片")
     else ret tt) >>>
    save_stream save_path response.

(** Lines 242-254: check the file that was written. *)
Definition validate_saved (save_path : string) : M bool :=
  let* size := getsize save_path in
  if (size <? min_file_size cfg)%Z then
    remove save_path >>> raise (ValueError "下载的文件太小")
  else
    try_except
      (let* data := read_file save_path in
       if (image_open env data && image_verify env data)%bool then ret tt
       else raise (ValueError "cannot identify image file"))
      (fun _ => remove save_path >>> raise (ValueError "下载的文件不是有效的图片")) >>>
    ret true.

(** The body of the [try] of [download_image]: one download try. *)
Definition download_try (url save_path : string) : M bool :=
  fetch_and_save url save_path >>> validate_saved save_path.

(** A reply that comes whole and is not an image. *)
Definition not_an_image (reply : res Response) : Prop :=
  exists page,
    reply = Ok page /\ stream_error page = None /\
    (image_open env (body page) && image_verify env (body page))%bool = false.

(** A reply that brings [payload] whole, as an image of that length. *)
Definition serves (payload : list byte) (reply : res Response) : Prop :=
  exists r,
    reply = Ok r /\
    status_code r = 200%Z /\
    header_content_length r = Some (Z.of_nat (length payload)) /\
    Str.contains "image/" (Str.lower (header_content_type r)) = true /\
    body r = payload /\
    stream_error r = None.

(** Bytes of an allowed size that Pillow opens and verifies. *)
Definition valid_image (payload : list byte) : Prop :=
  (min_file_size cfg <= Z.of_nat (length payload) <= max_file_size cfg)%Z /\
  image_open env payload = true /\
  image_verify env payload = true.

(** [download_image], [retries_left] standing for
    [retry_attempts - retry_count] when that is positive. *)
Fixpoint download_image_from (retries_left : nat) (url save_path : string) : M bool :=
  try_except (download_try url save_path)
    (fun e => match retries_left with
              | S n => sleep (retry_delay cfg) >>> download_image_from n url save_path
              | O => raise e
              end).

Definition download_image (url save_path : string) (retry_count : Z) : M bool :=
  download_image_from (Z.to_nat (retry_attempts cfg - retry_count)) url save_path.

(** [calculate_file_hash] *)
Definition calculate_file_hash (filepath : string) (w : World) : option string :=
  match fs w !! filepath with
  | Some data => Some (md5_hexdigest env data)
  | None => None
  end.


(** *** Worker pool: [worker] *)

(** One statement of [worker], run by a thread at [p]. *)
Definition worker_step (p : pc) (w : World) (d : Downloader) : pc * World * Downloader :=
  match p with
  | AtLoop =>
      if running d then
        match download_queue d with
        | t :: q => (Fetch t, w, set_queue q (unfinished_tasks d) d)
        | [] => (AtLoop, w, d)
        end
      else (Exited, w, d)
  | Fetch t =>
      match download_image (task_url t) (task_path t) 0 w with
      | (Ok true, w') => (Hashing t, w', d)
      | (Ok false, w') => (TaskDone, w', d)
      | (Raise e, w') => (AppendFail t e, w', d)
      end
  | Hashing t => (IfDedup t (calculate_file_hash (task_path t) w), w, d)
  | IfDedup t file_hash =>
      match file_hash with
      | Some h =>
          if (deduplicate cfg && negb (String.eqb h ""))%bool
          then (IfSeen t h, w, d)
          else (AppendFile t, w, d)
      | None => (AppendFile t, w, d)
      end
  | IfSeen t h =>
      if decide (h ∈ file_hash_set d) then (RemoveDup t, w, d)
      else (AddHash t h, w, d)
  | RemoveDup t =>
      match remove (task_path t) w with
      | (Ok _, w') => (CountDup t, w', d)
      | (Raise e, w') => (AppendFail t e, w', d)
      end
  | CountDup t => (CountSkip t, w, set_stats incr_duplicate d)
  | CountSkip t => (PrintSkip t, w, set_stats incr_skipped d)
  | PrintSkip t => (TaskDone, w, print (Skipped (task_url t)) d)
  | AddHash t h => (AppendFile t, w, set_file_hash_set ({[h]} ∪ file_hash_set d) d)
  | AppendFile t =>
      (CountOk t, w, set_downloaded_files (downloaded_files d ++ [task_path t]) d)
  | CountOk t => (PrintOk t, w, set_stats incr_success d)
  | PrintOk t => (TaskDone, w, print (Saved (task_url t) (task_path t)) d)
  | AppendFail t e =>
      (CountFail t e, w, set_failed_urls (failed_urls d ++ [(task_url t, str_exn e)]) d)
  | CountFail t e => (PrintFail t e, w, set_stats incr_failed d)
  | PrintFail t e => (TaskDone, w, print (Failed (task_url t) e) d)
  | TaskDone =>
      (* task_done() raises ValueError when called too many times; the
         exception leaves [worker] and ends the thread *)
      if (unfinished_tasks d <=? 0)%Z then (Exited, w, d)
      else (AtLoop, w, set_queue (download_queue d) (unfinished_tasks d - 1) d)
  | Exited => (Exited, w, d)
  end.

(** A thread running [n] statements with no other thread in between. *)
Fixpoint steps_alone (n : nat) (p : pc) (w : World) (d : Downloader)
  : pc * World * Downloader :=
  match n with
  | O => (p, w, d)
  | S n' => let '(p', w', d') := worker_step p w d in steps_alone n' p' w' d'
  end.

(** Thread [i] runs its next statement. *)
Definition step (i : nat) (s : Sys) : option Sys :=
  match threads s !! i with
  | Some p =>
      let '(p', w', d') := worker_step p (world s) (self s) in
      Some {| world := w'; self := d'; threads := <[i := p']> (threads s) |}
  | None => None
  end.

(** A schedule names the thread that runs at each moment. *)
Fixpoint run (schedule : list nat) (s : Sys) : option Sys :=
  match schedule with
  | [] => Some s
  | i :: rest =>
      match step i s with
      | Some s' => run rest s'
      | None => None
      end
  end.

(** *** [download_all] *)

(** [hashlib.md5(url.encode()).hexdigest()] *)
Definition url_digest (url : string) : string :=
  md5_hexdigest env (list_byte_of_string url).

(** Lines 318-325: classify, then drop the URLs already seen. *)
Fixpoint collect_image_urls (urls image_urls : list string) (w : World) (d : Downloader)
  : res (list string) * World * Downloader :=
  match urls with
  | [] => (Ok image_urls, w, d)
  | url :: rest =>
      match is_image_url url w with
      | (Raise e, w') => (Raise e, w', d)
      | (Ok false, w') => collect_image_urls rest image_urls w' d
      | (Ok true, w') =>
          let url_hash := url_digest url in
          if (negb (deduplicate cfg) || negb (bool_decide (url_hash ∈ url_hash_set d)))%bool
          then collect_image_urls rest (image_urls ++ [url]) w'
                 (set_url_hash_set ({[url_hash]} ∪ url_hash_set d) d)
          else collect_image_urls rest image_urls w' d
      end
  end.

(** Lines 337-347: name every task and put it on the queue. *)
Fixpoint enqueue_all (save_dir : string) (image_urls : list string) (i : Z)
         (w : World) (d : Downloader) : res unit * World * Downloader :=
  match image_urls with
  | [] => (Ok tt, w, d)
  | url :: rest =>
      match resolve_path save_dir url i w with
      | (Raise e, w') => (Raise e, w', d)
      | (Ok save_path, w') =>
          let t := {| task_url := url; task_path := save_path; task_index := i |} in
          enqueue_all save_dir rest (i + 1) w'
            (set_queue (download_queue d ++ [t]) (unfinished_tasks d + 1) d)
      end
  end.

Definition reset_stats (d : Downloader) : Downloader :=
  set_failed_urls [] (set_downloaded_files [] (set_stats (fun _ => zero_stats) d)).

(** [download_all(urls)], the worker threads scheduled as [schedule]
    says.  The result is [None] when the schedule is not one of a run
    in which [download_queue.join()] returns. *)
Definition download_all (schedule : list nat) (urls : list string)
           (w : World) (d : Downloader) : option (res bool * World * Downloader) :=
  match collect_image_urls urls [] w (reset_stats d) with
  | (Raise e, w1, d1) => Some (Raise e, w1, d1)
  | (Ok [], w1, d1) => Some (Ok false, w1, d1)
  | (Ok image_urls, w1, d1) =>
      match get_save_directory w1 with
      | (Raise e, w2) => Some (Raise e, w2, d1)
      | (Ok save_dir, w2) =>
          match enqueue_all save_dir image_urls 1 w2 d1 with
          | (Raise e, w3, d3) => Some (Raise e, w3, d3)
          | (Ok _, w3, d3) =>
              let d4 := set_stats (set_total (Z.of_nat (length image_urls))) d3 in
              let d5 := set_running true d4 in
              let n := Z.to_nat (Z.min (max_workers cfg) (Z.of_nat (length image_urls))) in
              match run schedule {| world := w3; self := d5; threads := replicate n AtLoop |} with
              | Some s =>
                  if (unfinished_tasks (self s) =? 0)%Z
                  then Some (Ok true, world s, set_running false (self s))
                  else None
              | None => None
              end
          end
      end
  end.

End Engine.

(** ** A concrete outside world for the scenarios *)

Module Scenario.

(** The text after the first occurrence of [p] in [s]. *)
Fixpoint after_first (p s : string) : option string :=
  if Str.startswith p s then Some (String.substring (String.length p) (String.length s) s)
  else match s with
       | EmptyString => None
       | String _ r => after_first p r
       end.

(** The suffix of [s] that starts at its first [c]. *)
Fixpoint from_char (c : ascii) (s : string) : string :=
  match s with
  | EmptyString => EmptyString
  | String a r => if ascii_dec a c then s else from_char c r
  end.

(** The path of a URL [scheme://host/path?query#fragment]. *)
Definition url_path (url : string) : string :=
  let rest := match after_first "://" url with
              | Some r => from_char "/" r
              | None => url
              end in
  Str.before "?" (Str.before "#" rest).

(** Every URL serves the same [payload] as [image/jpeg]; Pillow accepts
    it; the clock stands still; the digest of a byte string is the
    string itself behind a tag, so equal digests mean equal bytes. *)
Definition payload : list byte := replicate 1024 x2a.

Definition reply : Response := {|
  status_code := 200;
  header_content_length := Some 1024;
  header_content_type := "image/jpeg";
  body := payload;
  stream_error := None;
|}.

Definition env : Outside := {|
  urlparse_path := fun url => Ok (url_path url);
  unquote := fun s => s;
  guess_extension := fun _ => None;
  strftime := fun _ t => pretty t;
  clock := fun _ => 1700000000;
  requests_get := fun _ _ => Ok reply;
  requests_head := fun _ _ => Raise (RequestException "timed out");
  md5_hexdigest := fun b => "md5:" +:+ string_of_list_byte b;
  image_open := fun _ => true;
  image_verify := fun _ => true;
  may_write := fun _ => true;
|}.

Definition empty_world : World :=
  {| fs := ∅; ticks := 0; get_log := []; head_log := [] |}.

Definition a_jpg : string := "http://example.com/a.jpg".
Definition b_jpg : string := "http://example.com/b.jpg".

(** The same world with the network down: every GET raises. *)
Definition offline : Outside := {|
  urlparse_path := urlparse_path env;
  unquote := unquote env;
  guess_extension := guess_extension env;
  strftime := strftime env;
  clock := clock env;
  requests_get := fun _ _ => Raise (RequestException "connection refused");
  requests_head := requests_head env;
  md5_hexdigest := md5_hexdigest env;
  image_open := image_open env;
  image_verify := image_verify env;
  may_write := may_write env;
|}.

(** A server that answers every GET with an HTML page labelled
    [image/jpeg]; Pillow opens none of it. *)
Definition error_page : Response := {|
  status_code := 200;
  header_content_length := None;
  header_content_type := "image/jpeg";
  body := list_byte_of_string "<html><body>404 Not Found</body></html>";
  stream_error := None;
|}.

Definition lying_server : Outside := {|
  urlparse_path := urlparse_path env;
  unquote := unquote env;
  guess_extension := guess_extension env;
  strftime := strftime env;
  clock := clock env;
  requests_get := fun _ _ => Ok error_page;
  requests_head := requests_head env;
  md5_hexdigest := md5_hexdigest env;
  image_open := fun _ => false;
  image_verify := fun _ => false;
  may_write := may_write env;
|}.

(** The default configuration with one worker, with dedup off, and
    with the naming pattern [{filename}]. *)
Definition one_worker : Config := {|
  save_dir := save_dir default_config;
  max_workers := 1;
  timeout := timeout default_config;
  rename_pattern := rename_pattern default_config;
  auto_create_subdir := auto_create_subdir default_config;
  subdir_pattern := subdir_pattern default_config;
  deduplicate := true;
  supported_extensions := supported_extensions default_config;
  min_file_size := min_file_size default_config;
  max_file_size := max_file_size default_config;
  retry_attempts := retry_attempts default_config;
  retry_delay := retry_delay default_config;
|}.

Definition one_worker_no_dedup : Config := {|
  save_dir := save_dir default_config;
  max_workers := 1;
  timeout := timeout default_config;
  rename_pattern := rename_pattern default_config;
  auto_create_subdir := auto_create_subdir default_config;
  subdir_pattern := subdir_pattern default_config;
  deduplicate := false;
  supported_extensions := supported_extensions default_config;
  min_file_size := min_file_size default_config;
  max_file_size := max_file_size default_config;
  retry_attempts := retry_attempts default_config;
  retry_delay := retry_delay default_config;
|}.


(** What the caller reads after a batch: the result, the counters, the
    lines printed and the saved paths. *)
Definition summary (run : option (res bool * World * Downloader))
  : option (res bool * Stats * list line * list string) :=
  match run with
  | Some (r, _, d) => Some (r, stats d, printed d, downloaded_files d)
  | None => None
  end.

End Scenario.

(** ** More book-keeping over the threads of a pool *)



(** The path of the task a thread holds, while the thread may still
    write to it, delete it or list it. *)
Definition held_path (p : pc) : list string :=
  match p with
  | Fetch t | Hashing t | IfDedup t _ | IfSeen t _ | RemoveDup t
  | AddHash t _ | AppendFile t => [task_path t]
  | _ => []
  end.

(** The same path once [download_image] has returned for it. *)
Definition fetched_path (p : pc) : list string :=
  match p with
  | Hashing t | IfDedup t _ | IfSeen t _ | RemoveDup t
  | AddHash t _ | AppendFile t => [task_path t]
  | _ => []
  end.

Section Kept.

Variable env : Outside.
Variable cfg : Config.

(** A file that passed the checks of [download_image]. *)
Definition checked_file (w : World) (path : string) : Prop :=
  exists data,
    fs w !! path = Some data /\
    (min_file_size cfg <= Z.of_nat (length data))%Z /\
    image_open env data = true /\
    image_verify env data = true.

(** The files of a batch at every moment: no two tasks share a path,
    and what was fetched and not removed is on disk. *)
Record files_inv (s : Sys) : Prop := {
  inv_distinct :
    NoDup (map task_path (download_queue (self s))
           ++ concat (map held_path (threads s))
           ++ downloaded_files (self s));
  inv_on_disk :
    forall path,
      path ∈ concat (map fetched_path (threads s)) ++ downloaded_files (self s) ->
      checked_file (world s) path;
}.

End Kept.

(** A pool of one thread at every moment: the lines printed, the task in
    hand and the queue are the batch, in its order. *)
Definition fifo_inv (urls : list string) (printed0 : list line) (p : pc) (d : Downloader)
  : Prop :=
  exists lines,
    printed d = printed0 ++ lines /\
    map line_url lines ++ pending_url p ++ map task_url (download_queue d) = urls.

(** A naming pattern with no [/] in its literal text. *)
Definition plain_pattern (pattern : list segment) : Prop :=
  Forall (fun seg => match seg with
                     | Lit text => Str.contains "/" text = false
                     | Field _ => True
                     end) pattern.

(** A reply whose headers pass and whose body breaks off. *)
Definition breaks_off (cfg : Config) (reply : res Response) : Prop :=
  exists r e,
    reply = Ok r /\
    (status_code r < 400 \/ 600 <= status_code r)%Z /\
    (default 0 (header_content_length r) <= max_file_size cfg)%Z /\
    (default 0 (header_content_length r) <= 0 \/
     min_file_size cfg <= default 0 (header_content_length r))%Z /\
    Str.contains "image/" (Str.lower (header_content_type r)) = true /\
    stream_error r = Some e.

(** ** Text from the clipboard and the text boxes

    A [str] is its UTF-8 bytes. *)

Module Text.

Definition of_bytes (codes : list nat) : string :=
  String.string_of_list_ascii (map ascii_of_nat codes).

(** The characters [str.isspace] accepts, which are the ones [\s]
    matches in a [str] pattern, in UTF-8. *)
Definition white_space : list string :=
  map of_bytes
    [ [9]; [10]; [11]; [12]; [13]; [28]; [29]; [30]; [31]; [32];
      [194; 133]; [194; 160];
      [225; 154; 128];
      [226; 128; 128]; [226; 128; 129]; [226; 128; 130]; [226; 128; 131];
      [226; 128; 132]; [226; 128; 133]; [226; 128; 134]; [226; 128; 135];
      [226; 128; 136]; [226; 128; 137]; [226; 128; 138];
      [226; 128; 168]; [226; 128; 169]; [226; 128; 175];
      [226; 129; 159];
      [227; 128; 128] ]%nat.

(** The number of bytes of the white-space character [s] starts with,
    0 when it starts with none. *)
Definition space_width (s : string) : nat :=
  match find (fun space => Str.startswith space s) white_space with
  | Some space => String.length space
  | None => O
  end.

(** [s[n:]] *)
Fixpoint drop (n : nat) (s : string) : string :=
  match n, s with
  | O, _ => s
  | S k, String _ r => drop k r
  | S _, EmptyString => EmptyString
  end.

(** [s.lstrip()]; [skip] bytes of a white-space character are still to
    be dropped. *)
Fixpoint lstrip_go (skip : nat) (s : string) : string :=
  match s with
  | EmptyString => EmptyString
  | String _ r =>
      match skip with
      | S k => lstrip_go k r
      | O => match space_width s with
             | O => s
             | S k => lstrip_go k r
             end
      end
  end.

Definition lstrip (s : string) : string := lstrip_go 0 s.

(** [s.rstrip()]: [s] up to the point from where all is white space. *)
Fixpoint rstrip (s : string) : string :=
  match s with
  | EmptyString => EmptyString
  | String c r => if String.eqb (lstrip s) "" then EmptyString else String c (rstrip r)
  end.

(** [s.strip()] *)
Definition strip (s : string) : string := rstrip (lstrip s).

(** [s.split(c)] *)
Fixpoint split (c : ascii) (s : string) : list string :=
  match s with
  | EmptyString => [EmptyString]
  | String a r =>
      if Ascii.eqb a c then EmptyString :: split c r
      else match split c r with
           | first :: others => String a first :: others
           | [] => [String a EmptyString]
           end
  end.

(** [s] without the characters of [chars] at its end:
    [while s and s[-1] in chars: s = s[:-1]]. *)
Fixpoint rstrip_chars (chars : list ascii) (s : string) : string :=
  match s with
  | EmptyString => EmptyString
  | String c r =>
      match rstrip_chars chars r with
      | EmptyString => if existsb (Ascii.eqb c) chars then EmptyString else String c EmptyString
      | kept => String c kept
      end
  end.

End Text.

Module Clipboard.

(** The class of the pattern at the start of [s]: a character that is
    neither white space nor one of the angle brackets and the two quotes. *)
Definition url_char (s : string) : bool :=
  match s with
  | EmptyString => false
  | String c _ =>
      (Nat.eqb (Text.space_width s) 0
       && negb (existsb (Ascii.eqb c) ["<"; ">"; "034"; "'"]%char))%bool
  end.

(** The longest text of that class [s] starts with. *)
Fixpoint url_run (s : string) : string :=
  match s with
  | EmptyString => EmptyString
  | String c r => if url_char s then String c (url_run r) else EmptyString
  end.

(** What [scheme] and at least one character of the class match at the
    start of [s]. *)
Definition match_scheme (scheme s : string) : option string :=
  if Str.startswith scheme s then
    match url_run (Text.drop (String.length scheme) s) with
    | EmptyString => None
    | run => Some (scheme +:+ run)
    end
  else None.

(** What [url_pattern] matches at the start of [s]: [http], an [s] or
    none, [://], and the longest run of the class, not empty. *)
Definition match_url (s : string) : option string :=
  match match_scheme "https://" s with
  | Some found => Some found
  | None => match_scheme "http://" s
  end.

(** [re.findall(url_pattern, s)]: the matches from left to right, the
    search going on behind each; [skip] bytes of the last match are
    still to be passed. *)
Fixpoint findall_go (skip : nat) (s : string) : list string :=
  match s with
  | EmptyString => []
  | String _ r =>
      match skip with
      | S k => findall_go k r
      | O => match match_url s with
             | Some found => found :: findall_go (String.length found - 1) r
             | None => findall_go 0 r
             end
      end
  end.

Definition findall (s : string) : list string := findall_go 0 s.

Definition trailing_punctuation : list ascii :=
  ["."; ","; ";"; ":"; "!"; "?"; ")"; "}"; "'"; "034"]%char.

(** [extract_urls_from_clipboard], given what [pyperclip.paste()] did:
    the list returned and the line printed when the clipboard could not
    be read. *)
Definition extract_urls_from_clipboard (paste : res string) : list string * option string :=
  match paste with
  | Raise e => ([], Some ("读取粘贴板失败: " +:+ str_exn e))
  | Ok clipboard_content =>
      if String.eqb clipboard_content "" then ([], None)
      else (map (Text.rstrip_chars trailing_punctuation) (findall clipboard_content), None)
  end.

End Clipboard.

(** Every character of [s] is of the class of the pattern. *)
Fixpoint all_url_chars (s : string) : bool :=
  match s with
  | EmptyString => true
  | String _ r => (Clipboard.url_char s && all_url_chars r)%bool
  end.

(** [s[-1]] *)
Fixpoint last_char (s : string) : option ascii :=
  match s with
  | EmptyString => None
  | String c EmptyString => Some c
  | String _ r => last_char r
  end.

(** Every byte of [s] continues a character: none is ASCII. *)
Fixpoint no_ascii (s : string) : bool :=
  match s with
  | EmptyString => true
  | String c r => (Nat.leb 128 (nat_of_ascii c) && no_ascii r)%bool
  end.

(** A link as [extract_urls_from_clipboard] returns them when it has
    nothing to cut: a scheme, at least one character after it, every
    character of the class of the pattern, the last one not among the
    trailing punctuation. *)
Definition link (url : string) : Prop :=
  exists scheme rest,
    (scheme = "http://" \/ scheme = "https://") /\
    url = scheme +:+ rest /\ rest <> "" /\
    all_url_chars url = true /\
    forall c, last_char url = Some c ->
              existsb (Ascii.eqb c) Clipboard.trailing_punctuation = false.

(** No white-space character stands anywhere in [s]. *)
Fixpoint no_space (s : string) : bool :=
  match s with
  | EmptyString => true
  | String _ r => (Nat.eqb (Text.space_width s) 0 && no_space r)%bool
  end.

Module Gui.

Definition newline : string := String "010" EmptyString.

(** What [urls_text.get(1.0, tk.END)] reads after [refresh_clipboard]
    has inserted [image_urls]: every link with a newline behind it, and
    the newline a Tk text widget ends with. *)
Definition urls_text (image_urls : list string) : string :=
  foldr (fun url text => url +:+ newline +:+ text) newline image_urls.

(** Lines 511-512 of [start_download]: the links read back from the box. *)
Definition urls_of_text (text : string) : list string :=
  map Text.strip
      (filter (fun url => Text.strip url <> "") (Text.split "010" (Text.strip text))).

End Gui.

Section Refresh.
Variable env : Outside.
Variable cfg : Config.

(** [[url for url in urls if self.downloader.is_image_url(url)]] *)
Fixpoint image_urls_of (urls : list string) : M (list string) :=
  match urls with
  | [] => ret []
  | url :: rest =>
      let* keep := is_image_url env cfg url in
      let* others := image_urls_of rest in
      ret (if keep then url :: others else others)
  end.

End Refresh.

(** A link that can stand in the box: not empty, no white space in it. *)
Definition listed (url : string) : Prop := url <> "" /\ no_space url = true.

(** ** zip包转pdf.py: the images of an archive, one per page *)

Module ZipPdf.

(** [os.path.splitext] of a path: the extension is looked for in the
    part after the last [/]. *)
Definition splitext (p : string) : string * string :=
  let name := Str.basename p in
  let head := String.substring 0 (String.length p - String.length name) p in
  let '(stem, ext) := Str.splitext name in
  (head +:+ stem, ext).

(** What is caught: [zipfile.BadZipFile], or another exception with its
    [str(e)]. *)
Inductive failure : Type :=
  | BadZipFile
  | Failure (msg : string).

Inductive outcome (A : Type) : Type :=
  | Done (a : A)
  | Raised (e : failure).
Arguments Done {A} a.
Arguments Raised {A} e.

(** The lines the script prints, by the text they begin with. *)
Inductive message : Type :=
  | NoSuchFile (zip_path : string)           (* 错误: 文件 .. 不存在 *)
  | NoImages                                 (* 错误: ZIP文件中没有找到支持的图片文件 *)
  | SupportedFormats                         (* 支持的格式: .. *)
  | Found (images : nat)                     (* 找到 .. 张图片 *)
  | SortedByName                             (* 已按文件名排序 *)
  | Processed (img_file : string) (i n : nat)   (* 已处理: .. (i/n) *)
  | ImageError (img_file : string) (e : failure)   (* 处理图片 .. 时出错: .. *)
  | Created (output_pdf : string)            (* PDF已成功创建: .. *)
  | Converted (images : nat)                 (* 共转换了 .. 张图片 *)
  | NotAZip (zip_path : string)              (* 错误: .. 不是有效的ZIP文件 *)
  | Error (e : string)                       (* 处理过程中出错: .. *)
  | NoSuchFolder (folder_path : string)      (* 错误: 文件夹 .. 不存在 *)
  | NoZipFiles                               (* 错误: 文件夹中没有找到ZIP文件 *)
  | FoundZips (archives : nat)               (* 找到 .. 个ZIP文件 *)
  | Processing (zip_file : string).          (* 正在处理: .. *)

(** What the script does that can be seen: the lines printed and the
    calls on the canvas. *)
Inductive event : Type :=
  | Print (m : message)
  | NewCanvas (output_pdf : string)
  | DrawImage (img_path : string) (x_offset y_offset width height : float)
  | ShowPage
  | Save
  | MakeDirs (path : string).

Record Outside : Type := {
  (** [os.path.exists] *)
  path_exists : string -> bool;
  (** [zipfile.ZipFile(zip_path, 'r').namelist()] *)
  namelist : string -> outcome (list string);
  (** the directory [tempfile.TemporaryDirectory()] makes *)
  temp_dir : outcome string;
  (** the removal of that directory when its [with] is left *)
  cleanup : string -> outcome unit;
  (** [zip_ref.extract(img_file, temp_dir)] *)
  extract : string -> string -> string -> outcome unit;
  (** [Image.open(img_path).size], in pixels *)
  image_size : string -> outcome (N * N);
  (** whether [c.drawImage] takes the file *)
  draw_image : string -> outcome unit;
  (** [c.save()] *)
  save : string -> outcome unit;
  (** [os.listdir] *)
  listdir : string -> outcome (list string);
  (** [os.makedirs(path, exist_ok=True)] *)
  makedirs : string -> outcome unit;
}.

Definition supported_formats : list string :=
  [".jpg"; ".jpeg"; ".png"; ".bmp"; ".gif"; ".tiff"; ".webp"].

(** [os.path.splitext(f.lower())[1] in supported_formats] *)
Definition is_image_file (f : string) : bool :=
  bool_decide ((splitext (Str.lower f)).2 ∈ supported_formats).

(** [letter], in points. *)
Definition letter : float * float := (612, 792)%float.

(** An [int] as a [float]: exact below 2^53, rounded above. *)
Definition float_of (n : N) : float := of_uint63 (Uint63.of_Z (Z.of_N n)).

(** Lines 75-86: the place of an image of [img_width] by [img_height]
    pixels on the page; a division by zero raises. *)
Definition placement (img_width img_height : N) : outcome (float * float * float * float) :=
  let '(page_width, page_height) := letter in
  if (img_width =? 0)%N then Raised (Failure "float division by zero")
  else
    let scale_width := (page_width / float_of img_width)%float in
    if (img_height =? 0)%N then Raised (Failure "float division by zero")
    else
      let scale_height := (page_height / float_of img_height)%float in
      let scale := if (scale_height <? scale_width)%float then scale_height else scale_width in
      let new_width := (float_of img_width * scale)%float in
      let new_height := (float_of img_height * scale)%float in
      let x_offset := ((page_width - new_width) / 2)%float in
      let y_offset := ((page_height - new_height) / 2)%float in
      Done (x_offset, y_offset, new_width, new_height).

(** [image_files.sort()]: ascending, by code point. *)
Definition name_le (a b : string) : Prop := String.leb a b = true.

#[global] Instance name_le_dec : RelDecision name_le :=
  fun a b => decide (String.leb a b = true).

Definition sort_names (names : list string) : list string :=
  merge_sort name_le names.

Section Script.

Variable env : Outside.

(** The body of the [try] of the loop, for the [i]-th of [n] files. *)
Definition draw_page (zip_path temp img_file : string) (i n : nat) : outcome (list event) :=
  match extract env zip_path img_file temp with
  | Raised e => Raised e
  | Done _ =>
      let img_path := Str.join temp img_file in
      match image_size env img_path with
      | Raised e => Raised e
      | Done (img_width, img_height) =>
          match placement img_width img_height with
          | Raised e => Raised e
          | Done (x_offset, y_offset, new_width, new_height) =>
              match draw_image env img_path with
              | Raised e => Raised e
              | Done _ =>
                  Done (DrawImage img_path x_offset y_offset new_width new_height
                        :: (if (i <? n)%nat then [ShowPage] else [])
                        ++ [Print (Processed img_file i n)])
              end
          end
      end
  end.

(** The loop over the image files, from the [i]-th on. *)
Fixpoint draw_pages (zip_path temp : string) (image_files : list string) (i n : nat)
  : list event :=
  match image_files with
  | [] => []
  | img_file :: rest =>
      match draw_page zip_path temp img_file i n with
      | Done events => events
      | Raised e => [Print (ImageError img_file e)]
      end ++ draw_pages zip_path temp rest (S i) n
  end.

Definition caught (e : failure) (zip_path : string) : message :=
  match e with
  | BadZipFile => NotAZip zip_path
  | Failure msg => Error msg
  end.

(** Lines 27-29: the path of the PDF. *)
Definition output_path (zip_path : string) (output_pdf : option string) : string :=
  match output_pdf with
  | Some path => path
  | None => (splitext zip_path).1 +:+ ".pdf"
  end.


Definition zip_to_pdf (zip_path : string) (output_pdf : option string) (sort_by_name : bool)
  : list event :=
  if negb (path_exists env zip_path) then [Print (NoSuchFile zip_path)]
  else
    let output_pdf := output_path zip_path output_pdf in
    match namelist env zip_path with
    | Raised e => [Print (caught e zip_path)]
    | Done file_list =>
        let image_files := filter (fun f => is_image_file f = true) file_list in
        match image_files with
        | [] => [Print NoImages; Print SupportedFormats]
        | _ :: _ =>
            let n := length image_files in
            let image_files := if sort_by_name then sort_names image_files else image_files in
            Print (Found n)
            :: (if sort_by_name then [Print SortedByName] else [])
            ++ match temp_dir env with
               | Raised e => [Print (caught e zip_path)]
               | Done temp =>
                   NewCanvas output_pdf
                   :: draw_pages zip_path temp image_files 1 n
                   ++ match save env output_pdf with
                      | Raised e =>
                          (* what the removal raises takes the place of [e] *)
                          match cleanup env temp with
                          | Raised e' => [Print (caught e' zip_path)]
                          | Done _ => [Print (caught e zip_path)]
                          end
                      | Done _ =>
                          Save :: Print (Created output_pdf) :: Print (Converted n)
                          :: match cleanup env temp with
                             | Raised e => [Print (caught e zip_path)]
                             | Done _ => []
                             end
                      end
               end
        end
    end.

(** [batch_convert_zips_to_pdfs]: what it does, and the exception that
    leaves it when [os.listdir] or [os.makedirs] raises. *)
Definition batch_convert_zips_to_pdfs (folder_path : string) (output_folder : option string)
  : list event * option failure :=
  if negb (path_exists env folder_path) then ([Print (NoSuchFolder folder_path)], None)
  else
    match listdir env folder_path with
    | Raised e => ([], Some e)
    | Done names =>
        let zip_files := filter (fun f => Str.endswith (Str.lower f) ".zip" = true) names in
        match zip_files with
        | [] => ([Print NoZipFiles], None)
        | _ :: _ =>
            let output_folder :=
              match output_folder with
              | Some path => path
              | None => Str.join folder_path "pdf_output"
              end in
            match makedirs env output_folder with
            | Raised e => ([Print (FoundZips (length zip_files))], Some e)
            | Done _ =>
                (Print (FoundZips (length zip_files))
                 :: MakeDirs output_folder
                 :: flat_map
                      (fun zip_file =>
                         let zip_path := Str.join folder_path zip_file in
                         let output_pdf :=
                           Str.join output_folder ((splitext zip_file).1 +:+ ".pdf") in
                         Print (Processing zip_file)
                         :: zip_to_pdf zip_path (Some output_pdf) true)
                      zip_files,
                 None)
            end
        end
    end.

End Script.



End ZipPdf.

(** ** More outside worlds for the scenarios *)

Module Cases.

(** A server that declares sixty megabytes for every image. *)
Definition oversized_reply : Response := {|
  status_code := 200;
  header_content_length := Some (60 * 1024 * 1024);
  header_content_type := "image/jpeg";
  body := Scenario.payload;
  stream_error := None;
|}.

Definition oversized : Outside := {|
  urlparse_path := urlparse_path Scenario.env;
  unquote := unquote Scenario.env;
  guess_extension := guess_extension Scenario.env;
  strftime := strftime Scenario.env;
  clock := clock Scenario.env;
  requests_get := fun _ _ => Ok oversized_reply;
  requests_head := requests_head Scenario.env;
  md5_hexdigest := md5_hexdigest Scenario.env;
  image_open := image_open Scenario.env;
  image_verify := image_verify Scenario.env;
  may_write := may_write Scenario.env;
|}.

(** A server that declares no length and sends three thousand bytes,
    and a configuration that allows two thousand. *)
Definition chunked_reply : Response := {|
  status_code := 200;
  header_content_length := None;
  header_content_type := "image/jpeg";
  body := replicate 3000 x2a;
  stream_error := None;
|}.

Definition chunked : Outside := {|
  urlparse_path := urlparse_path Scenario.env;
  unquote := unquote Scenario.env;
  guess_extension := guess_extension Scenario.env;
  strftime := strftime Scenario.env;
  clock := clock Scenario.env;
  requests_get := fun _ _ => Ok chunked_reply;
  requests_head := requests_head Scenario.env;
  md5_hexdigest := md5_hexdigest Scenario.env;
  image_open := image_open Scenario.env;
  image_verify := image_verify Scenario.env;
  may_write := may_write Scenario.env;
|}.

Definition small_cap : Config := {|
  save_dir := save_dir default_config;
  max_workers := max_workers default_config;
  timeout := timeout default_config;
  rename_pattern := rename_pattern default_config;
  auto_create_subdir := auto_create_subdir default_config;
  subdir_pattern := subdir_pattern default_config;
  deduplicate := deduplicate default_config;
  supported_extensions := supported_extensions default_config;
  min_file_size := min_file_size default_config;
  max_file_size := 2000;
  retry_attempts := retry_attempts default_config;
  retry_delay := retry_delay default_config;
|}.

(** A server whose replies break off after ten bytes. *)
Definition cut_off_reply : Response := {|
  status_code := 200;
  header_content_length := None;
  header_content_type := "image/jpeg";
  body := replicate 10 x2a;
  stream_error := Some (RequestException "connection broken");
|}.

Definition cut_off : Outside := {|
  urlparse_path := urlparse_path Scenario.env;
  unquote := unquote Scenario.env;
  guess_extension := guess_extension Scenario.env;
  strftime := strftime Scenario.env;
  clock := clock Scenario.env;
  requests_get := fun _ _ => Ok cut_off_reply;
  requests_head := requests_head Scenario.env;
  md5_hexdigest := md5_hexdigest Scenario.env;
  image_open := image_open Scenario.env;
  image_verify := image_verify Scenario.env;
  may_write := may_write Scenario.env;
|}.

(** The default configuration with no worker, with a negative delay,
    and with a naming pattern that has a field of its own. *)
Definition no_workers : Config := {|
  save_dir := save_dir default_config;
  max_workers := 0;
  timeout := timeout default_config;
  rename_pattern := rename_pattern default_config;
  auto_create_subdir := auto_create_subdir default_config;
  subdir_pattern := subdir_pattern default_config;
  deduplicate := deduplicate default_config;
  supported_extensions := supported_extensions default_config;
  min_file_size := min_file_size default_config;
  max_file_size := max_file_size default_config;
  retry_attempts := retry_attempts default_config;
  retry_delay := retry_delay default_config;
|}.

Definition negative_delay : Config := {|
  save_dir := save_dir default_config;
  max_workers := max_workers default_config;
  timeout := timeout default_config;
  rename_pattern := rename_pattern default_config;
  auto_create_subdir := auto_create_subdir default_config;
  subdir_pattern := subdir_pattern default_config;
  deduplicate := deduplicate default_config;
  supported_extensions := supported_extensions default_config;
  min_file_size := min_file_size default_config;
  max_file_size := max_file_size default_config;
  retry_attempts := retry_attempts default_config;
  retry_delay := -1;
|}.

Definition odd_pattern : Config := {|
  save_dir := save_dir default_config;
  max_workers := max_workers default_config;
  timeout := timeout default_config;
  rename_pattern := [Field (Unknown "name"); Lit ".jpg"];
  auto_create_subdir := auto_create_subdir default_config;
  subdir_pattern := subdir_pattern default_config;
  deduplicate := deduplicate default_config;
  supported_extensions := supported_extensions default_config;
  min_file_size := min_file_size default_config;
  max_file_size := max_file_size default_config;
  retry_attempts := retry_attempts default_config;
  retry_delay := retry_delay default_config;
|}.

(** A file that was on disk before the batch. *)
Definition old_file : World :=
  {| fs := {[ "/pics/000_old.jpg" := [] ]}; ticks := 0; get_log := []; head_log := [] |}.

(** A clipboard with two links in a sentence. *)
Definition sentence : string :=
  "see http://example.com/a.jpg, (https://example.com/b.png).".

(** A folder with one archive: two images and a text file; Pillow
    cannot read [b.png]. *)
Definition album : ZipPdf.Outside := {|
  ZipPdf.path_exists := fun _ => true;
  ZipPdf.namelist := fun _ => ZipPdf.Done ["b.png"; "notes.txt"; "a.jpg"];
  ZipPdf.temp_dir := ZipPdf.Done "/tmp/t";
  ZipPdf.cleanup := fun _ => ZipPdf.Done tt;
  ZipPdf.extract := fun _ _ _ => ZipPdf.Done tt;
  ZipPdf.image_size := fun img_path =>
    if String.eqb img_path "/tmp/t/b.png"
    then ZipPdf.Raised (ZipPdf.Failure "cannot identify image file")
    else ZipPdf.Done (800%N, 600%N);
  ZipPdf.draw_image := fun _ => ZipPdf.Done tt;
  ZipPdf.save := fun _ => ZipPdf.Done tt;
  ZipPdf.listdir := fun _ => ZipPdf.Done ["album.zip"; "readme.txt"];
  ZipPdf.makedirs := fun _ => ZipPdf.Done tt;
|}.

End Cases.

(** * Properties *)

(** ** The string functions on sample inputs *)

Example splitext_jpg : Str.splitext "001_a.tar.jpg" = ("001_a.tar", ".jpg").
Proof. reflexivity. Qed.
Example splitext_hidden : Str.splitext ".bashrc" = (".bashrc", "").
Proof. reflexivity. Qed.
Example splitext_none : Str.splitext "image" = ("image", "").
Proof. reflexivity. Qed.
Example basename_url : Str.basename "/img/cat.png" = "cat.png".
Proof. reflexivity. Qed.
Example basename_dir : Str.basename "/img/" = "".
Proof. reflexivity. Qed.
Example endswith_jpg : Str.endswith "/img/cat.jpg" ".jpg" = true.
Proof. reflexivity. Qed.
Example format_d_3 : Str.format_d 3 7 = "007".
Proof. vm_compute. reflexivity. Qed.
Example format_d_wide : Str.format_d 3 1234 = "1234".
Proof. vm_compute. reflexivity. Qed.
Example join_plain : Str.join "/home/u/pics" "001_a.jpg" = "/home/u/pics/001_a.jpg".
Proof. reflexivity. Qed.

Example url_path_plain : Scenario.url_path "http://example.com/img/a.jpg?x=1#top" = "/img/a.jpg".
Proof. reflexivity. Qed.

(** Unfolds the monad's combinators in the goal and the hypotheses. *)
Ltac unfold_monad :=
  unfold bind, try_except, ret, raise, lift in *.

(** ** Classifier *)

Section Classifier.

Variable env : Outside.
Variable cfg : Config.

Lemma is_image_url_by_extension url w :
  has_image_extension env cfg url -> is_image_url env cfg url w = (Ok true, w).
Proof.
  intros (path & Hpath & Hext). unfold is_image_url. unfold_monad.
  by rewrite Hpath, Hext.
Qed.

Lemma is_image_url_total url w :
  exists b w', is_image_url env cfg url w = (Ok b, w').
Proof.
  unfold is_image_url, http_head. unfold_monad.
  destruct (urlparse_path env url) as [path|e]; [|eauto].
  destruct (existsb _ (supported_extensions cfg)); [eauto|].
  destruct (requests_head env _ url) as [header|e]; [|eauto].
  destruct (existsb _ image_types); eauto.
Qed.

(** C9: [is_image_url] never raises: it always returns a boolean; when
    the lower-cased URL path ends with a configured extension it returns
    [True] and leaves the world as it was (no network request); when no
    extension matches and the HEAD probe raises, it returns [False]. *)
Theorem is_image_url_never_raises (url : string) (w : World) :
  (exists b w', is_image_url env cfg url w = (Ok b, w')) /\
  (forall path,
      urlparse_path env url = Ok path ->
      existsb (fun ext => Str.endswith (Str.lower path) ext) (supported_extensions cfg) = true ->
      is_image_url env cfg url w = (Ok true, w)) /\
  (forall path e,
      urlparse_path env url = Ok path ->
      existsb (fun ext => Str.endswith (Str.lower path) ext) (supported_extensions cfg) = false ->
      requests_head env (length (head_log w)) url = Raise e ->
      is_image_url env cfg url w = (Ok false, log_head url w)).
Proof.
  unfold is_image_url, http_head. unfold_monad.
  repeat split.
  - destruct (urlparse_path env url) as [path|e]; [|eauto].
    destruct (existsb _ (supported_extensions cfg)); [eauto|].
    destruct (requests_head env _ url) as [header|e]; [|eauto].
    destruct (existsb _ image_types); eauto.
  - intros path Hp Hext. apply is_image_url_by_extension. by exists path.
  - intros path e Hp Hext Hhead. rewrite Hp, Hext, Hhead. reflexivity.
Qed.

End Classifier.

(** A [.jpg] URL is accepted without a probe; a failing probe gives [False]. *)
Lemma is_image_url_never_raises_witness :
  is_image_url Scenario.env default_config Scenario.a_jpg Scenario.empty_world
    = (Ok true, Scenario.empty_world) /\
  is_image_url Scenario.env default_config "http://example.com/page" Scenario.empty_world
    = (Ok false, log_head "http://example.com/page" Scenario.empty_world).
Proof.
  split.
  - apply (proj1 (proj2 (is_image_url_never_raises Scenario.env default_config
                           Scenario.a_jpg Scenario.empty_world)) "/a.jpg");
      reflexivity.
  - apply (proj2 (proj2 (is_image_url_never_raises Scenario.env default_config
                           "http://example.com/page" Scenario.empty_world))
             "/page" (RequestException "timed out"));
      reflexivity.
Defined.

(** ** Fetcher *)

Section Fetcher.

Variable env : Outside.
Variable cfg : Config.

Lemma validate_saved_get_log path w r w' :
  validate_saved env cfg path w = (r, w') -> get_log w' = get_log w.
Proof.
  unfold validate_saved, getsize, remove, read_file. unfold_monad.
  intros H. repeat case_match; simplify_eq; reflexivity.
Qed.

(** Every try sends exactly one GET request. *)
Lemma download_try_get_log url path w r w' :
  download_try env cfg url path w = (r, w') -> get_log w' = get_log w ++ [url].
Proof.
  unfold download_try, bind at 1.
  destruct (fetch_and_save env cfg url path w) as [[[]|e] w1] eqn:Hf; intros H.
  - apply validate_saved_get_log in H. rewrite H. clear H.
    revert Hf. unfold fetch_and_save, http_get, raise_for_status, response_content,
      save_stream. unfold_monad.
    intros H. repeat case_match; simplify_eq; reflexivity.
  - simplify_eq. revert Hf.
    unfold fetch_and_save, http_get, raise_for_status, response_content,
      save_stream. unfold_monad.
    intros H. repeat case_match; simplify_eq; reflexivity.
Qed.

(** A try returns [True] or raises. *)
Lemma download_try_true url path w b w' :
  download_try env cfg url path w = (Ok b, w') -> b = true.
Proof.
  unfold download_try, validate_saved, getsize, remove, read_file. unfold_monad.
  intros H. repeat case_match; simplify_eq; reflexivity.
Qed.

(** The recursion of the source: [retry_count] counts up to [retry_attempts]. *)
Lemma download_image_unfold url path retry_count :
  download_image env cfg url path retry_count =
  try_except (download_try env cfg url path)
    (fun e => if (retry_count <? retry_attempts cfg)%Z
              then sleep (retry_delay cfg)
                   >>> download_image env cfg url path (retry_count + 1)
              else raise e).
Proof.
  unfold download_image.
  destruct (retry_count <? retry_attempts cfg)%Z eqn:Hlt.
  - apply Z.ltb_lt in Hlt.
    replace (Z.to_nat (retry_attempts cfg - retry_count))
      with (S (Z.to_nat (retry_attempts cfg - (retry_count + 1)))) by lia.
    reflexivity.
  - apply Z.ltb_ge in Hlt.
    replace (Z.to_nat (retry_attempts cfg - retry_count)) with O by lia.
    reflexivity.
Qed.

Lemma download_image_from_true n url path w b w' :
  download_image_from env cfg n url path w = (Ok b, w') -> b = true.
Proof.
  revert w. induction n as [|n IH]; intros w; simpl; unfold try_except.
  - destruct (download_try env cfg url path w) as [[b0|e] w1] eqn:Ht; intros H.
    + simplify_eq. eapply download_try_true; eauto.
    + discriminate.
  - destruct (download_try env cfg url path w) as [[b0|e] w1] eqn:Ht; intros H.
    + simplify_eq. eapply download_try_true; eauto.
    + unfold bind, sleep in H. destruct (retry_delay cfg <? 0)%Z; [discriminate|].
      simpl in H. eauto.
Qed.


End Fetcher.

(** ** Worker pool: running one thread *)

Section Pool.

Variable env : Outside.
Variable cfg : Config.

Lemma step_at i s p :
  threads s !! i = Some p ->
  step env cfg i s =
  Some {| world := (worker_step env cfg p (world s) (self s)).1.2;
          self := (worker_step env cfg p (world s) (self s)).2;
          threads := <[i := (worker_step env cfg p (world s) (self s)).1.1]> (threads s) |}.
Proof.
  intros H. unfold step. rewrite H.
  by destruct (worker_step env cfg p (world s) (self s)) as [[p' w'] d'].
Qed.

(** A schedule that names thread [i] [n] times in a row. *)
Lemma run_alone n i s p :
  threads s !! i = Some p ->
  run env cfg (replicate n i) s =
  Some {| world := (steps_alone env cfg n p (world s) (self s)).1.2;
          self := (steps_alone env cfg n p (world s) (self s)).2;
          threads := <[i := (steps_alone env cfg n p (world s) (self s)).1.1]> (threads s) |}.
Proof.
  revert s p. induction n as [|n IH]; intros s p H; simpl.
  - rewrite list_insert_id by done. by destruct s.
  - rewrite (step_at _ _ _ H).
    destruct (worker_step env cfg p (world s) (self s)) as [[p' w'] d'] eqn:Hstep.
    simpl. erewrite IH; last first.
    { simpl. apply list_lookup_insert_eq. by eapply lookup_lt_Some. }
    simpl. by rewrite list_insert_insert_eq.
Qed.

Lemma run_app l1 l2 s :
  run env cfg (l1 ++ l2) s =
  match run env cfg l1 s with
  | Some s' => run env cfg l2 s'
  | None => None
  end.
Proof.
  revert s. induction l1 as [|i l1 IH]; intros s; simpl; [done|].
  destruct (step env cfg i s); [apply IH|done].
Qed.

(** What a worker does with a call of [download_image] that raised. *)
Lemma worker_records_failure s i t e w' :
  threads s !! i = Some (Fetch t) ->
  download_image env cfg (task_url t) (task_path t) 0 (world s) = (Raise e, w') ->
  exists s',
    run env cfg (replicate 4 i) s = Some s' /\
    world s' = w' /\
    threads s' !! i = Some TaskDone /\
    failed_urls (self s') = failed_urls (self s) ++ [(task_url t, str_exn e)] /\
    stats (self s') = incr_failed (stats (self s)) /\
    printed (self s') = printed (self s) ++ [Failed (task_url t) e] /\
    downloaded_files (self s') = downloaded_files (self s).
Proof.
  intros Hi Hcall.
  eexists. split; [apply (run_alone 4 i s _ Hi)|].
  simpl. rewrite Hcall. simpl.
  split; [done|]. split; [|done].
  apply list_lookup_insert_eq. by eapply lookup_lt_Some.
Qed.


(** *** Validation of the downloaded file *)

(** A try that got as far as writing: the reply came whole and its body
    is the file. *)
Lemma fetch_and_save_ok url path w w1 :
  fetch_and_save env cfg url path w = (Ok tt, w1) ->
  exists response,
    requests_get env (length (get_log w)) url = Ok response /\
    stream_error response = None /\
    w1 = set_fs (insert path (body response)) (log_get url w).
Proof.
  unfold fetch_and_save, http_get, raise_for_status, response_content, save_stream.
  unfold_monad. intros H.
  destruct (requests_get env (length (get_log w)) url) as [response|e]; [|done].
  exists response. split; [done|].
  repeat case_match; simplify_eq; done.
Qed.

(** A try that raised although the reply came whole wrote nothing. *)
Lemma fetch_and_save_raise url path w w1 e response :
  fetch_and_save env cfg url path w = (Raise e, w1) ->
  requests_get env (length (get_log w)) url = Ok response ->
  stream_error response = None ->
  fs w1 = fs w.
Proof.
  unfold fetch_and_save, http_get, raise_for_status, response_content, save_stream.
  unfold_monad. intros H Hget Hstream. rewrite Hget in H.
  repeat case_match; simplify_eq; done.
Qed.

(** The file checks on a file [data] that is too small or not an image. *)
Lemma validate_saved_rejects path w data :
  fs w !! path = Some data ->
  (Z.of_nat (length data) < min_file_size cfg)%Z \/
    (image_open env data && image_verify env data)%bool = false ->
  exists msg,
    validate_saved env cfg path w = (Raise (ValueError msg), set_fs (delete path) w).
Proof.
  intros Hfile Hbad.
  unfold validate_saved, getsize, remove, read_file. unfold_monad. rewrite Hfile.
  destruct (Z.of_nat (length data) <? min_file_size cfg)%Z eqn:Hsize.
  { simpl. rewrite Hfile. eexists. reflexivity. }
  destruct Hbad as [Hsmall|Hbad]; [apply Z.ltb_ge in Hsize; lia|].
  simpl. rewrite Hfile. simpl. rewrite Hbad. simpl. rewrite Hfile.
  eexists. reflexivity.
Qed.

Lemma download_try_not_an_image url path w :
  not_an_image env (requests_get env (length (get_log w)) url) ->
  fs w !! path = None ->
  exists e w', download_try env cfg url path w = (Raise e, w') /\ fs w' !! path = None.
Proof.
  intros (page & Hget & Hwhole & Hbad) Hnone.
  unfold download_try, bind.
  destruct (fetch_and_save env cfg url path w) as [[[]|e] w1] eqn:Hf.
  - apply fetch_and_save_ok in Hf as (page' & Hget' & _ & ->).
    rewrite Hget in Hget'. injection Hget' as <-.
    destruct (validate_saved_rejects path
                (set_fs (insert path (body page)) (log_get url w)) (body page))
      as (msg & ->).
    + simpl. apply lookup_insert_eq.
    + by right.
    + eexists _, _. split; [done|]. simpl. apply lookup_delete_eq.
  - eexists _, _. split; [done|].
    by rewrite (fetch_and_save_raise _ _ _ _ _ _ Hf Hget Hwhole).
Qed.

Lemma download_image_from_not_an_image n url path w :
  (forall k, not_an_image env (requests_get env k url)) ->
  fs w !! path = None ->
  exists e w',
    download_image_from env cfg n url path w = (Raise e, w') /\ fs w' !! path = None.
Proof.
  intros Hpages. revert w. induction n as [|n IH]; intros w Hnone; simpl;
    unfold try_except;
    destruct (download_try_not_an_image url path w (Hpages _) Hnone)
      as (e & w1 & -> & Hnone1).
  - by eexists _, _.
  - unfold bind, sleep. destruct (retry_delay cfg <? 0)%Z.
    + by eexists _, _.
    + simpl. by apply IH.
Qed.

(** C5: when a try has written the body to the destination and the file
    is smaller than [min_file_size] or Pillow cannot open and verify it,
    the try deletes the file and raises a [ValueError]; and when every
    reply for a URL is a page that is not an image, the worker's call of
    [download_image] for a path that was free ends with the task recorded
    as failed and no file at that path. *)
Theorem failed_validation_removes_file (url path : string) :
  (forall w w1,
      fetch_and_save env cfg url path w = (Ok tt, w1) ->
      exists data,
        fs w1 !! path = Some data /\
        ((Z.of_nat (length data) < min_file_size cfg)%Z \/
           (image_open env data && image_verify env data)%bool = false ->
         exists msg,
           download_try env cfg url path w
             = (Raise (ValueError msg), set_fs (delete path) w1))) /\
  ((forall k, not_an_image env (requests_get env k url)) ->
   forall s i t,
     threads s !! i = Some (Fetch t) ->
     task_url t = url -> task_path t = path ->
     fs (world s) !! path = None ->
     exists e s',
       run env cfg (replicate 4 i) s = Some s' /\
       threads s' !! i = Some TaskDone /\
       stats (self s') = incr_failed (stats (self s)) /\
       failed_urls (self s') = failed_urls (self s) ++ [(url, str_exn e)] /\
       downloaded_files (self s') = downloaded_files (self s) /\
       fs (world s') !! path = None).
Proof.
  split.
  - intros w w1 Hf.
    destruct (fetch_and_save_ok _ _ _ _ Hf) as (page & Hget & Hwhole & Hw1).
    exists (body page). split.
    { rewrite Hw1. simpl. apply lookup_insert_eq. }
    intros Hbad. unfold download_try, bind. rewrite Hf.
    eapply validate_saved_rejects; [|exact Hbad].
    rewrite Hw1. simpl. apply lookup_insert_eq.
  - intros Hpages s i t Hi <- <- Hfree.
    destruct (download_image_from_not_an_image
                (Z.to_nat (retry_attempts cfg - 0)) (task_url t) (task_path t)
                (world s) Hpages Hfree) as (e & w' & Hcall & Hnone).
    destruct (worker_records_failure s i t e w' Hi Hcall)
      as (s' & Hrun & Hw & Hpc & Hfail & Hstats & Hprint & Hfiles).
    exists e, s'. rewrite Hw. done.
Qed.

(** *** Content-level duplicates *)

(** C4: dedup is on, the worker's fetch succeeded and the digest of the
    file it wrote is already in [file_hash_set]: the worker deletes the
    file, adds one to [duplicate] and to [skipped], prints the skip line,
    and leaves [success], [downloaded_files] and the digest set as they
    were. *)
Theorem content_duplicate_is_deleted (s : Sys) (i : nat) (t : Task) (w1 : World) (h : string) :
  deduplicate cfg = true ->
  threads s !! i = Some (Fetch t) ->
  download_image env cfg (task_url t) (task_path t) 0 (world s) = (Ok true, w1) ->
  calculate_file_hash env (task_path t) w1 = Some h ->
  h <> "" ->
  h ∈ file_hash_set (self s) ->
  exists s',
    run env cfg (replicate 8 i) s = Some s' /\
    threads s' !! i = Some TaskDone /\
    world s' = set_fs (delete (task_path t)) w1 /\
    fs (world s') !! task_path t = None /\
    duplicate (stats (self s')) = (duplicate (stats (self s)) + 1)%Z /\
    skipped (stats (self s')) = (skipped (stats (self s)) + 1)%Z /\
    success (stats (self s')) = success (stats (self s)) /\
    failed (stats (self s')) = failed (stats (self s)) /\
    downloaded_files (self s') = downloaded_files (self s) /\
    failed_urls (self s') = failed_urls (self s) /\
    file_hash_set (self s') = file_hash_set (self s) /\
    printed (self s') = printed (self s) ++ [Skipped (task_url t)].
Proof.
  intros Hdedup Hi Hcall Hhash Hne Hin.
  eexists. split; [apply (run_alone 8 i s _ Hi)|].
  assert (String.eqb h "" = false) as Heqb by by apply String.eqb_neq.
  unfold calculate_file_hash in Hhash.
  destruct (fs w1 !! task_path t) as [data|] eqn:Hfile; [|done].
  injection Hhash as Hh.
  simpl. rewrite Hcall. simpl. unfold calculate_file_hash. rewrite Hfile, Hh.
  rewrite Hdedup, Heqb. simpl.
  destruct (decide (h ∈ file_hash_set (self s))) as [_|Hnot]; [|done].
  simpl. unfold remove. rewrite Hfile. simpl.
  split; [apply list_lookup_insert_eq; by eapply lookup_lt_Some|].
  split; [done|]. split; [apply lookup_delete_eq|done].
Qed.

End Pool.

(** ** Invariants of a running pool *)

Section Invariants.

Variable env : Outside.
Variable cfg : Config.

Lemma sum_over_insert f ths i p p' :
  ths !! i = Some p ->
  sum_over f (<[i := p']> ths) = (sum_over f ths - f p + f p')%Z.
Proof.
  revert i. induction ths as [|q ths IH]; intros [|i] H; simplify_eq/=.
  - lia.
  - rewrite (IH i H). lia.
Qed.

Lemma sum_over_bounds f g ths :
  (forall q, (0 <= f q <= g q)%Z) ->
  (0 <= sum_over f ths <= sum_over g ths)%Z.
Proof.
  intros Hfg. induction ths as [|q ths IH]; simpl; [lia|].
  specialize (Hfg q). lia.
Qed.

Lemma sum_over_ge f ths i p :
  (forall q, (0 <= f q)%Z) -> ths !! i = Some p -> (f p <= sum_over f ths)%Z.
Proof.
  intros Hf. revert i. induction ths as [|q ths IH]; intros [|i] H; simplify_eq/=.
  - assert (0 <= sum_over f ths)%Z; [|lia].
    apply (sum_over_bounds f f). intros q'. specialize (Hf q'). lia.
  - specialize (IH i H). specialize (Hf q). lia.
Qed.

Lemma pending_insert (g : pc -> list string) ths i p p' :
  ths !! i = Some p ->
  concat (map g (<[i := p']> ths)) ++ g p ≡ₚ concat (map g ths) ++ g p'.
Proof.
  revert i. induction ths as [|q ths IH]; intros [|i] H; simplify_eq/=.
  - solve_Permutation.
  - rewrite <- !app_assoc. by rewrite (IH i H).
Qed.


Lemma count_lines_snoc k ls l :
  count_lines k (ls ++ [l]) = (count_lines k ls + if k l then 1 else 0)%Z.
Proof.
  unfold count_lines. rewrite filter_app, length_app. simpl.
  destruct (k l) eqn:Hk.
  - rewrite filter_cons_True by done. simpl. lia.
  - rewrite filter_cons_False by (rewrite Hk; done). simpl. lia.
Qed.


Ltac sum_step Hi :=
  rewrite ?(sum_over_insert _ _ _ _ _ Hi); simpl.

(** The thread moved on with the same task, or with none before and after. *)
Ltac keep_lines Hi Hperm lines :=
  constructor; simpl; sum_step Hi; try lia;
  exists lines; split; [done|]; split; [|lia];
  rewrite <- Hperm;
  match goal with
  | |- context [<[_ := ?p']> _] =>
      let Hins := fresh "Hins" in
      pose proof (pending_insert pending_url _ _ _ p' Hi) as Hins;
      simpl in Hins; rewrite ?app_nil_r in Hins;
      try apply Permutation_app_inv_r in Hins;
      rewrite Hins; done
  end.

(** The thread printed the line [l] of its task. *)
Ltac add_line Hi Hperm Hpr lines l :=
  constructor; simpl; sum_step Hi; try lia;
  exists (lines ++ [l]); split; [by rewrite Hpr, <- app_assoc|];
  rewrite !count_lines_snoc; simpl; split; [|lia];
  rewrite <- Hperm;
  match goal with
  | |- context [<[_ := ?p']> _] =>
      let Hins := fresh "Hins" in
      pose proof (pending_insert pending_url _ _ _ p' Hi) as Hins;
      simpl in Hins; rewrite ?app_nil_r in Hins;
      rewrite <- Hins, map_app; simpl; solve_Permutation
  end.

Lemma worker_step_preserves_inv tasks printed0 s i p :
  pool_inv tasks printed0 s ->
  threads s !! i = Some p ->
  pool_inv tasks printed0
    {| world := (worker_step env cfg p (world s) (self s)).1.2;
       self := (worker_step env cfg p (world s) (self s)).2;
       threads := <[i := (worker_step env cfg p (world s) (self s)).1.1]> (threads s) |}.
Proof.
  intros [Htot Hcnt Hunf Hdup (lines & Hpr & Hperm & Hok & Hfail & Hskip)] Hi.
  assert (in_flight p <= sum_over in_flight (threads s))%Z as Hfl.
  { apply (sum_over_ge _ _ i); [intros []; simpl; lia|done]. }
  destruct s as [w d ths]. simpl in *.
  destruct p; simpl.
  - (* the loop head *)
    destruct (running d); [|keep_lines Hi Hperm lines].
    destruct (download_queue d) as [|t q] eqn:Hq.
    { rewrite <- Hq in Hcnt, Hunf, Hperm. keep_lines Hi Hperm lines. }
    simpl in *. constructor; simpl; sum_step Hi; try lia.
    exists lines. split; [done|]. split; [|lia].
    rewrite <- Hperm.
    pose proof (pending_insert pending_url _ _ _ (Fetch t) Hi) as Hins.
    simpl in Hins. rewrite app_nil_r in Hins. rewrite Hins. solve_Permutation.
  - (* the call of download_image *)
    destruct (download_image env cfg (task_url t) (task_path t) 0 w)
      as [[[|]|e] w'] eqn:Hcall; simpl.
    + keep_lines Hi Hperm lines.
    + apply download_image_from_true in Hcall. done.
    + keep_lines Hi Hperm lines.
  - keep_lines Hi Hperm lines.
  - destruct h as [h|]; [|keep_lines Hi Hperm lines].
    destruct (deduplicate cfg && negb (h =? ""))%bool; keep_lines Hi Hperm lines.
  - destruct (decide (h ∈ file_hash_set d)); keep_lines Hi Hperm lines.
  - destruct (remove (task_path t) w) as [[[]|e] w'] eqn:Hrm; simpl;
      keep_lines Hi Hperm lines.
  - keep_lines Hi Hperm lines.
  - keep_lines Hi Hperm lines.
  - add_line Hi Hperm Hpr lines (Skipped (task_url t)).
  - keep_lines Hi Hperm lines.
  - keep_lines Hi Hperm lines.
  - keep_lines Hi Hperm lines.
  - add_line Hi Hperm Hpr lines (Saved (task_url t) (task_path t)).
  - keep_lines Hi Hperm lines.
  - keep_lines Hi Hperm lines.
  - add_line Hi Hperm Hpr lines (Failed (task_url t) e).
  - (* task_done *)
    destruct (unfinished_tasks d <=? 0)%Z eqn:Hle; simpl.
    + apply Z.leb_le in Hle. simpl in Hfl. lia.
    + keep_lines Hi Hperm lines.
  - keep_lines Hi Hperm lines.
Qed.


Lemma run_preserves_inv tasks printed0 schedule s s' :
  pool_inv tasks printed0 s ->
  run env cfg schedule s = Some s' ->
  pool_inv tasks printed0 s'.
Proof.
  revert s. induction schedule as [|i rest IH]; intros s Hinv; simpl.
  - by intros [= <-].
  - destruct (threads s !! i) as [p|] eqn:Hi.
    + rewrite (step_at env cfg _ _ _ Hi). apply IH.
      by apply worker_step_preserves_inv.
    + unfold step. by rewrite Hi.
Qed.

(** *** The sequential part of [download_all] *)

Lemma get_filename_never_raises url index w :
  exists name w', get_filename_from_url env cfg url index w = (Ok name, w').
Proof.
  unfold get_filename_from_url, try_except.
  match goal with |- context [match ?c w with _ => _ end] => destruct (c w) as [[name|e] w1] end.
  - by eexists _, _.
  - unfold bind, time_time, ret. by eexists _, _.
Qed.

Lemma resolve_path_never_raises dir url index w :
  exists path w', resolve_path env cfg dir url index w = (Ok path, w').
Proof.
  unfold resolve_path, bind at 1.
  destruct (get_filename_never_raises url index w) as (name & w1 & ->).
  unfold path_exists, time_time. unfold_monad.
  destruct (fs w1 !! Str.join dir name); [|by eexists _, _].
  destruct (Str.splitext name). by eexists _, _.
Qed.

Lemma enqueue_all_spec dir urls index w d :
  exists w' tasks,
    enqueue_all env cfg dir urls index w d =
      (Ok tt, w',
       set_queue (download_queue d ++ tasks)
                 (unfinished_tasks d + Z.of_nat (length tasks)) d) /\
    map task_url tasks = urls.
Proof.
  revert index w d. induction urls as [|url rest IH]; intros index w d; simpl.
  - exists w, []. split; [|done]. rewrite app_nil_r, Z.add_0_r. by destruct d.
  - destruct (resolve_path_never_raises dir url index w) as (path & w1 & ->).
    destruct (IH (index + 1)%Z w1
                (set_queue (download_queue d ++
                              [{| task_url := url; task_path := path; task_index := index |}])
                           (unfinished_tasks d + 1) d))
      as (w' & tasks & -> & Hurls).
    exists w', ({| task_url := url; task_path := path; task_index := index |} :: tasks).
    split; [|by rewrite <- Hurls].
    unfold set_queue. simpl. rewrite <- app_assoc. simpl.
    do 2 f_equal. lia.
Qed.

Lemma set_url_hash_set_twice a b d :
  set_url_hash_set a (set_url_hash_set b d) = set_url_hash_set a d.
Proof. reflexivity. Qed.

Lemma collect_image_urls_spec urls acc w d :
  exists w' fresh,
    collect_image_urls env cfg urls acc w d =
      (Ok (acc ++ fresh), w',
       set_url_hash_set (list_to_set (map (url_digest env) fresh) ∪ url_hash_set d) d) /\
    (deduplicate cfg = true ->
     NoDup (map (url_digest env) fresh) /\
     forall url, url ∈ fresh -> url_digest env url ∉ url_hash_set d).
Proof.
  revert acc w d. induction urls as [|url rest IH]; intros acc w d; simpl.
  - exists w, []. split; [|split; [constructor|set_solver]].
    rewrite app_nil_r. simpl. rewrite (left_id_L ∅ (∪)). by destruct d.
  - destruct (is_image_url_total env cfg url w) as (b & w1 & ->).
    destruct b; [|apply IH].
    destruct (deduplicate cfg) eqn:Hdedup; simpl.
    + destruct (bool_decide (url_digest env url ∈ url_hash_set d)) eqn:Hseen; simpl;
        [apply IH|].
      apply bool_decide_eq_false in Hseen.
      destruct (IH (acc ++ [url]) w1
                  (set_url_hash_set ({[url_digest env url]} ∪ url_hash_set d) d))
        as (w' & fresh & -> & Hfresh).
      exists w', (url :: fresh). split.
      * rewrite <- app_assoc. simpl. rewrite set_url_hash_set_twice.
        do 2 f_equal. set_solver.
      * intros _. destruct (Hfresh eq_refl) as [Hnd Hnew]. simpl in Hnew. split.
        -- simpl. constructor; [|done].
           intros (u & Hu & Hin)%list_elem_of_fmap_1. apply Hnew in Hin. set_solver.
        -- intros u [->|Hin]%elem_of_cons; [done|]. apply Hnew in Hin. set_solver.
    + destruct (IH (acc ++ [url]) w1
                  (set_url_hash_set ({[url_digest env url]} ∪ url_hash_set d) d))
        as (w' & fresh & -> & Hfresh).
      exists w', (url :: fresh). split; [|done].
      rewrite <- app_assoc. simpl. rewrite set_url_hash_set_twice.
      do 2 f_equal. set_solver.
Qed.


Lemma get_save_directory_never_raises w :
  exists dir w', get_save_directory env cfg w = (Ok dir, w').
Proof.
  unfold get_save_directory, now_strftime. unfold_monad.
  destruct (auto_create_subdir cfg); by eexists _, _.
Qed.

(** The two ways [download_all] returns: [False] before any task is
    made, or [True] after the pool has run and the queue was joined. *)
Lemma download_all_cases schedule urls w d r w' d' :
  download_all env cfg schedule urls w d = Some (r, w', d') ->
  exists w1 image_urls,
    let d1 := set_url_hash_set
                (list_to_set (map (url_digest env) image_urls) ∪ url_hash_set d)
                (reset_stats d) in
    collect_image_urls env cfg urls [] w (reset_stats d) = (Ok image_urls, w1, d1) /\
    (deduplicate cfg = true ->
     NoDup (map (url_digest env) image_urls) /\
     forall url, url ∈ image_urls -> url_digest env url ∉ url_hash_set d) /\
    ((image_urls = [] /\ r = Ok false /\ w' = w1 /\ d' = d1) \/
     (r = Ok true /\
      exists w3 tasks s,
        map task_url tasks = image_urls /\
        run env cfg schedule
          {| world := w3;
             self := set_running true
                       (set_stats (set_total (Z.of_nat (length image_urls)))
                          (set_queue (download_queue d1 ++ tasks)
                             (unfinished_tasks d1 + Z.of_nat (length tasks)) d1));
             threads := replicate
                          (Z.to_nat (Z.min (max_workers cfg)
                                       (Z.of_nat (length image_urls))))
                          AtLoop |} = Some s /\
        unfinished_tasks (self s) = 0%Z /\
        w' = world s /\ d' = set_running false (self s))).
Proof.
  unfold download_all.
  destruct (collect_image_urls_spec urls [] w (reset_stats d))
    as (w1 & image_urls & Hcollect & Hfresh).
  simpl in Hcollect. rewrite Hcollect. intros H.
  exists w1, image_urls. split; [done|]. split; [done|].
  destruct image_urls as [|url rest]; [left; by simplify_eq|right].
  destruct (get_save_directory_never_raises w1) as (dir & w2 & Hdir).
  rewrite Hdir in H.
  match type of H with
  | context [enqueue_all env cfg dir ?l 1 w2 ?d1] =>
      destruct (enqueue_all_spec dir l 1 w2 d1) as (w3 & tasks & Henq & Hurls);
      rewrite Henq in H
  end.
  match type of H with
  | context [run env cfg schedule ?s0] =>
      destruct (run env cfg schedule s0) as [s|] eqn:Hrun; [|done]
  end.
  destruct (unfinished_tasks (self s) =? 0)%Z eqn:Hjoin; [|done].
  apply Z.eqb_eq in Hjoin. simplify_eq.
  split; [done|]. exists w3, tasks, s. done.
Qed.

(** The pool as [download_all] starts it satisfies the invariant. *)
Lemma initial_pool_inv d1 w3 tasks n :
  download_queue d1 = [] ->
  unfinished_tasks d1 = 0%Z ->
  stats d1 = zero_stats ->
  pool_inv tasks (printed d1)
    {| world := w3;
       self := set_running true
                 (set_stats (set_total (Z.of_nat (length tasks)))
                    (set_queue (download_queue d1 ++ tasks)
                       (unfinished_tasks d1 + Z.of_nat (length tasks)) d1));
       threads := replicate n AtLoop |}.
Proof.
  intros Hq Hu Hs.
  assert (concat (map pending_url (replicate n AtLoop)) = []) as Hpend.
  { induction n as [|n IH]; simpl; done. }
  assert (forall f, f AtLoop = 0%Z -> sum_over f (replicate n AtLoop) = 0%Z) as Hsum.
  { intros f Hf. clear Hpend. induction n as [|n IH]; simpl; lia. }
  constructor; simpl;
    rewrite ?(Hsum uncounted eq_refl), ?(Hsum in_flight eq_refl),
      ?(Hsum at_count_skip eq_refl), ?Hq, ?Hu, ?Hs; simpl; try lia.
  exists []. rewrite app_nil_r, Hpend.
  rewrite (Hsum at_print_ok eq_refl), (Hsum at_print_fail eq_refl),
    (Hsum at_print_skip eq_refl). simpl. done.
Qed.






(** *** The digest sets *)

Lemma worker_step_hash_sets p w d :
  url_hash_set (worker_step env cfg p w d).2 = url_hash_set d /\
  file_hash_set d ⊆ file_hash_set (worker_step env cfg p w d).2.
Proof.
  destruct p; simpl; repeat case_match; simpl; split; set_solver.
Qed.

Lemma run_hash_sets schedule s s' :
  run env cfg schedule s = Some s' ->
  url_hash_set (self s') = url_hash_set (self s) /\
  file_hash_set (self s) ⊆ file_hash_set (self s').
Proof.
  revert s. induction schedule as [|i rest IH]; intros s; simpl.
  - by intros [= <-].
  - destruct (threads s !! i) as [p|] eqn:Hi.
    + rewrite (step_at env cfg _ _ _ Hi). intros Hrun.
      apply IH in Hrun as [Hu Hf]. simpl in *.
      destruct (worker_step_hash_sets p (world s) (self s)) as [Hu' Hf'].
      split; [congruence|set_solver].
    + unfold step. by rewrite Hi.
Qed.


End Invariants.

(** ** Two workers and one digest *)

Section Race.

Variable env : Outside.
Variable cfg : Config.

(** A thread at the membership test alone: the digest is new. *)
Lemma alone_new_digest t h w d :
  h ∉ file_hash_set d ->
  steps_alone env cfg 5 (IfSeen t h) w d =
  (TaskDone, w,
   print (Saved (task_url t) (task_path t))
     (set_stats incr_success
        (set_downloaded_files (downloaded_files d ++ [task_path t])
           (set_file_hash_set ({[h]} ∪ file_hash_set d) d)))).
Proof.
  intros Hnew. simpl. by rewrite decide_False.
Qed.

(** A thread at the membership test alone: the digest is known. *)
Lemma alone_known_digest t h w d data :
  h ∈ file_hash_set d ->
  fs w !! task_path t = Some data ->
  steps_alone env cfg 5 (IfSeen t h) w d =
  (TaskDone, set_fs (delete (task_path t)) w,
   print (Skipped (task_url t))
     (set_stats incr_skipped (set_stats incr_duplicate d))).
Proof.
  intros Hold Hfile. simpl. rewrite decide_True by done.
  simpl. unfold remove. by rewrite Hfile.
Qed.

(** C7, as the code has it: the membership test and the insertion are
    two statements with nothing to keep another thread from running in
    between.  Two threads hold the same new digest.  When the first does
    test and insertion before the second tests, the first is saved and
    the second is skipped as a duplicate; when both test before either
    inserts, both are saved.  Whatever runs in between, a test that comes
    after the other thread's insertion takes the duplicate branch; two
    tests in a row both take the branch that inserts and saves. *)
Theorem digest_test_and_insert_interleave (s : Sys) (i j : nat) (t1 t2 : Task)
        (h : string) (data : list byte) :
  i <> j ->
  threads s !! i = Some (IfSeen t1 h) ->
  threads s !! j = Some (IfSeen t2 h) ->
  h ∉ file_hash_set (self s) ->
  fs (world s) !! task_path t2 = Some data ->
  (exists s',
      run env cfg (replicate 5 i ++ replicate 5 j) s = Some s' /\
      printed (self s') =
        printed (self s) ++ [Saved (task_url t1) (task_path t1); Skipped (task_url t2)] /\
      success (stats (self s')) = (success (stats (self s)) + 1)%Z /\
      duplicate (stats (self s')) = (duplicate (stats (self s)) + 1)%Z /\
      skipped (stats (self s')) = (skipped (stats (self s)) + 1)%Z) /\
  (exists s',
      run env cfg ([i; j] ++ replicate 4 i ++ replicate 4 j) s = Some s' /\
      printed (self s') =
        printed (self s) ++ [Saved (task_url t1) (task_path t1);
                             Saved (task_url t2) (task_path t2)] /\
      success (stats (self s')) = (success (stats (self s)) + 2)%Z /\
      duplicate (stats (self s')) = duplicate (stats (self s)) /\
      skipped (stats (self s')) = skipped (stats (self s))) /\
  (forall between s1,
      run env cfg ([i; i] ++ between) s = Some s1 ->
      threads s1 !! j = Some (IfSeen t2 h) ->
      exists s2,
        step env cfg j s1 = Some s2 /\ threads s2 !! j = Some (RemoveDup t2)) /\
  (exists s',
      run env cfg [i; j] s = Some s' /\
      threads s' !! i = Some (AddHash t1 h) /\
      threads s' !! j = Some (AddHash t2 h)).
Proof.
  intros Hij Hi Hj Hnew Hfile.
  assert (i < length (threads s))%nat as Hilt by by eapply lookup_lt_Some.
  assert (j < length (threads s))%nat as Hjlt by by eapply lookup_lt_Some.
  split; [|split; [|split]]; cycle 2.
  - intros between s1 Hrun Htest.
    change [i; i] with (replicate 2 i) in Hrun.
    rewrite run_app, (run_alone env cfg 2 i s _ Hi) in Hrun.
    simpl steps_alone in Hrun. rewrite decide_False in Hrun by done.
    apply (run_hash_sets env cfg) in Hrun as [_ Hsub]. simpl in Hsub.
    rewrite (step_at env cfg _ _ _ Htest). eexists. split; [done|]. simpl.
    rewrite decide_True by set_solver. simpl.
    apply list_lookup_insert_eq. by eapply lookup_lt_Some.
  - change [i; j] with (replicate 1 i ++ replicate 1 j).
    remember (replicate 1 j) as test_j eqn:Htest_j.
    rewrite run_app, (run_alone env cfg 1 i s _ Hi). simpl steps_alone.
    rewrite decide_False by done. simpl. subst test_j.
    erewrite (run_alone env cfg 1 j); last first.
    { simpl. by rewrite list_lookup_insert_ne. }
    simpl steps_alone. rewrite decide_False by done. simpl.
    eexists. split; [done|]. simpl. split.
    + rewrite list_lookup_insert_ne by done. by apply list_lookup_insert_eq.
    + apply list_lookup_insert_eq. by rewrite length_insert.
  - remember (replicate 5 j) as then_j eqn:Hthen.
    rewrite run_app, (run_alone env cfg 5 i s _ Hi), alone_new_digest by done.
    simpl. subst then_j.
    erewrite (run_alone env cfg 5 j); last first.
    { simpl. by rewrite list_lookup_insert_ne. }
    erewrite alone_known_digest; [|simpl; set_solver|done].
    eexists. split; [done|]. simpl. rewrite <- app_assoc. split; [done|]. lia.
  - remember (replicate 4 i) as then_i eqn:Hthen_i.
    remember (replicate 4 j) as then_j eqn:Hthen_j.
    change [i; j] with (replicate 1 i ++ replicate 1 j).
    remember (replicate 1 j) as test_j eqn:Htest_j.
    rewrite !run_app, (run_alone env cfg 1 i s _ Hi). simpl steps_alone.
    rewrite decide_False by done. simpl. subst test_j.
    erewrite (run_alone env cfg 1 j); last first.
    { simpl. by rewrite list_lookup_insert_ne. }
    simpl steps_alone. rewrite decide_False by done. simpl.
    rewrite run_app. subst then_i.
    erewrite (run_alone env cfg 4 i); last first.
    { simpl. rewrite list_lookup_insert_ne by done.
      by apply list_lookup_insert_eq. }
    simpl. subst then_j.
    erewrite (run_alone env cfg 4 j); last first.
    { simpl. rewrite list_lookup_insert_ne by done.
      apply list_lookup_insert_eq. rewrite length_insert. by eapply lookup_lt_Some. }
    simpl. eexists. split; [done|]. simpl. rewrite <- app_assoc. split; [done|]. lia.
Qed.

End Race.

(** Against C7: with dedup on and two workers, the two URLs serve the
    same bytes; thread 0 and thread 1 both test the digest before either
    inserts it, and both files are saved, none skipped. *)
Lemma both_workers_record_success :
  deduplicate default_config = true /\
  Scenario.summary (download_all Scenario.env default_config
             [0; 0; 0; 0; 1; 1; 1; 1; 0; 1; 0; 0; 0; 0; 0; 1; 1; 1; 1; 1]%nat
             [Scenario.a_jpg; Scenario.b_jpg] Scenario.empty_world new_downloader)
  = Some (Ok true,
          {| total := 2; success := 2; failed := 0; skipped := 0; duplicate := 0 |},
          [Saved Scenario.a_jpg "~/Downloads/ClipboardImages/1700000000/001_a.jpg";
           Saved Scenario.b_jpg "~/Downloads/ClipboardImages/1700000000/002_b.jpg"],
          ["~/Downloads/ClipboardImages/1700000000/001_a.jpg";
           "~/Downloads/ClipboardImages/1700000000/002_b.jpg"]).
Proof. split; [reflexivity|]. vm_compute. reflexivity. Qed.

(** ** One worker, every fetch succeeding *)

Section OneWorker.

Variable env : Outside.
Variable cfg : Config.

Lemma download_try_serves url path payload w :
  serves payload (requests_get env (length (get_log w)) url) ->
  valid_image env cfg payload ->
  may_write env path = true ->
  download_try env cfg url path w
    = (Ok true, set_fs (insert path payload) (log_get url w)).
Proof.
  intros (r & Hget & Hstatus & Hlen & Htype & Hbody & Hwhole) ((Hmin & Hmax) & Hopen & Hverify)
    Hwrite.
  unfold download_try, fetch_and_save, validate_saved, http_get, raise_for_status,
    response_content, save_stream, getsize, read_file, remove.
  unfold_monad. rewrite Hget, Hstatus, Hlen. simpl.
  destruct (Z.of_nat (length payload) >? max_file_size cfg)%Z eqn:Hbig; [lia|].
  destruct ((Z.of_nat (length payload) >? 0) && (Z.of_nat (length payload) <? min_file_size cfg))%Z%bool
    eqn:Hsmall; [apply andb_true_iff in Hsmall; lia|].
  rewrite Htype, Hwrite, Hwhole, Hbody. simpl.
  rewrite lookup_insert_eq.
  destruct (Z.of_nat (length payload) <? min_file_size cfg)%Z eqn:Hsmall'; [lia|].
  simpl. rewrite lookup_insert_eq, Hopen, Hverify. reflexivity.
Qed.

Lemma download_image_serves url path payload w :
  serves payload (requests_get env (length (get_log w)) url) ->
  valid_image env cfg payload ->
  may_write env path = true ->
  download_image env cfg url path 0 w
    = (Ok true, set_fs (insert path payload) (log_get url w)).
Proof.
  intros Hserves Hvalid Hwrite. unfold download_image.
  destruct (Z.to_nat (retry_attempts cfg - 0)); simpl; unfold try_except;
    by rewrite (download_try_serves _ _ _ _ Hserves Hvalid Hwrite).
Qed.

Lemma steps_alone_app n m p w d :
  steps_alone env cfg (n + m) p w d =
  steps_alone env cfg m (steps_alone env cfg n p w d).1.1
    (steps_alone env cfg n p w d).1.2 (steps_alone env cfg n p w d).2.
Proof.
  revert p w d. induction n as [|n IH]; intros p w d; simpl; [done|].
  destruct (worker_step env cfg p w d) as [[p' w'] d']. apply IH.
Qed.

(** With a single thread the schedule can only name thread 0. *)
Lemma run_single schedule p w d s' :
  run env cfg schedule {| world := w; self := d; threads := [p] |} = Some s' ->
  threads s' = [(steps_alone env cfg (length schedule) p w d).1.1] /\
  world s' = (steps_alone env cfg (length schedule) p w d).1.2 /\
  self s' = (steps_alone env cfg (length schedule) p w d).2.
Proof.
  revert p w d. induction schedule as [|i rest IH]; intros p w d; simpl.
  - by intros [= <-].
  - destruct i as [|i]; [|done]. unfold step. simpl.
    destruct (worker_step env cfg p w d) as [[p' w'] d']. simpl. apply IH.
Qed.

(** A thread at the loop head with nothing on the queue stays there. *)
Lemma steps_alone_idle n w d :
  running d = true -> download_queue d = [] ->
  steps_alone env cfg n AtLoop w d = (AtLoop, w, d).
Proof.
  intros Hrun Hq. induction n as [|n IH]; simpl; [done|]. by rewrite Hrun, Hq.
Qed.


Lemma steps_alone_exited n w d :
  steps_alone env cfg n Exited w d = (Exited, w, d).
Proof. induction n as [|n IH]; simpl; done. Qed.

(** [download_all] once the list of image URLs is known and not empty. *)
Lemma download_all_nonempty urls w d image_urls w1 d1 :
  collect_image_urls env cfg urls [] w (reset_stats d) = (Ok image_urls, w1, d1) ->
  image_urls <> [] ->
  exists w3 tasks,
    map task_url tasks = image_urls /\
    forall schedule,
      download_all env cfg schedule urls w d =
      match run env cfg schedule
              {| world := w3;
                 self := set_running true
                           (set_stats (set_total (Z.of_nat (length tasks)))
                              (set_queue (download_queue d1 ++ tasks)
                                 (unfinished_tasks d1 + Z.of_nat (length tasks)) d1));
                 threads := replicate
                              (Z.to_nat (Z.min (max_workers cfg)
                                           (Z.of_nat (length tasks))))
                              AtLoop |} with
      | Some s =>
          if (unfinished_tasks (self s) =? 0)%Z
          then Some (Ok true, world s, set_running false (self s))
          else None
      | None => None
      end.
Proof.
  intros Hcollect Hne. unfold download_all. rewrite Hcollect.
  destruct image_urls as [|url rest]; [done|].
  destruct (get_save_directory_never_raises env cfg w1) as (dir & w2 & ->).
  destruct (enqueue_all_spec env cfg dir (url :: rest) 1 w2 d1)
    as (w3 & tasks & -> & Hurls).
  exists w3, tasks. split; [done|]. intros schedule.
  by rewrite <- Hurls, length_map.
Qed.

(** A pool of one thread: whatever the schedule, when [join] returns the
    downloader is the one the thread leaves after working through the
    queue. *)
Lemma single_worker_settles n schedule tasks printed0 w0 d0 wn dn s :
  pool_inv tasks printed0 {| world := w0; self := d0; threads := [AtLoop] |} ->
  steps_alone env cfg n AtLoop w0 d0 = (AtLoop, wn, dn) ->
  running dn = true ->
  download_queue dn = [] ->
  run env cfg schedule {| world := w0; self := d0; threads := [AtLoop] |} = Some s ->
  unfinished_tasks (self s) = 0%Z ->
  self s = dn.
Proof.
  intros Hinv Hn Hrun Hq Hs Hjoin.
  pose proof (run_preserves_inv env cfg _ _ _ _ _ Hinv Hs) as [_ _ Hunf _ _].
  apply run_single in Hs as (Hths & _ & Hself).
  rewrite Hths, Hjoin in Hunf. simpl in Hunf.
  set (k := length schedule) in *.
  destruct (steps_alone env cfg k AtLoop w0 d0) as [[pk wk] dk] eqn:Hk.
  simpl in *. rewrite Hself in *. clear Hself Hths.
  assert (download_queue dk = [] /\ in_flight pk = 0%Z) as [Hqk Hpk].
  { assert (0 <= in_flight pk)%Z by (destruct pk; simpl; lia).
    split; [apply length_zero_iff_nil|]; lia. }
  destruct (decide (k <= n)%nat) as [Hle|Hgt].
  - replace n with (k + (n - k))%nat in Hn by lia.
    rewrite steps_alone_app, Hk in Hn. simpl in Hn.
    destruct pk; try discriminate Hpk.
    + destruct (n - k)%nat as [|m]; simpl in Hn; [by simplify_eq|].
      destruct (running dk) eqn:Hrk.
      * rewrite Hqk in Hn. rewrite steps_alone_idle in Hn by done. by simplify_eq.
      * by rewrite steps_alone_exited in Hn.
    + by rewrite steps_alone_exited in Hn.
  - replace k with (n + (k - n))%nat in Hk by lia.
    rewrite steps_alone_app, Hn in Hk. simpl in Hk.
    rewrite steps_alone_idle in Hk by done. by simplify_eq.
Qed.

Section Blocks.

Variable payload : list byte.
Hypothesis Hserves : forall n url, serves payload (requests_get env n url).
Hypothesis Hvalid : valid_image env cfg payload.
Hypothesis Hwrite : forall path, may_write env path = true.
Hypothesis Hdigest : md5_hexdigest env payload <> "".

(** The ten statements from taking a task to [task_done], dedup on and
    the digest new. *)
Lemma task_saved_new_digest t q w d :
  deduplicate cfg = true ->
  running d = true ->
  download_queue d = t :: q ->
  (0 < unfinished_tasks d)%Z ->
  md5_hexdigest env payload ∉ file_hash_set d ->
  exists w' d',
    steps_alone env cfg 10 AtLoop w d = (AtLoop, w', d') /\
    stats d' = incr_success (stats d) /\
    file_hash_set d' = {[md5_hexdigest env payload]} ∪ file_hash_set d /\
    download_queue d' = q /\
    unfinished_tasks d' = (unfinished_tasks d - 1)%Z /\
    running d' = true.
Proof.
  intros Hdedup Hrun Hq Hpos Hnew.
  assert (String.eqb (md5_hexdigest env payload) "" = false) as Heqb
      by by apply String.eqb_neq.
  simpl. rewrite Hrun, Hq. simpl.
  rewrite (download_image_serves _ _ payload) by done. simpl.
  unfold calculate_file_hash. simpl. rewrite lookup_insert_eq, Hdedup, Heqb. simpl.
  rewrite decide_False by done. simpl.
  destruct (unfinished_tasks d <=? 0)%Z eqn:Hle; [lia|].
  eexists _, _. split; [done|]. simpl. done.
Qed.

(** The ten statements of a task whose digest is in the set already. *)
Lemma task_skipped_known_digest t q w d :
  deduplicate cfg = true ->
  running d = true ->
  download_queue d = t :: q ->
  (0 < unfinished_tasks d)%Z ->
  md5_hexdigest env payload ∈ file_hash_set d ->
  exists w' d',
    steps_alone env cfg 10 AtLoop w d = (AtLoop, w', d') /\
    stats d' = incr_skipped (incr_duplicate (stats d)) /\
    file_hash_set d' = file_hash_set d /\
    download_queue d' = q /\
    unfinished_tasks d' = (unfinished_tasks d - 1)%Z /\
    running d' = true.
Proof.
  intros Hdedup Hrun Hq Hpos Hold.
  assert (String.eqb (md5_hexdigest env payload) "" = false) as Heqb
      by by apply String.eqb_neq.
  simpl. rewrite Hrun, Hq. simpl.
  rewrite (download_image_serves _ _ payload) by done. simpl.
  unfold calculate_file_hash. simpl. rewrite lookup_insert_eq, Hdedup, Heqb. simpl.
  rewrite decide_True by done. simpl.
  unfold remove. simpl. rewrite lookup_insert_eq. simpl.
  destruct (unfinished_tasks d <=? 0)%Z eqn:Hle; [lia|].
  eexists _, _. split; [done|]. simpl. done.
Qed.

(** The eight statements of a task with dedup off. *)
Lemma task_saved_no_dedup t q w d :
  deduplicate cfg = false ->
  running d = true ->
  download_queue d = t :: q ->
  (0 < unfinished_tasks d)%Z ->
  exists w' d',
    steps_alone env cfg 8 AtLoop w d = (AtLoop, w', d') /\
    stats d' = incr_success (stats d) /\
    download_queue d' = q /\
    unfinished_tasks d' = (unfinished_tasks d - 1)%Z /\
    running d' = true.
Proof.
  intros Hdedup Hrun Hq Hpos.
  simpl. rewrite Hrun, Hq. simpl.
  rewrite (download_image_serves _ _ payload) by done. simpl.
  unfold calculate_file_hash. simpl. rewrite lookup_insert_eq, Hdedup. simpl.
  destruct (unfinished_tasks d <=? 0)%Z eqn:Hle; [lia|].
  eexists _, _. split; [done|]. simpl. done.
Qed.


Variables a b : string.
Hypothesis Hone : max_workers cfg = 1%Z.
Hypothesis Ha : has_image_extension env cfg a.
Hypothesis Hb : has_image_extension env cfg b.
Hypothesis Hab : url_digest env a <> url_digest env b.

Lemma collect_aba_dedup w :
  deduplicate cfg = true ->
  collect_image_urls env cfg [a; b; a] [] w (reset_stats new_downloader) =
  (Ok [a; b], w,
   set_url_hash_set ({[url_digest env b]} ∪ ({[url_digest env a]} ∪ ∅))
     (reset_stats new_downloader)).
Proof.
  intros Hdedup. simpl.
  repeat first
    [ rewrite (is_image_url_by_extension env cfg) by done
    | rewrite Hdedup
    | rewrite bool_decide_eq_false_2 by set_solver
    | rewrite bool_decide_eq_true_2 by set_solver
    | progress simpl ].
  done.
Qed.

Lemma collect_aba_no_dedup w :
  deduplicate cfg = false ->
  exists d1,
    collect_image_urls env cfg [a; b; a] [] w (reset_stats new_downloader) =
      (Ok [a; b; a], w, d1) /\
    stats d1 = zero_stats /\ download_queue d1 = [] /\
    unfinished_tasks d1 = 0%Z /\ printed d1 = [].
Proof.
  intros Hdedup. simpl.
  repeat first
    [ rewrite (is_image_url_by_extension env cfg) by done
    | rewrite Hdedup
    | progress simpl ].
  eexists. split; [done|]. done.
Qed.

(** C2, as the code has it: the batch [a.jpg, b.jpg, a.jpg], every
    fetch succeeding with the same bytes, one worker, a new downloader.
    The batch completes; with dedup on the second [a.jpg] is dropped
    before it becomes a task, so [total] is 2, [a.jpg] is saved and
    [b.jpg] skipped as a duplicate; with dedup off all three are saved. *)
Theorem three_urls_one_content (w : World) :
  (exists w' d',
      download_all env cfg (replicate 24 0%nat) [a; b; a] w new_downloader
        = Some (Ok true, w', d')) /\
  (forall schedule r w' d',
      download_all env cfg schedule [a; b; a] w new_downloader = Some (r, w', d') ->
      r = Ok true /\
      stats d' =
        if deduplicate cfg
        then {| total := 2; success := 1; failed := 0; skipped := 1; duplicate := 1 |}
        else {| total := 3; success := 3; failed := 0; skipped := 0; duplicate := 0 |}).
Proof.
  destruct (deduplicate cfg) eqn:Hdedup.
  - destruct (download_all_nonempty _ _ _ _ _ _ (collect_aba_dedup w Hdedup))
      as (w3 & tasks & Hurls & Hall); [done|].
    destruct tasks as [|t1 [|t2 [|? ?]]]; try discriminate Hurls. clear Hurls.
    rewrite Hone in Hall. simpl in Hall.
    match type of Hall with
    | context [run env cfg _ {| world := _; self := ?d; threads := _ |}] =>
        set (d0 := d) in *
    end.
    destruct (task_saved_new_digest t1 [t2] w3 d0)
      as (wa & da & Hsa & Hstats_a & Hset_a & Hq_a & Hu_a & Hr_a);
      [done|done|done|done|set_solver|].
    destruct (task_skipped_known_digest t2 [] wa da)
      as (wb & db & Hsb & Hstats_b & Hset_b & Hq_b & Hu_b & Hr_b);
      [done|done|done|rewrite Hu_a; done|set_solver|].
    assert (steps_alone env cfg 20 AtLoop w3 d0 = (AtLoop, wb, db)) as H20.
    { change 20%nat with (10 + 10)%nat. by rewrite steps_alone_app, Hsa. }
    assert (unfinished_tasks db = 0%Z) as Hjoined by (rewrite Hu_b, Hu_a; done).
    split.
    + rewrite Hall, (run_alone env cfg 24 0 _ AtLoop) by done.
      cbn [world self threads].
      change 24%nat with (20 + 4)%nat.
      rewrite steps_alone_app, H20. cbn [fst snd].
      rewrite steps_alone_idle by done. simpl. rewrite Hjoined. simpl.
      by eexists _, _.
    + intros schedule r w' d'. rewrite Hall.
      destruct (run env cfg schedule _) as [s|] eqn:Hrun; [|done].
      destruct (unfinished_tasks (self s) =? 0)%Z eqn:Hjoin; [|done].
      apply Z.eqb_eq in Hjoin. intros [= <- <- <-]. split; [done|].
      rewrite (single_worker_settles 20 schedule [t1; t2] [] w3 d0 wb db s);
        try done.
      * simpl. by rewrite Hstats_b, Hstats_a.
      * by apply (initial_pool_inv
                    (set_url_hash_set ({[url_digest env b]} ∪ ({[url_digest env a]} ∪ ∅))
                       (reset_stats new_downloader)) w3 [t1; t2] 1).
  - destruct (collect_aba_no_dedup w Hdedup) as (d1 & Hcollect & Hs1 & Hq1 & Hu1 & Hp1).
    destruct (download_all_nonempty _ _ _ _ _ _ Hcollect)
      as (w3 & tasks & Hurls & Hall); [done|].
    destruct tasks as [|t1 [|t2 [|t3 [|? ?]]]]; try discriminate Hurls. clear Hurls.
    rewrite Hone, Hq1, Hu1 in Hall. simpl in Hall.
    match type of Hall with
    | context [run env cfg _ {| world := _; self := ?d; threads := _ |}] =>
        set (d0 := d) in *
    end.
    destruct (task_saved_no_dedup t1 [t2; t3] w3 d0)
      as (wa & da & Hsa & Hstats_a & Hq_a & Hu_a & Hr_a); [done|done|done|done|].
    destruct (task_saved_no_dedup t2 [t3] wa da)
      as (wb & db & Hsb & Hstats_b & Hq_b & Hu_b & Hr_b);
      [done|done|done|rewrite Hu_a; done|].
    destruct (task_saved_no_dedup t3 [] wb db)
      as (wc & dc & Hsc & Hstats_c & Hq_c & Hu_c & Hr_c);
      [done|done|done|rewrite Hu_b, Hu_a; done|].
    assert (steps_alone env cfg 24 AtLoop w3 d0 = (AtLoop, wc, dc)) as H24.
    { change 24%nat with (8 + (8 + 8))%nat.
      rewrite steps_alone_app, Hsa. cbn [fst snd].
      by rewrite steps_alone_app, Hsb. }
    assert (unfinished_tasks dc = 0%Z) as Hjoined
        by (rewrite Hu_c, Hu_b, Hu_a; done).
    split.
    + rewrite Hall, (run_alone env cfg 24 0 _ AtLoop) by done.
      cbn [world self threads]. rewrite H24. simpl. rewrite Hjoined. simpl. by eexists _, _.
    + intros schedule r w' d'. rewrite Hall.
      destruct (run env cfg schedule _) as [s|] eqn:Hrun; [|done].
      destruct (unfinished_tasks (self s) =? 0)%Z eqn:Hjoin; [|done].
      apply Z.eqb_eq in Hjoin. intros [= <- <- <-]. split; [done|].
      rewrite (single_worker_settles 24 schedule [t1; t2; t3] [] w3 d0 wc dc s);
        try done.
      * simpl. rewrite Hstats_c, Hstats_b, Hstats_a. subst d0. simpl.
        by rewrite Hs1.
      * pose proof (initial_pool_inv d1 w3 [t1; t2; t3] 1 Hq1 Hu1 Hs1) as Hinv.
        rewrite Hq1, Hu1, Hp1 in Hinv. exact Hinv.
Qed.

End Blocks.

End OneWorker.

(** ** Every batch can be run to its end *)

Section Progress.

Variable env : Outside.
Variable cfg : Config.

(** One thread, left alone, finishes the task at the head of the queue. *)
Lemma task_alone t q w d :
  running d = true ->
  download_queue d = t :: q ->
  (0 < unfinished_tasks d)%Z ->
  exists k w' d',
    steps_alone env cfg k AtLoop w d = (AtLoop, w', d') /\
    download_queue d' = q /\
    unfinished_tasks d' = (unfinished_tasks d - 1)%Z /\
    running d' = true.
Proof.
  intros Hrun Hq Hpos.
  assert ((unfinished_tasks d <=? 0)%Z = false) as Hleb by lia.
  destruct (download_image env cfg (task_url t) (task_path t) 0 w)
    as [[[|]|e] w1] eqn:Hcall.
  - destruct (calculate_file_hash env (task_path t) w1) as [h|] eqn:Hhash.
    + destruct (deduplicate cfg && negb (String.eqb h ""))%bool eqn:Hdedup.
      * destruct (decide (h ∈ file_hash_set d)) as [Hin|Hnew].
        -- destruct (remove (task_path t) w1) as [[[]|e] w2] eqn:Hrm.
           ++ exists 10%nat. eexists _, _. simpl.
              rewrite Hrun, Hq. simpl. rewrite Hcall. simpl.
              rewrite Hhash, Hdedup. simpl. rewrite decide_True by done. simpl.
              rewrite Hrm. simpl. rewrite Hleb. done.
           ++ exists 10%nat. eexists _, _. simpl.
              rewrite Hrun, Hq. simpl. rewrite Hcall. simpl.
              rewrite Hhash, Hdedup. simpl. rewrite decide_True by done. simpl.
              rewrite Hrm. simpl. rewrite Hleb. done.
        -- exists 10%nat. eexists _, _. simpl.
           rewrite Hrun, Hq. simpl. rewrite Hcall. simpl.
           rewrite Hhash, Hdedup. simpl. rewrite decide_False by done. simpl.
           rewrite Hleb. done.
      * exists 8%nat. eexists _, _. simpl.
        rewrite Hrun, Hq. simpl. rewrite Hcall. simpl.
        rewrite Hhash, Hdedup. simpl. rewrite Hleb. done.
    + exists 8%nat. eexists _, _. simpl.
      rewrite Hrun, Hq. simpl. rewrite Hcall. simpl.
      rewrite Hhash. simpl. rewrite Hleb. done.
  - exists 3%nat. eexists _, _. simpl.
    rewrite Hrun, Hq. simpl. rewrite Hcall. simpl. rewrite Hleb. done.
  - exists 6%nat. eexists _, _. simpl.
    rewrite Hrun, Hq. simpl. rewrite Hcall. simpl. rewrite Hleb. done.
Qed.

(** One thread, left alone, empties the queue. *)
Lemma queue_drained_alone w d :
  running d = true ->
  unfinished_tasks d = Z.of_nat (length (download_queue d)) ->
  exists k w' d',
    steps_alone env cfg k AtLoop w d = (AtLoop, w', d') /\
    download_queue d' = [] /\
    unfinished_tasks d' = 0%Z.
Proof.
  remember (download_queue d) as q eqn:Hq. revert w d Hq.
  induction q as [|t q IH]; intros w d Hq Hrun Hu.
  - exists 0%nat, w, d. done.
  - destruct (task_alone t q w d) as (k & w1 & d1 & Hk & Hq1 & Hu1 & Hr1);
      [done|done|simpl in Hu; lia|].
    destruct (IH w1 d1) as (k' & w' & d' & Hk' & Hq' & Hu'); [done|done| |].
    { rewrite Hu1, Hu. simpl length. lia. }
    exists (k + k')%nat, w', d'. split; [|done].
    by rewrite steps_alone_app, Hk.
Qed.

(** With at least one worker every batch has a schedule that runs it to
    the end: thread 0 working alone. *)
Lemma download_all_completes urls w d :
  (1 <= max_workers cfg)%Z ->
  download_queue d = [] ->
  unfinished_tasks d = 0%Z ->
  exists k b w' d',
    download_all env cfg (replicate k 0%nat) urls w d = Some (Ok b, w', d').
Proof.
  intros Hworkers Hq Hu.
  destruct (collect_image_urls_spec env cfg urls [] w (reset_stats d))
    as (w1 & image_urls & Hcollect & _). simpl in Hcollect.
  destruct image_urls as [|url rest] eqn:Hurls.
  - exists 0%nat, false. unfold download_all. rewrite Hcollect. by eexists _, _.
  - rewrite <- Hurls in Hcollect.
    destruct (download_all_nonempty env cfg _ _ _ _ _ _ Hcollect)
      as (w3 & tasks & Hmap & Hall); [by rewrite Hurls|].
    set (d1 := set_url_hash_set
                 (list_to_set (map (url_digest env) image_urls) ∪ url_hash_set d)
                 (reset_stats d)) in *.
    set (d0 := set_running true
                 (set_stats (set_total (Z.of_nat (length tasks)))
                    (set_queue (download_queue d1 ++ tasks)
                       (unfinished_tasks d1 + Z.of_nat (length tasks)) d1))) in *.
    destruct (queue_drained_alone w3 d0) as (k & w' & d' & Hk & Hq' & Hu'); [done| |].
    { simpl. rewrite Hq, Hu. simpl. lia. }
    assert (replicate (Z.to_nat (Z.min (max_workers cfg) (Z.of_nat (length tasks))))
              AtLoop !! 0%nat = Some AtLoop) as H0.
    { assert (tasks <> []) as Hne by (intros ->; by rewrite Hurls in Hmap).
      destruct tasks; [done|]. simpl length.
      destruct (Z.to_nat (Z.min (max_workers cfg) (Z.of_nat (S (length tasks)))))
        eqn:Hn; [lia|done]. }
    exists k, true. rewrite Hall.
    rewrite (run_alone env cfg k 0 {| world := w3; self := d0; threads := _ |}
               AtLoop H0).
    cbn [world self]. rewrite Hk. simpl. rewrite Hu'. simpl. by eexists _, _.
Qed.

End Progress.

(** Against C2: dedup on, one worker, every fetch succeeding with the
    same bytes.  The second [a.jpg] never becomes a task: [total] is 2. *)
Lemma dedup_batch_total_is_two :
  deduplicate Scenario.one_worker = true /\
  max_workers Scenario.one_worker = 1%Z /\
  Scenario.summary
    (download_all Scenario.env Scenario.one_worker (replicate 20 0%nat)
       [Scenario.a_jpg; Scenario.b_jpg; Scenario.a_jpg]
       Scenario.empty_world new_downloader)
  = Some (Ok true,
          {| total := 2; success := 1; failed := 0; skipped := 1; duplicate := 1 |},
          [Saved Scenario.a_jpg "~/Downloads/ClipboardImages/1700000000/001_a.jpg";
           Skipped Scenario.b_jpg],
          ["~/Downloads/ClipboardImages/1700000000/001_a.jpg"]) /\
  ~ (exists r lines files,
        Scenario.summary
          (download_all Scenario.env Scenario.one_worker (replicate 20 0%nat)
             [Scenario.a_jpg; Scenario.b_jpg; Scenario.a_jpg]
             Scenario.empty_world new_downloader)
        = Some (r, {| total := 3; success := 1; failed := 0; skipped := 1;
                      duplicate := 1 |}, lines, files)) /\
  ~ (exists r lines files,
        Scenario.summary
          (download_all Scenario.env Scenario.one_worker (replicate 20 0%nat)
             [Scenario.a_jpg; Scenario.b_jpg; Scenario.a_jpg]
             Scenario.empty_world new_downloader)
        = Some (r, {| total := 3; success := 2; failed := 0; skipped := 1;
                      duplicate := 1 |}, lines, files)).
Proof.
  split; [reflexivity|]. split; [reflexivity|].
  assert (Scenario.summary
    (download_all Scenario.env Scenario.one_worker (replicate 20 0%nat)
       [Scenario.a_jpg; Scenario.b_jpg; Scenario.a_jpg]
       Scenario.empty_world new_downloader)
  = Some (Ok true,
          {| total := 2; success := 1; failed := 0; skipped := 1; duplicate := 1 |},
          [Saved Scenario.a_jpg "~/Downloads/ClipboardImages/1700000000/001_a.jpg";
           Skipped Scenario.b_jpg],
          ["~/Downloads/ClipboardImages/1700000000/001_a.jpg"])) as Hrun
      by (vm_compute; reflexivity).
  rewrite Hrun. split; [reflexivity|].
  split; intros (r & lines & files & H); discriminate H.
Qed.

(** ** Naming resolver *)

Section Naming.

Variable env : Outside.
Variable cfg : Config.

Lemma append_cons c s t : String c s +:+ t = String c (s +:+ t).
Proof. reflexivity. Qed.

Lemma append_nil t : "" +:+ t = t.
Proof. reflexivity. Qed.


Lemma splitext_go_app seen s stem ext :
  Str.splitext_go seen s = (stem, ext) -> s = stem +:+ ext.
Proof.
  revert seen stem ext. induction s as [|c s IH]; intros seen stem ext; simpl.
  - by intros [= <- <-].
  - destruct (ascii_dec c ".") as [->|Hc].
    + destruct (seen && negb (Str.contains "." s))%bool.
      * by intros [= <- <-].
      * destruct (Str.splitext_go seen s) as [n e] eqn:Hgo.
        intros [= <- <-]. rewrite append_cons. f_equal. by eapply IH.
    + destruct (Str.splitext_go true s) as [n e] eqn:Hgo.
      intros [= <- <-]. rewrite append_cons. f_equal. by eapply IH.
Qed.







Lemma pretty_N_char_digit x : Str.is_digit (pretty_N_char x) = true.
Proof. unfold pretty_N_char. by repeat case_match. Qed.

Lemma pretty_N_go_digits x s :
  Str.all_digits s = true -> Str.all_digits (pretty_N_go x s) = true.
Proof.
  revert s. induction (N.lt_wf_0 x) as [x _ IH]; intros s Hs.
  assert (x = 0 \/ 0 < x)%N as [->|Hpos] by lia.
  - by rewrite pretty_N_go_0.
  - rewrite pretty_N_go_step by done. apply IH.
    + by apply N.div_lt.
    + simpl. by rewrite pretty_N_char_digit.
Qed.

Lemma pretty_N_digits (n : N) : Str.all_digits (pretty n) = true.
Proof.
  unfold pretty, pretty_N. case_decide; [done|]. by apply pretty_N_go_digits.
Qed.

(** A positive number is printed with a leading digit other than 0. *)
Lemma pretty_N_go_leading x s :
  (0 < x)%N -> exists c r, pretty_N_go x s = String c r /\ c <> "0"%char.
Proof.
  revert s. induction (N.lt_wf_0 x) as [x _ IH]; intros s Hpos.
  rewrite pretty_N_go_step by done.
  assert (x < 10 \/ 10 <= x)%N as [Hsmall|Hbig] by lia.
  - rewrite N.div_small, pretty_N_go_0, N.mod_small by done.
    eexists _, _. split; [done|].
    assert (x = 1 \/ x = 2 \/ x = 3 \/ x = 4 \/ x = 5 \/ x = 6
            \/ x = 7 \/ x = 8 \/ x = 9)%N by lia.
    naive_solver.
  - apply IH; [by apply N.div_lt|]. apply N.div_str_pos. lia.
Qed.

Lemma pretty_N_leading (n : N) :
  exists c r, pretty n = String c r /\ (c = "0"%char -> n = 0%N).
Proof.
  unfold pretty, pretty_N. case_decide as Hn.
  - by exists "0"%char, "".
  - destruct (pretty_N_go_leading n "") as (c & r & -> & Hc); [lia|].
    by exists c, r.
Qed.


Lemma zeros_cancel (a b : nat) (d1 d2 : string) :
  string_of_list_ascii (replicate a "0"%char) +:+ d1
    = string_of_list_ascii (replicate b "0"%char) +:+ d2 ->
  (a <= b)%nat ->
  d1 = string_of_list_ascii (replicate (b - a) "0"%char) +:+ d2.
Proof.
  revert b. induction a as [|a IH]; intros b Heq Hle.
  - by rewrite Nat.sub_0_r.
  - destruct b as [|b]; [lia|]. simpl in Heq. rewrite !append_cons in Heq.
    injection Heq as Heq. apply IH; [done|lia].
Qed.

Lemma format_d_nonneg width n :
  (0 <= n)%Z ->
  Str.format_d width n =
  string_of_list_ascii
    (replicate (width - String.length (pretty (Z.abs_N n))) "0"%char)
  +:+ pretty (Z.abs_N n).
Proof.
  intros Hn. unfold Str.format_d.
  destruct (n <? 0)%Z eqn:Hneg; [lia|]. by rewrite append_nil.
Qed.

Lemma all_digits_zeros k s :
  Str.all_digits (string_of_list_ascii (replicate k "0"%char) +:+ s) = Str.all_digits s.
Proof.
  induction k as [|k IH]; [done|].
  change (replicate (S k) "0"%char) with ("0"%char :: replicate k "0"%char).
  change (string_of_list_ascii ("0"%char :: replicate k "0"%char))
    with (String "0" (string_of_list_ascii (replicate k "0"%char))).
  rewrite append_cons. simpl. exact IH.
Qed.

Lemma format_d_digits width n :
  (0 <= n)%Z -> Str.all_digits (Str.format_d width n) = true.
Proof.
  intros Hn. rewrite format_d_nonneg, all_digits_zeros by done.
  apply pretty_N_digits.
Qed.

Lemma format_d_leading width n :
  (0 <= n)%Z -> exists c r, Str.format_d width n = String c r /\ Str.is_digit c = true.
Proof.
  intros Hn. pose proof (format_d_digits width n Hn) as Hd.
  rewrite format_d_nonneg in * by done.
  destruct (pretty_N_leading (Z.abs_N n)) as (c & r & Hp & _). rewrite Hp in *.
  destruct (width - String.length (String c r))%nat as [|k]; simpl in *.
  - rewrite append_nil in *. exists c, r. split; [done|].
    simpl in Hd. by apply andb_true_iff in Hd as [? _].
  - rewrite append_cons. by eexists _, _.
Qed.

Lemma pretty_padded_inj (a b : nat) (n m : N) :
  string_of_list_ascii (replicate a "0"%char) +:+ pretty n
    = string_of_list_ascii (replicate b "0"%char) +:+ pretty m ->
  (a <= b)%nat -> n = m.
Proof.
  intros Heq Hle. apply zeros_cancel in Heq; [|done].
  destruct (b - a)%nat as [|k].
  - rewrite append_nil in Heq. by apply (inj pretty).
  - simpl in Heq. rewrite append_cons in Heq.
    destruct (pretty_N_leading n) as (c & r & Hp & Hzero).
    rewrite Hp in Heq. injection Heq as -> Hr.
    rewrite (Hzero eq_refl) in Hp. injection Hp as <-.
    destruct (pretty_N_leading m) as (c' & r' & Hm & _). rewrite Hm in Hr.
    destruct k; simpl in Hr; [rewrite append_nil in Hr|rewrite append_cons in Hr];
      discriminate Hr.
Qed.

Lemma format_d_inj width width' n m :
  (0 <= n)%Z -> (0 <= m)%Z -> Str.format_d width n = Str.format_d width' m -> n = m.
Proof.
  intros Hn Hm. rewrite !format_d_nonneg by done. intros Heq.
  assert (Z.abs_N n = Z.abs_N m); [|lia].
  destruct (Nat.le_ge_cases (width - String.length (pretty (Z.abs_N n)))
              (width' - String.length (pretty (Z.abs_N m)))) as [Hle|Hle].
  - by eapply pretty_padded_inj.
  - symmetry. by eapply pretty_padded_inj.
Qed.

(** Two digit strings, each followed by a character that is not a
    digit: equal texts have equal digit strings. *)
Lemma digits_then_other s1 s2 c1 c2 t1 t2 :
  Str.all_digits s1 = true -> Str.all_digits s2 = true ->
  Str.is_digit c1 = false -> Str.is_digit c2 = false ->
  s1 +:+ String c1 t1 = s2 +:+ String c2 t2 -> s1 = s2.
Proof.
  revert s2. induction s1 as [|a s1 IH]; intros [|b s2] H1 H2 Hc1 Hc2 Heq;
    rewrite ?append_cons, ?append_nil in Heq; simpl in *.
  - done.
  - injection Heq as -> _. apply andb_true_iff in H2 as [? _]. congruence.
  - injection Heq as -> _. apply andb_true_iff in H1 as [? _]. congruence.
  - injection Heq as -> Heq. apply andb_true_iff in H1 as [_ H1].
    apply andb_true_iff in H2 as [_ H2]. f_equal. by eapply IH.
Qed.


Lemma tagged_inj k k' name :
  (0 <= k)%Z -> (0 <= k')%Z -> tagged k name -> tagged k' name -> k = k'.
Proof.
  intros Hk Hk' (lead & w & c & tail & Hlead & Hc & _ & ->)
    (lead' & w' & c' & tail' & Hlead' & Hc' & _ & Heq).
  destruct (format_d_leading w k Hk) as (a & r & Ha & Hda).
  destruct (format_d_leading w' k' Hk') as (a' & r' & Ha' & Hda').
  destruct Hlead as [->| ->], Hlead' as [->| ->];
    rewrite ?append_cons, ?append_nil in Heq.
  - apply digits_then_other in Heq; auto using format_d_digits.
    by eapply format_d_inj.
  - rewrite Ha, append_cons in Heq. injection Heq as -> _. done.
  - rewrite Ha', append_cons in Heq. injection Heq as <- _. done.
  - injection Heq as Heq. apply digits_then_other in Heq; auto using format_d_digits.
    by eapply format_d_inj.
Qed.

Lemma startswith_other (a : ascii) r :
  a <> "/"%char -> Str.startswith "/" (String a r) = false.
Proof.
  intros Ha. cbn [Str.startswith].
  destruct (ascii_dec "/"%char a) as [<-|]; done.
Qed.

Lemma tagged_no_slash k name :
  (0 <= k)%Z -> tagged k name -> Str.startswith "/" name = false.
Proof.
  intros Hk (lead & w & c & tail & Hlead & _ & _ & ->).
  destruct (format_d_leading w k Hk) as (a & r & -> & Hda).
  destruct Hlead as [->| ->]; rewrite ?append_cons, ?append_nil;
    apply startswith_other; [|done].
  by intros ->.
Qed.

Lemma all_digits_no_dot s : Str.all_digits s = true -> Str.no_dot s = true.
Proof.
  induction s as [|c s IH]; [done|]. simpl.
  intros [Hc Hs]%andb_true_iff. rewrite (IH Hs).
  destruct (ascii_dec c ".") as [->|]; done.
Qed.

Lemma no_dot_app s t : Str.no_dot (s +:+ t) = (Str.no_dot s && Str.no_dot t)%bool.
Proof.
  induction s as [|c s IH]; [done|]. rewrite append_cons. simpl.
  rewrite IH. by rewrite andb_assoc.
Qed.

(** A prefix without a dot stays in front of the stem. *)
Lemma splitext_go_prefix p r seen :
  Str.no_dot p = true ->
  exists stem, (Str.splitext_go seen (p +:+ r)).1 = p +:+ stem /\
               (Str.splitext_go seen (p +:+ r)).2
               = (Str.splitext_go (seen || negb (String.eqb p ""))%bool r).2.
Proof.
  revert seen. induction p as [|a p IH]; intros seen Hp.
  - rewrite append_nil. simpl. rewrite orb_false_r. by eexists.
  - simpl in Hp. rewrite append_cons. simpl.
    destruct (ascii_dec a ".") as [->|Ha]; [done|]. simpl in Hp.
    destruct (IH true Hp) as (stem & Hstem & Hext).
    destruct (Str.splitext_go true (p +:+ r)) as [n e]. simpl in *.
    exists stem. rewrite append_cons, orb_true_r, Hstem. by rewrite Hext.
Qed.

Lemma tagged_suffixed k name (t : Z) :
  (0 <= k)%Z -> tagged k name ->
  tagged k ((Str.splitext name).1 +:+ "_" +:+ pretty t +:+ (Str.splitext name).2).
Proof.
  intros Hk (lead & w & c & tail & Hlead & Hc & Hdot & ->).
  assert (lead +:+ Str.format_d w k +:+ String c tail
          = (lead +:+ Str.format_d w k +:+ String c "") +:+ tail) as ->.
  { destruct Hlead as [->| ->]; rewrite ?append_cons, ?append_nil.
    - generalize (Str.format_d w k). intros s.
      induction s as [|a s IH]; [done|]. rewrite !append_cons. by rewrite IH.
    - do 6 f_equal. generalize (Str.format_d w k). intros s.
      induction s as [|a s IH]; [done|]. rewrite !append_cons. by rewrite IH. }
  destruct (splitext_go_prefix (lead +:+ Str.format_d w k +:+ String c "") tail false)
    as (stem & Hstem & _).
  { rewrite !no_dot_app. simpl.
    rewrite (all_digits_no_dot _ (format_d_digits w k Hk)).
    destruct (ascii_dec c ".") as [->|]; [done|].
    destruct Hlead as [->| ->]; done. }
  unfold Str.splitext. rewrite Hstem.
  exists lead, w, c, (stem +:+ "_" +:+ pretty t
                        +:+ (Str.splitext_go false
                               ((lead +:+ Str.format_d w k +:+ String c "") +:+ tail)).2).
  split; [done|]. split; [done|]. split; [done|].
  generalize (Str.splitext_go false
                ((lead +:+ Str.format_d w k +:+ String c "") +:+ tail)).2.
  intros ext. generalize (Str.format_d w k). intros s.
  destruct Hlead as [->| ->]; rewrite ?append_cons, ?append_nil.
  - induction s as [|a s IH]; [done|]. rewrite !append_cons. by rewrite IH.
  - do 6 f_equal. induction s as [|a s IH]; [done|]. rewrite !append_cons. by rewrite IH.
Qed.

Lemma join_inj dir n1 n2 :
  Str.startswith "/" n1 = false -> Str.startswith "/" n2 = false ->
  Str.join dir n1 = Str.join dir n2 -> n1 = n2.
Proof.
  unfold Str.join. intros -> ->.
  destruct (String.eqb dir "" || Str.endswith dir "/")%bool; intros Heq.
  - by apply (inj (String.append dir)) in Heq.
  - apply (inj (String.append dir)) in Heq. by injection Heq.
Qed.


Section IndexLed.

Hypothesis Hpattern : index_led (rename_pattern cfg).

Lemma format_pattern_tagged index filename timestamp date time name :
  format_pattern (rename_pattern cfg) index filename timestamp date time = Ok name ->
  tagged index name.
Proof.
  destruct Hpattern as (width & c & sep & rest & -> & Hc & Hdot). simpl.
  destruct (format_pattern rest index filename timestamp date time) as [tail|e];
    [|done].
  intros [= <-]. exists "", width, c, (sep +:+ tail).
  split; [by left|]. split; [done|]. split; [done|].
  by rewrite append_nil, append_cons.
Qed.

Lemma get_filename_tagged url index w name w1 :
  get_filename_from_url env cfg url index w = (Ok name, w1) -> tagged index name.
Proof.
  unfold get_filename_from_url, apply_pattern, time_time, now_strftime.
  unfold_monad. intros H.
  repeat case_match; simplify_eq;
    try (eapply format_pattern_tagged; eassumption);
    (eexists "image_", 3%nat, "_"%char, _;
     split; [by right|]; split; [done|]; split; [done|]; reflexivity).
Qed.

Lemma resolve_path_tagged dir url index w path w' :
  (0 <= index)%Z ->
  resolve_path env cfg dir url index w = (Ok path, w') ->
  exists name, path = Str.join dir name /\ tagged index name.
Proof.
  intros Hindex. unfold resolve_path, bind at 1.
  destruct (get_filename_from_url env cfg url index w) as [[name|e] w1] eqn:Hname;
    [|done].
  apply get_filename_tagged in Hname.
  unfold path_exists, time_time. unfold_monad.
  destruct (fs w1 !! Str.join dir name).
  - pose proof (tagged_suffixed index name (clock env (ticks w1)) Hindex Hname).
    destruct (Str.splitext name) as [stem ext]. intros [= <- <-]. by eexists.
  - intros [= <- <-]. by eexists.
Qed.

Lemma enqueue_all_distinct dir urls index w d :
  (0 <= index)%Z ->
  exists w' tasks,
    enqueue_all env cfg dir urls index w d =
      (Ok tt, w',
       set_queue (download_queue d ++ tasks)
                 (unfinished_tasks d + Z.of_nat (length tasks)) d) /\
    map task_url tasks = urls /\
    Forall (fun t => exists k name,
                (index <= k)%Z /\ task_path t = Str.join dir name /\ tagged k name)
           tasks /\
    NoDup (map task_path tasks).
Proof.
  revert index w d. induction urls as [|url rest IH]; intros index w d Hindex; simpl.
  - exists w, []. split; [|split; [done|split; constructor]].
    rewrite app_nil_r, Z.add_0_r. by destruct d.
  - destruct (resolve_path_never_raises env cfg dir url index w) as (path & w1 & Hpath).
    rewrite Hpath.
    destruct (resolve_path_tagged _ _ _ _ _ _ Hindex Hpath) as (name & -> & Hname).
    destruct (IH (index + 1)%Z w1
                (set_queue (download_queue d ++
                              [{| task_url := url; task_path := Str.join dir name;
                                  task_index := index |}])
                           (unfinished_tasks d + 1) d))
      as (w' & tasks & -> & Hurls & Hall & Hnodup); [lia|].
    exists w', ({| task_url := url; task_path := Str.join dir name;
                   task_index := index |} :: tasks).
    split; [|split; [by rewrite <- Hurls|split]].
    + unfold set_queue. simpl. rewrite <- app_assoc. simpl. do 2 f_equal. lia.
    + constructor.
      * exists index, name. simpl. split; [lia|done].
      * eapply Forall_impl; [exact Hall|]. intros t (k & n & Hk & Hp & Ht).
        exists k, n. split; [lia|done].
    + simpl. constructor; [|done].
      intros (t & Hp & Hin)%list_elem_of_fmap_1.
      rewrite Forall_forall in Hall. destruct (Hall t Hin) as (k & n & Hk & Hp' & Ht).
      rewrite Hp' in Hp. apply join_inj in Hp;
        [|eapply tagged_no_slash; [|eassumption]; lia..].
      subst n. assert (index = k) by (eapply tagged_inj; [..|exact Hname|exact Ht]; lia).
      lia.
Qed.

End IndexLed.


End Naming.


(** ** The theorems on concrete runs *)


(** A server that answers with an HTML page: the task fails and no file stays. *)
Lemma failed_validation_removes_file_witness :
  exists e s',
    run Scenario.lying_server default_config (replicate 4 0%nat)
      {| world := Scenario.empty_world; self := new_downloader;
         threads := [Fetch {| task_url := Scenario.a_jpg;
                              task_path := "/pics/001_a.jpg";
                              task_index := 1 |}] |} = Some s' /\
    stats (self s') = incr_failed zero_stats /\
    failed_urls (self s') = [(Scenario.a_jpg, str_exn e)] /\
    fs (world s') !! "/pics/001_a.jpg" = None.
Proof.
  destruct (proj2 (failed_validation_removes_file Scenario.lying_server default_config
                     Scenario.a_jpg "/pics/001_a.jpg"))
    with (s := {| world := Scenario.empty_world; self := new_downloader;
                  threads := [Fetch {| task_url := Scenario.a_jpg;
                                       task_path := "/pics/001_a.jpg";
                                       task_index := 1 |}] |})
         (i := 0%nat)
         (t := {| task_url := Scenario.a_jpg; task_path := "/pics/001_a.jpg";
                  task_index := 1 |})
    as (e & s' & Hrun & _ & Hstats & Hfailed & _ & Hgone).
  - intros k. exists Scenario.error_page. repeat split; reflexivity.
  - reflexivity.
  - reflexivity.
  - reflexivity.
  - reflexivity.
  - exists e, s'. repeat split; assumption.
Defined.

(** The payload's digest is known already: the worker deletes what it fetched. *)
Lemma content_duplicate_is_deleted_witness :
  exists s',
    run Scenario.env default_config (replicate 8 0%nat)
      {| world := Scenario.empty_world;
         self := set_file_hash_set {[md5_hexdigest Scenario.env Scenario.payload]}
                   new_downloader;
         threads := [Fetch {| task_url := Scenario.a_jpg;
                              task_path := "/pics/001_a.jpg";
                              task_index := 1 |}] |} = Some s' /\
    fs (world s') !! "/pics/001_a.jpg" = None /\
    duplicate (stats (self s')) = 1%Z /\
    skipped (stats (self s')) = 1%Z /\
    success (stats (self s')) = 0%Z /\
    downloaded_files (self s') = [].
Proof.
  destruct (download_image Scenario.env default_config Scenario.a_jpg
              "/pics/001_a.jpg" 0 Scenario.empty_world) as [r w1] eqn:Hcall.
  assert ((download_image Scenario.env default_config Scenario.a_jpg
             "/pics/001_a.jpg" 0 Scenario.empty_world).1 = Ok true) as Hres
      by (vm_compute; reflexivity).
  assert (calculate_file_hash Scenario.env "/pics/001_a.jpg"
            (download_image Scenario.env default_config Scenario.a_jpg
               "/pics/001_a.jpg" 0 Scenario.empty_world).2
          = Some (md5_hexdigest Scenario.env Scenario.payload)) as Hhash
      by (vm_compute; reflexivity).
  rewrite Hcall in Hres, Hhash. simpl in Hres, Hhash. subst r.
  destruct (content_duplicate_is_deleted Scenario.env default_config
              {| world := Scenario.empty_world;
                 self := set_file_hash_set
                           {[md5_hexdigest Scenario.env Scenario.payload]}
                           new_downloader;
                 threads := [Fetch {| task_url := Scenario.a_jpg;
                                      task_path := "/pics/001_a.jpg";
                                      task_index := 1 |}] |}
              0%nat
              {| task_url := Scenario.a_jpg; task_path := "/pics/001_a.jpg";
                 task_index := 1 |}
              w1 (md5_hexdigest Scenario.env Scenario.payload))
    as (s' & Hrun & _ & _ & Hgone & Hdup & Hskip & Hok & _ & Hfiles & _).
  - reflexivity.
  - reflexivity.
  - exact Hcall.
  - exact Hhash.
  - discriminate.
  - cbn [self file_hash_set set_file_hash_set]. apply elem_of_singleton_2. reflexivity.
  - exists s'. repeat split; assumption.
Defined.




(** Two threads at the membership test with the same digest, in both orders. *)
Lemma digest_test_and_insert_interleave_witness :
  let s := {| world := {| fs := {[ "/pics/002_b.jpg" := Scenario.payload ]};
                          ticks := 0; get_log := []; head_log := [] |};
              self := new_downloader;
              threads :=
                [IfSeen {| task_url := Scenario.a_jpg; task_path := "/pics/001_a.jpg";
                           task_index := 1 |} "d41d8cd9";
                 IfSeen {| task_url := Scenario.b_jpg; task_path := "/pics/002_b.jpg";
                           task_index := 2 |} "d41d8cd9"] |} in
  (exists s',
      run Scenario.env default_config (replicate 5 0%nat ++ replicate 5 1%nat) s = Some s' /\
      success (stats (self s')) = 1%Z /\ duplicate (stats (self s')) = 1%Z) /\
  (exists s',
      run Scenario.env default_config
        ([0%nat; 1%nat] ++ replicate 4 0%nat ++ replicate 4 1%nat) s = Some s' /\
      success (stats (self s')) = 2%Z /\ duplicate (stats (self s')) = 0%Z).
Proof.
  intros s.
  destruct (digest_test_and_insert_interleave Scenario.env default_config s 0%nat 1%nat
              {| task_url := Scenario.a_jpg; task_path := "/pics/001_a.jpg";
                 task_index := 1 |}
              {| task_url := Scenario.b_jpg; task_path := "/pics/002_b.jpg";
                 task_index := 2 |}
              "d41d8cd9" Scenario.payload)
    as [(s1 & Hrun1 & _ & Hok1 & Hdup1 & _) [(s2 & Hrun2 & _ & Hok2 & Hdup2 & _) _]].
  - discriminate.
  - reflexivity.
  - reflexivity.
  - apply not_elem_of_empty.
  - vm_compute. reflexivity.
  - split; [exists s1|exists s2]; repeat split; assumption.
Defined.

(** The batch [a.jpg, b.jpg, a.jpg] with dedup on and with dedup off. *)
Lemma three_urls_one_content_witness :
  (exists w' d',
      download_all Scenario.env Scenario.one_worker (replicate 24 0%nat)
        [Scenario.a_jpg; Scenario.b_jpg; Scenario.a_jpg]
        Scenario.empty_world new_downloader = Some (Ok true, w', d') /\
      stats d' = {| total := 2; success := 1; failed := 0; skipped := 1;
                    duplicate := 1 |}) /\
  (exists w' d',
      download_all Scenario.env Scenario.one_worker_no_dedup (replicate 24 0%nat)
        [Scenario.a_jpg; Scenario.b_jpg; Scenario.a_jpg]
        Scenario.empty_world new_downloader = Some (Ok true, w', d') /\
      stats d' = {| total := 3; success := 3; failed := 0; skipped := 0;
                    duplicate := 0 |}).
Proof.
  assert (forall (n : nat) (url : string),
             serves Scenario.payload (requests_get Scenario.env n url)) as Hserves.
  { intros n url. exists Scenario.reply. repeat split; reflexivity. }
  assert (forall path : string, may_write Scenario.env path = true) as Hwrite
      by reflexivity.
  assert (md5_hexdigest Scenario.env Scenario.payload <> "") as Hdigest
      by (vm_compute; discriminate).
  assert (url_digest Scenario.env Scenario.a_jpg <> url_digest Scenario.env Scenario.b_jpg)
    as Hab by (vm_compute; discriminate).
  split.
  - assert (valid_image Scenario.env Scenario.one_worker Scenario.payload) as Hvalid.
    { repeat split; try reflexivity; vm_compute; discriminate. }
    assert (has_image_extension Scenario.env Scenario.one_worker Scenario.a_jpg) as Ha
        by (exists "/a.jpg"; split; reflexivity).
    assert (has_image_extension Scenario.env Scenario.one_worker Scenario.b_jpg) as Hb
        by (exists "/b.jpg"; split; reflexivity).
    destruct (three_urls_one_content Scenario.env Scenario.one_worker Scenario.payload
                Hserves Hvalid Hwrite Hdigest Scenario.a_jpg Scenario.b_jpg
                eq_refl Ha Hb Hab Scenario.empty_world)
      as [(w' & d' & Hrun) Hstats].
    exists w', d'. split; [exact Hrun|].
    exact (proj2 (Hstats _ _ _ _ Hrun)).
  - assert (valid_image Scenario.env Scenario.one_worker_no_dedup Scenario.payload)
      as Hvalid.
    { repeat split; try reflexivity; vm_compute; discriminate. }
    assert (has_image_extension Scenario.env Scenario.one_worker_no_dedup Scenario.a_jpg)
      as Ha by (exists "/a.jpg"; split; reflexivity).
    assert (has_image_extension Scenario.env Scenario.one_worker_no_dedup Scenario.b_jpg)
      as Hb by (exists "/b.jpg"; split; reflexivity).
    destruct (three_urls_one_content Scenario.env Scenario.one_worker_no_dedup
                Scenario.payload Hserves Hvalid Hwrite Hdigest
                Scenario.a_jpg Scenario.b_jpg eq_refl Ha Hb Hab Scenario.empty_world)
      as [(w' & d' & Hrun) Hstats].
    exists w', d'. split; [exact Hrun|].
    exact (proj2 (Hstats _ _ _ _ Hrun)).
Defined.


(** * Further properties *)

(** ** The files [download_image] touches *)

Section FetcherFiles.

Variable env : Outside.
Variable cfg : Config.

(** What one try leaves on disk: other paths as they were, and after a
    try that returned, the body of the reply at [path], checked. *)
Lemma download_try_files url path w r w' :
  download_try env cfg url path w = (r, w') ->
  (forall other, other <> path -> fs w' !! other = fs w !! other) /\
  head_log w' = head_log w /\ ticks w' = ticks w /\
  (forall b, r = Ok b ->
     exists response,
       requests_get env (length (get_log w)) url = Ok response /\
       stream_error response = None /\
       fs w' !! path = Some (body response) /\
       (min_file_size cfg <= Z.of_nat (length (body response)))%Z /\
       image_open env (body response) = true /\
       image_verify env (body response) = true).
Proof.
  unfold download_try, bind at 1.
  destruct (fetch_and_save env cfg url path w) as [[[]|e] w1] eqn:Hf.
  - apply fetch_and_save_ok in Hf as (response & Hget & Hwhole & ->).
    unfold validate_saved, getsize, remove, read_file. unfold_monad. simpl.
    rewrite !lookup_insert_eq.
    destruct (Z.of_nat (length (body response)) <? min_file_size cfg)%Z eqn:Hsmall; simpl.
    + rewrite lookup_insert_eq. simpl. intros [= <- <-]. simpl.
      split; [|done]. intros other Hother.
      rewrite lookup_delete_ne, lookup_insert_ne by done. done.
    + rewrite lookup_insert_eq.
      destruct (image_open env (body response) && image_verify env (body response))%bool
        eqn:Hpil; simpl.
      * intros [= <- <-]. simpl. split; [|split; [done|split; [done|]]].
        -- intros other Hother. by rewrite lookup_insert_ne.
        -- intros _ _. exists response. apply andb_true_iff in Hpil as [Hopen Hverify].
           rewrite lookup_insert_eq. repeat split; try done. lia.
      * rewrite lookup_insert_eq. simpl. intros [= <- <-]. simpl.
        split; [|done]. intros other Hother.
        rewrite lookup_delete_ne, lookup_insert_ne by done. done.
  - intros [= <- <-]. revert Hf.
    unfold fetch_and_save, http_get, raise_for_status, response_content, save_stream.
    unfold_monad. intros H.
    repeat case_match; simplify_eq; simpl;
      (split; [|done]); intros other Hother; by rewrite ?lookup_insert_ne.
Qed.

Lemma download_image_from_files n url path w r w' :
  download_image_from env cfg n url path w = (r, w') ->
  (forall other, other <> path -> fs w' !! other = fs w !! other) /\
  head_log w' = head_log w /\ ticks w' = ticks w /\
  (forall b, r = Ok b ->
     exists response k,
       requests_get env k url = Ok response /\
       S k = length (get_log w') /\
       stream_error response = None /\
       fs w' !! path = Some (body response) /\
       (min_file_size cfg <= Z.of_nat (length (body response)))%Z /\
       image_open env (body response) = true /\
       image_verify env (body response) = true).
Proof.
  revert w. induction n as [|n IH]; intros w; simpl; unfold try_except;
    destruct (download_try env cfg url path w) as [[b0|e0] w1] eqn:Ht;
    pose proof (download_try_files _ _ _ _ _ Ht) as (Hother & Hhead & Hticks & Hok);
    pose proof (download_try_get_log _ _ _ _ _ _ _ Ht) as Hlog; intros H.
  - simplify_eq. split; [done|]. split; [done|]. split; [done|].
    intros b _. destruct (Hok b0 eq_refl) as (response & Hget & Hrest).
    exists response, (length (get_log w)). split; [done|].
    split; [|done]. rewrite Hlog, length_app. simpl. lia.
  - unfold raise in H. simplify_eq. done.
  - simplify_eq. split; [done|]. split; [done|]. split; [done|].
    intros b _. destruct (Hok b0 eq_refl) as (response & Hget & Hrest).
    exists response, (length (get_log w)). split; [done|].
    split; [|done]. rewrite Hlog, length_app. simpl. lia.
  - unfold bind, sleep in H.
    destruct (retry_delay cfg <? 0)%Z.
    + unfold raise in H. simplify_eq. done.
    + simpl in H. apply IH in H as (Hother' & Hhead' & Hticks' & Hok').
      split; [|split; [congruence|split; [congruence|done]]].
      intros other Hne. rewrite Hother' by done. by apply Hother.
Qed.


(** [download_image] reads and writes no file but [save_path]. *)
Theorem download_image_leaves_other_files (url path other : string) (retry_count : Z)
        (w : World) :
  other <> path ->
  fs (download_image env cfg url path retry_count w).2 !! other = fs w !! other.
Proof.
  intros Hother.
  destruct (download_image env cfg url path retry_count w) as [r w'] eqn:Hcall.
  unfold download_image in Hcall.
  apply download_image_from_files in Hcall as (Hframe & _). by apply Hframe.
Qed.

(** When [download_image] returns, it returns [True] and the file at
    [save_path] is the whole body of the reply to the last GET request of
    the call, of at least [min_file_size] bytes, opened and verified. *)
Theorem download_image_returns_checked_file (url path : string) (retry_count : Z)
        (w w' : World) (b : bool) :
  download_image env cfg url path retry_count w = (Ok b, w') ->
  b = true /\
  exists response k,
    requests_get env k url = Ok response /\
    S k = length (get_log w') /\
    stream_error response = None /\
    fs w' !! path = Some (body response) /\
    (min_file_size cfg <= Z.of_nat (length (body response)))%Z /\
    image_open env (body response) = true /\
    image_verify env (body response) = true.
Proof.
  intros Hcall. split.
  - unfold download_image in Hcall. by eapply download_image_from_true.
  - unfold download_image in Hcall.
    apply download_image_from_files in Hcall as (_ & _ & _ & Hok). by eapply Hok.
Qed.

(** A try whose reply declares a length outside the bounds raises before
    anything is written. *)
Lemma download_try_declared_size url path w response c :
  requests_get env (length (get_log w)) url = Ok response ->
  header_content_length response = Some c ->
  (max_file_size cfg < c \/ 0 < c < min_file_size cfg)%Z ->
  exists e,
    download_try env cfg url path w = (Raise e, log_get url w) /\
    (status_code response < 400 \/ 600 <= status_code response ->
     exists msg, e = ValueError msg)%Z.
Proof.
  intros Hget Hlen Hc.
  unfold download_try, fetch_and_save, http_get, raise_for_status. unfold_monad.
  rewrite Hget, Hlen. simpl.
  destruct ((400 <=? status_code response) && (status_code response <? 600))%Z%bool eqn:Hst.
  { eexists. split; [done|]. apply andb_true_iff in Hst. lia. }
  destruct (c >? max_file_size cfg)%Z eqn:Hbig.
  { eexists. split; [done|]. eauto. }
  destruct ((c >? 0) && (c <? min_file_size cfg))%Z%bool eqn:Hsmall.
  { eexists. split; [done|]. eauto. }
  apply andb_false_iff in Hsmall. lia.
Qed.

(** A server that declares a [Content-Length] above [max_file_size], or
    below [min_file_size], on every try: [download_image] raises and the
    file system is as it was. *)
Theorem declared_size_out_of_bounds (url path : string) (retry_count : Z) (w : World) :
  (forall n, exists response c,
      requests_get env n url = Ok response /\
      header_content_length response = Some c /\
      (max_file_size cfg < c \/ 0 < c < min_file_size cfg)%Z) ->
  exists e w',
    download_image env cfg url path retry_count w = (Raise e, w') /\
    fs w' = fs w.
Proof.
  intros Hserver. unfold download_image.
  generalize (Z.to_nat (retry_attempts cfg - retry_count)). intros n.
  revert w. induction n as [|n IH]; intros w; simpl; unfold try_except;
    destruct (Hserver (length (get_log w))) as (response & c & Hget & Hlen & Hc);
    destruct (download_try_declared_size url path w _ _ Hget Hlen Hc) as (e & -> & _).
  - by eexists _, _.
  - unfold bind, sleep. destruct (retry_delay cfg <? 0)%Z.
    + by eexists _, _.
    + simpl. destruct (IH (log_get url w)) as (e' & w' & -> & Hfs). by eexists _, _.
Qed.

(** [max_file_size] is compared with the declared length only: a reply
    whose header passes is saved whole, however long its body is. *)
Theorem body_length_is_not_capped (url path : string) (w : World) (response : Response) :
  requests_get env (length (get_log w)) url = Ok response ->
  (status_code response < 400 \/ 600 <= status_code response)%Z ->
  (default 0 (header_content_length response) <= max_file_size cfg)%Z ->
  (default 0 (header_content_length response) <= 0 \/
   min_file_size cfg <= default 0 (header_content_length response))%Z ->
  Str.contains "image/" (Str.lower (header_content_type response)) = true ->
  stream_error response = None ->
  may_write env path = true ->
  (min_file_size cfg <= Z.of_nat (length (body response)))%Z ->
  image_open env (body response) = true ->
  image_verify env (body response) = true ->
  download_image env cfg url path 0 w
    = (Ok true, set_fs (insert path (body response)) (log_get url w)).
Proof.
  intros Hget Hstatus Hmax Hmin Htype Hwhole Hwrite Hsize Hopen Hverify.
  assert (download_try env cfg url path w
          = (Ok true, set_fs (insert path (body response)) (log_get url w))) as Htry.
  { unfold download_try, fetch_and_save, validate_saved, http_get, raise_for_status,
      response_content, save_stream, getsize, read_file, remove.
    unfold_monad. rewrite Hget. simpl.
    destruct ((400 <=? status_code response) && (status_code response <? 600))%Z%bool eqn:Hst.
    { apply andb_true_iff in Hst. lia. }
    destruct (default 0 (header_content_length response) >? max_file_size cfg)%Z eqn:Hbig;
      [lia|].
    destruct ((default 0 (header_content_length response) >? 0)
              && (default 0 (header_content_length response) <? min_file_size cfg))%Z%bool
      eqn:Hsmall; [apply andb_true_iff in Hsmall; lia|].
    rewrite Htype, Hwrite, Hwhole. simpl. rewrite lookup_insert_eq.
    destruct (Z.of_nat (length (body response)) <? min_file_size cfg)%Z eqn:Hshort; [lia|].
    simpl. rewrite lookup_insert_eq, Hopen, Hverify. reflexivity. }
  unfold download_image.
  destruct (Z.to_nat (retry_attempts cfg - 0)); simpl; unfold try_except; by rewrite Htry.
Qed.

End FetcherFiles.

(** ** The lists and the counters *)

Section Lists.

Variable env : Outside.
Variable cfg : Config.





End Lists.

(** ** The files a batch keeps *)

Section KeptFiles.

Variable env : Outside.
Variable cfg : Config.

Lemma threads_split (ths : list pc) i p p' :
  ths !! i = Some p ->
  exists before after,
    ths = before ++ p :: after /\ <[i := p']> ths = before ++ p' :: after.
Proof.
  intros Hi. exists (take i ths), (drop (S i) ths). split.
  - by rewrite take_drop_middle.
  - apply insert_take_drop. by eapply lookup_lt_Some.
Qed.

Lemma fetched_held ths path :
  path ∈ concat (map fetched_path ths) -> path ∈ concat (map held_path ths).
Proof.
  induction ths as [|p ths IH]; simpl; [done|].
  rewrite !elem_of_app. intros [Hp|Hin]; [left|right; by apply IH].
  destruct p; simpl in *; set_solver.
Qed.

Lemma checked_file_frame w w' path :
  fs w' !! path = fs w !! path ->
  checked_file env cfg w path -> checked_file env cfg w' path.
Proof. intros Heq (data & Hfile & Hrest). exists data. by rewrite Heq. Qed.

(** The path a thread holds is held by no other thread, waits in no
    task of the queue and is not among the saved files. *)
Lemma held_once (queue : list string) before after files x path :
  NoDup (queue ++ concat (map held_path before) ++ x :: concat (map held_path after) ++ files) ->
  path ∈ concat (map fetched_path before) ++ concat (map fetched_path after) ++ files ->
  path <> x.
Proof.
  intros Hnd Hin ->.
  apply NoDup_app in Hnd as (_ & _ & Hnd).
  apply NoDup_app in Hnd as (_ & Hleft & Hnd).
  apply NoDup_cons in Hnd as (Hright & _).
  rewrite !elem_of_app in Hin. destruct Hin as [Hin|[Hin|Hin]].
  - apply fetched_held in Hin. apply (Hleft x Hin). by left.
  - apply fetched_held in Hin. apply Hright. rewrite elem_of_app. by left.
  - apply Hright. rewrite elem_of_app. by right.
Qed.

Ltac split_threads Hi p' :=
  let before := fresh "before" in
  let after := fresh "after" in
  let Hths := fresh "Hths" in
  let Hins := fresh "Hins" in
  destruct (threads_split _ _ _ p' Hi) as (before & after & Hths & Hins);
  rewrite Hins; clear Hins;
  rewrite Hths in *; clear Hths;
  rewrite ?map_app, ?concat_app in *; simpl in *;
  rewrite <- ?app_assoc in *; simpl in *.

(** The thread gave up the path it held. *)
Ltac path_released Hnd :=
  eapply sublist_NoDup; [exact Hnd|];
  apply sublist_app; [done|]; apply sublist_app; [done|]; by apply sublist_cons.

Lemma worker_step_preserves_files s i p :
  files_inv env cfg s ->
  threads s !! i = Some p ->
  files_inv env cfg
    {| world := (worker_step env cfg p (world s) (self s)).1.2;
       self := (worker_step env cfg p (world s) (self s)).2;
       threads := <[i := (worker_step env cfg p (world s) (self s)).1.1]> (threads s) |}.
Proof.
  intros [Hnd Hdisk] Hi. destruct s as [w d ths]. simpl in *.
  destruct p; simpl.
  - (* the loop head *)
    destruct (running d); [|constructor; simpl; split_threads Hi Exited; done].
    destruct (download_queue d) as [|t q] eqn:Hq.
    { constructor; simpl; rewrite ?Hq; split_threads Hi AtLoop; done. }
    constructor; simpl; split_threads Hi (Fetch t); [|done].
    eapply NoDup_Permutation_proper; [|exact Hnd]. solve_Permutation.
  - (* the call of download_image *)
    destruct (download_image env cfg (task_url t) (task_path t) 0 w)
      as [[[|]|e] w'] eqn:Hcall; simpl;
      unfold download_image in Hcall;
      apply download_image_from_files in Hcall as (Hframe & _ & _ & Hok).
    + constructor; simpl; split_threads Hi (Hashing t); [done|].
      intros path Hin.
      destruct (decide (path = task_path t)) as [->|Hne].
      * destruct (Hok true eq_refl) as (response & k & _ & _ & _ & Hfile & Hmin & Ho & Hv).
        by exists (body response).
      * apply (checked_file_frame w); [by apply Hframe|].
        apply Hdisk. set_solver.
    + constructor; simpl; split_threads Hi TaskDone; [path_released Hnd|].
      intros path Hin. apply (checked_file_frame w); [|by apply Hdisk].
      apply Hframe. by eapply held_once.
    + constructor; simpl; split_threads Hi (AppendFail t e); [path_released Hnd|].
      intros path Hin. apply (checked_file_frame w); [|by apply Hdisk].
      apply Hframe. by eapply held_once.
  - constructor; simpl; split_threads Hi (IfDedup t (calculate_file_hash env (task_path t) w)); done.
  - destruct h as [h|]; [destruct (deduplicate cfg && negb (h =? ""))%bool|];
      constructor; simpl;
      first [split_threads Hi (IfSeen t h) | split_threads Hi (AppendFile t)]; done.
  - destruct (decide (h ∈ file_hash_set d));
      constructor; simpl;
      first [split_threads Hi (RemoveDup t) | split_threads Hi (AddHash t h)]; done.
  - (* os.remove *)
    unfold remove. destruct (fs w !! task_path t) as [data|] eqn:Hfile; simpl.
    + constructor; simpl; split_threads Hi (CountDup t); [path_released Hnd|].
      intros path Hin. apply (checked_file_frame w); [|apply Hdisk; set_solver].
      simpl. apply lookup_delete_ne. apply not_eq_sym. by eapply held_once.
    + constructor; simpl;
        split_threads Hi (AppendFail t (OSError "No such file or directory"));
        [path_released Hnd|].
      intros path Hin. apply Hdisk. set_solver.
  - constructor; simpl; split_threads Hi (CountSkip t); done.
  - constructor; simpl; split_threads Hi (PrintSkip t); done.
  - constructor; simpl; split_threads Hi TaskDone; done.
  - constructor; simpl; split_threads Hi (AppendFile t); done.
  - (* downloaded_files.append *)
    constructor; simpl; split_threads Hi (CountOk t).
    + eapply NoDup_Permutation_proper; [|exact Hnd]. solve_Permutation.
    + intros path Hin. apply Hdisk. set_solver.
  - constructor; simpl; split_threads Hi (PrintOk t); done.
  - constructor; simpl; split_threads Hi TaskDone; done.
  - constructor; simpl; split_threads Hi (CountFail t e); done.
  - constructor; simpl; split_threads Hi (PrintFail t e); done.
  - constructor; simpl; split_threads Hi TaskDone; done.
  - destruct (unfinished_tasks d <=? 0)%Z;
      constructor; simpl; first [split_threads Hi Exited | split_threads Hi AtLoop]; done.
  - constructor; simpl; split_threads Hi Exited; done.
Qed.

Lemma run_preserves_files schedule s s' :
  files_inv env cfg s ->
  run env cfg schedule s = Some s' ->
  files_inv env cfg s'.
Proof.
  revert s. induction schedule as [|i rest IH]; intros s Hinv; simpl.
  - by intros [= <-].
  - destruct (threads s !! i) as [p|] eqn:Hi.
    + rewrite (step_at env cfg _ _ _ Hi). apply IH.
      by apply worker_step_preserves_files.
    + unfold step. by rewrite Hi.
Qed.

Lemma no_path_idle (g : pc -> list string) n :
  g AtLoop = [] -> concat (map g (replicate n AtLoop)) = [].
Proof. intros Hg. induction n as [|n IH]; simpl; [done|]. by rewrite Hg, IH. Qed.

(** [download_all] with a naming pattern led by the index: the pool
    starts on tasks with pairwise distinct paths. *)
Lemma download_all_distinct_paths schedule urls w d w' d' :
  index_led (rename_pattern cfg) ->
  download_all env cfg schedule urls w d = Some (Ok true, w', d') ->
  exists w1 image_urls d1 w3 tasks s,
    collect_image_urls env cfg urls [] w (reset_stats d) = (Ok image_urls, w1, d1) /\
    downloaded_files d1 = [] /\
    download_queue d1 = download_queue d /\
    NoDup (map task_path tasks) /\
    run env cfg schedule
      {| world := w3;
         self := set_running true
                   (set_stats (set_total (Z.of_nat (length image_urls)))
                      (set_queue (download_queue d1 ++ tasks)
                         (unfinished_tasks d1 + Z.of_nat (length tasks)) d1));
         threads := replicate
                      (Z.to_nat (Z.min (max_workers cfg) (Z.of_nat (length image_urls))))
                      AtLoop |} = Some s /\
    w' = world s /\ d' = set_running false (self s).
Proof.
  intros Hpattern. unfold download_all.
  destruct (collect_image_urls_spec env cfg urls [] w (reset_stats d))
    as (w1 & image_urls & Hcollect & _).
  simpl in Hcollect. rewrite Hcollect. intros H.
  destruct image_urls as [|url rest]; [done|].
  destruct (get_save_directory_never_raises env cfg w1) as (dir & w2 & Hdir).
  rewrite Hdir in H.
  match type of H with
  | context [enqueue_all env cfg dir ?l 1 w2 ?d1] =>
      destruct (enqueue_all_distinct env cfg Hpattern dir l 1 w2 d1)
        as (w3 & tasks & Henq & Hurls & _ & Hnodup); [lia|];
      rewrite Henq in H
  end.
  match type of H with
  | context [run env cfg schedule ?s0] =>
      destruct (run env cfg schedule s0) as [s|] eqn:Hrun; [|done]
  end.
  destruct (unfinished_tasks (self s) =? 0)%Z; [|done].
  simplify_eq. eexists _, _, _, w3, tasks, s. split; [done|]. done.
Qed.

(** With a naming pattern led by the index, every path in
    [downloaded_files] after a batch names a file that is on disk, of at
    least [min_file_size] bytes, opened and verified; no path is listed
    twice. *)
Theorem saved_files_are_on_disk schedule urls w d r w' d' :
  index_led (rename_pattern cfg) ->
  download_queue d = [] ->
  download_all env cfg schedule urls w d = Some (r, w', d') ->
  NoDup (downloaded_files d') /\
  forall path, path ∈ downloaded_files d' -> checked_file env cfg w' path.
Proof.
  intros Hpattern Hq Hall.
  destruct (download_all_cases env cfg _ _ _ _ _ _ _ Hall)
    as (w1' & image_urls' & _ & _ & Hcases).
  destruct Hcases as [(_ & _ & _ & ->)|(-> & _)].
  { simpl. split; [constructor|]. intros path Hin. by apply elem_of_nil in Hin. }
  destruct (download_all_distinct_paths _ _ _ _ _ _ Hpattern Hall)
    as (w1 & image_urls & d1 & w3 & tasks & s & _ & Hfiles & Hq1 & Hnodup & Hrun & -> & ->).
  rewrite Hq1, Hq in Hrun.
  eapply run_preserves_files in Hrun; last first.
  { constructor; simpl; rewrite no_path_idle by done; rewrite Hfiles; simpl.
    - by rewrite app_nil_r.
    - intros path Hin. by apply elem_of_nil in Hin. }
  destruct Hrun as [Hnd Hdisk]. simpl. split.
  - apply NoDup_app in Hnd as (_ & _ & Hnd). by apply NoDup_app in Hnd as (_ & _ & Hnd).
  - intros path Hin. apply Hdisk. set_solver.
Qed.

End KeptFiles.

(** ** One batch after another *)

Section Batches.

Variable env : Outside.
Variable cfg : Config.

(** The classifier sends HEAD requests and does nothing else. *)
Lemma is_image_url_world url w r w' :
  is_image_url env cfg url w = (r, w') ->
  fs w' = fs w /\ get_log w' = get_log w /\ ticks w' = ticks w.
Proof.
  unfold is_image_url, http_head. unfold_monad.
  intros H. repeat case_match; simplify_eq; done.
Qed.

Lemma collect_image_urls_world urls acc w d r w' d' :
  collect_image_urls env cfg urls acc w d = (r, w', d') ->
  fs w' = fs w /\ get_log w' = get_log w /\ ticks w' = ticks w.
Proof.
  revert acc w d. induction urls as [|url rest IH]; intros acc w d; simpl.
  - by intros [= <- <- <-].
  - destruct (is_image_url env cfg url w) as [[[|]|e] w1] eqn:Hcls;
      apply is_image_url_world in Hcls as (Hfs & Hlog & Hticks).
    + destruct (negb (deduplicate cfg) || _)%bool; intros H;
        apply IH in H as (-> & -> & ->); done.
    + intros H. apply IH in H as (-> & -> & ->). done.
    + by intros [= <- <- <-].
Qed.

(** Every URL that the classifier accepts by its extension has its
    digest in [url_hash_set] after the filter. *)
Lemma collect_image_urls_digests urls acc w d url :
  url ∈ urls -> has_image_extension env cfg url ->
  url_digest env url ∈ url_hash_set (collect_image_urls env cfg urls acc w d).2.
Proof.
  revert acc w d. induction urls as [|u rest IH]; intros acc w d Hin Hext.
  { by apply elem_of_nil in Hin. }
  assert (forall acc' w' d', url_digest env url ∈ url_hash_set d' ->
            url_digest env url
            ∈ url_hash_set (collect_image_urls env cfg rest acc' w' d').2) as Hkeep.
  { intros acc' w' d' Hd.
    destruct (collect_image_urls_spec env cfg rest acc' w' d')
      as (w2 & fresh & -> & _). simpl. set_solver. }
  simpl. apply elem_of_cons in Hin as [<-|Hin].
  - rewrite (is_image_url_by_extension env cfg) by done.
    destruct (negb (deduplicate cfg)
              || negb (bool_decide (url_digest env url ∈ url_hash_set d)))%bool eqn:Hnew.
    + apply Hkeep. simpl. set_solver.
    + apply Hkeep. apply orb_false_iff in Hnew as [_ Hseen].
      apply negb_false_iff, bool_decide_eq_true in Hseen. done.
  - destruct (is_image_url_total env cfg u w) as (b & w1 & ->).
    destruct b; [|by apply IH].
    destruct (negb (deduplicate cfg) || _)%bool; by apply IH.
Qed.

(** URLs whose digests are all known pass no further. *)
Lemma collect_image_urls_known urls acc w d :
  deduplicate cfg = true ->
  (forall url, url ∈ urls ->
     has_image_extension env cfg url /\ url_digest env url ∈ url_hash_set d) ->
  collect_image_urls env cfg urls acc w d = (Ok acc, w, d).
Proof.
  intros Hdedup. induction urls as [|u rest IH]; intros Hknown; simpl; [done|].
  destruct (Hknown u ltac:(by left)) as [Hext Hseen].
  rewrite (is_image_url_by_extension env cfg) by done.
  rewrite Hdedup, bool_decide_eq_true_2 by done. simpl.
  apply IH. intros url Hin. apply Hknown. by right.
Qed.

(** With dedup on, the links of a batch are not taken again by a later
    batch of the same downloader: when every link of the later batch was
    in the earlier one and carries an image extension, [download_all]
    finds nothing to do and returns [False], whatever became of the
    links the first time. *)
Theorem repeated_links_are_dropped schedule urls w d r w' d' schedule' urls' w'' :
  deduplicate cfg = true ->
  download_all env cfg schedule urls w d = Some (r, w', d') ->
  (forall url, url ∈ urls' -> url ∈ urls /\ has_image_extension env cfg url) ->
  download_all env cfg schedule' urls' w'' d' = Some (Ok false, w'', reset_stats d').
Proof.
  intros Hdedup Hall Hsub.
  assert (forall url, url ∈ urls' ->
            has_image_extension env cfg url /\ url_digest env url ∈ url_hash_set d')
    as Hknown.
  { intros url Hin. destruct (Hsub url Hin) as [Hurl Hext]. split; [done|].
    pose proof (collect_image_urls_digests urls [] w (reset_stats d) url Hurl Hext) as Hd.
    destruct (download_all_cases env cfg _ _ _ _ _ _ _ Hall)
      as (w1 & image_urls & Hcollect & _ & Hcases).
    rewrite Hcollect in Hd. simpl in Hd.
    destruct Hcases as [(_ & _ & _ & ->)|(_ & w3 & tasks & s & _ & Hrun & _ & _ & ->)].
    - done.
    - apply (run_hash_sets env cfg) in Hrun as [Hu _]. simpl in *. by rewrite Hu. }
  unfold download_all.
  rewrite (collect_image_urls_known urls' [] w'' (reset_stats d') Hdedup); [done|].
  intros url Hin. by apply Hknown.
Qed.

(** [download_all] returns [False] only before anything is fetched: no
    GET request was sent, no file written, the clock not read; the
    counters and the two lists are reset and the rest of the downloader
    is as it was. *)
Theorem false_return_changes_nothing schedule urls w d w' d' :
  download_all env cfg schedule urls w d = Some (Ok false, w', d') ->
  fs w' = fs w /\ get_log w' = get_log w /\ ticks w' = ticks w /\
  d' = reset_stats d.
Proof.
  intros Hall.
  destruct (download_all_cases env cfg _ _ _ _ _ _ _ Hall)
    as (w1 & image_urls & Hcollect & _ & Hcases).
  destruct Hcases as [(-> & _ & -> & ->)|(? & _)]; [|done].
  apply collect_image_urls_world in Hcollect as (Hfs & Hlog & Hticks).
  split; [done|]. split; [done|]. split; [done|].
  simpl. rewrite (left_id_L ∅ (∪)). by destruct d.
Qed.

(** A pool without threads makes no step. *)
Lemma run_no_threads schedule s s' :
  run env cfg schedule s = Some s' -> threads s = [] -> s' = s.
Proof.
  destruct schedule as [|i rest]; simpl; [by intros [= <-]|].
  intros H Hths. unfold step in H. by rewrite Hths in H.
Qed.

(** With [max_workers] zero or negative no thread is started: a batch
    with a link to fetch waits in [join] for ever, and [download_all]
    returns only when there is none, with [False]. *)
Theorem no_worker_no_return schedule urls w d :
  (max_workers cfg <= 0)%Z ->
  (0 <= unfinished_tasks d)%Z ->
  (forall r w' d',
      download_all env cfg schedule urls w d = Some (r, w', d') -> r = Ok false) /\
  (forall url,
      url ∈ urls -> has_image_extension env cfg url ->
      url_digest env url ∉ url_hash_set d ->
      download_all env cfg schedule urls w d = None).
Proof.
  intros Hnone Hu.
  assert (forall r w' d',
             download_all env cfg schedule urls w d = Some (r, w', d') -> r = Ok false)
    as Hfalse.
  { intros r w' d' Hall.
    destruct (download_all_cases env cfg _ _ _ _ _ _ _ Hall)
      as (w1 & image_urls & Hcollect & _ & Hcases).
    destruct Hcases as [(_ & -> & _)|(-> & w3 & tasks & s & Hurls & Hrun & Hjoin & _)];
      [done|exfalso].
    replace (Z.to_nat (Z.min (max_workers cfg) (Z.of_nat (length image_urls))))
      with O in Hrun by lia.
    apply run_no_threads in Hrun; [|done]. subst s. simpl in Hjoin.
    assert (tasks = []) as -> by (apply length_zero_iff_nil; lia).
    simpl in Hurls. subst image_urls.
    unfold download_all in Hall. by rewrite Hcollect in Hall. }
  split; [exact Hfalse|].
  intros url Hin Hext Hnew.
  destruct (download_all env cfg schedule urls w d) as [[[r w'] d']|] eqn:Hall; [|done].
  exfalso. pose proof (Hfalse _ _ _ eq_refl) as ->.
  pose proof (collect_image_urls_digests urls [] w (reset_stats d) url Hin Hext) as Hd.
  destruct (download_all_cases env cfg _ _ _ _ _ _ _ Hall)
    as (w1 & image_urls & Hcollect & _ & Hcases).
  rewrite Hcollect in Hd.
  destruct Hcases as [(-> & _)|(? & _)]; [|done].
  simpl in Hd. set_solver.
Qed.

(** *** One worker *)

Lemma worker_step_fifo urls printed0 p w d :
  fifo_inv urls printed0 p d ->
  fifo_inv urls printed0 (worker_step env cfg p w d).1.1 (worker_step env cfg p w d).2.
Proof.
  intros (lines & Hpr & Hurls). unfold fifo_inv.
  destruct p; simpl in *;
    try (exists lines; split; [done|]; done).
  - destruct (running d); [|by exists lines].
    destruct (download_queue d) as [|t q] eqn:Hq; simpl; [|by exists lines].
    exists lines. by rewrite Hq.
  - destruct (download_image env cfg (task_url t) (task_path t) 0 w)
      as [[[|]|e] w'] eqn:Hcall; simpl; try by exists lines.
    by apply download_image_from_true in Hcall.
  - destruct h as [h|]; [destruct (deduplicate cfg && negb (h =? ""))%bool|];
      by exists lines.
  - destruct (decide (h ∈ file_hash_set d)); by exists lines.
  - destruct (remove (task_path t) w) as [[[]|e] w']; by exists lines.
  - exists (lines ++ [Skipped (task_url t)]). rewrite Hpr, map_app, <- !app_assoc. done.
  - exists (lines ++ [Saved (task_url t) (task_path t)]).
    rewrite Hpr, map_app, <- !app_assoc. done.
  - exists (lines ++ [Failed (task_url t) e]). rewrite Hpr, map_app, <- !app_assoc. done.
  - destruct (unfinished_tasks d <=? 0)%Z; by exists lines.
Qed.

Lemma steps_alone_fifo urls printed0 n p w d :
  fifo_inv urls printed0 p d ->
  fifo_inv urls printed0 (steps_alone env cfg n p w d).1.1 (steps_alone env cfg n p w d).2.
Proof.
  revert p w d. induction n as [|n IH]; intros p w d Hinv; simpl; [done|].
  pose proof (worker_step_fifo _ _ _ w _ Hinv) as Hstep.
  destruct (worker_step env cfg p w d) as [[p' w'] d']. by apply IH.
Qed.

(** With one worker the outcome lines come in the order of the links:
    the lines printed by a batch name, one by one, the links that passed
    the filter. *)
Theorem one_worker_prints_in_order schedule urls w d r w' d' :
  max_workers cfg = 1%Z ->
  download_queue d = [] ->
  unfinished_tasks d = 0%Z ->
  download_all env cfg schedule urls w d = Some (r, w', d') ->
  exists image_urls lines,
    (collect_image_urls env cfg urls [] w (reset_stats d)).1.1 = Ok image_urls /\
    printed d' = printed d ++ lines /\
    map line_url lines = image_urls.
Proof.
  intros Hone Hq Hu Hall.
  destruct (download_all_cases env cfg _ _ _ _ _ _ _ Hall)
    as (w1 & image_urls & Hcollect & _ & Hcases).
  simpl in Hcollect. rewrite Hcollect. simpl. exists image_urls.
  destruct Hcases as [(-> & _ & _ & ->)|(_ & w3 & tasks & s & Hurls & Hrun & Hjoin & _ & ->)].
  { exists []. by rewrite app_nil_r. }
  subst image_urls. rewrite length_map in Hrun.
  pose proof Hrun as Hpool.
  eapply run_preserves_inv in Hpool; [|by apply initial_pool_inv].
  destruct Hpool as [_ _ Hunf _ _]. rewrite Hjoin in Hunf.
  destruct tasks as [|t tasks].
  { replace (Z.to_nat (Z.min (max_workers cfg) (Z.of_nat (length (@nil Task)))))
      with O in Hrun by (simpl length; lia).
    apply run_no_threads in Hrun; [|done]. subst s.
    exists []. simpl. by rewrite app_nil_r. }
  replace (Z.to_nat (Z.min (max_workers cfg) (Z.of_nat (length (t :: tasks)))))
    with 1%nat in Hrun by (simpl length; lia).
  simpl replicate in Hrun. apply run_single in Hrun as (Hths & _ & Hself).
  match type of Hself with
  | _ = (steps_alone env cfg ?n AtLoop w3 ?d0).2 =>
      pose proof (steps_alone_fifo (map task_url (t :: tasks)) (printed d) n AtLoop w3 d0)
        as Hfifo;
      set (pk := (steps_alone env cfg n AtLoop w3 d0).1.1) in *
  end.
  rewrite <- Hself in Hfifo. clearbody pk. clear Hself.
  destruct Hfifo as (lines & Hpr & Horder).
  { exists []. simpl. rewrite app_nil_r, Hq. done. }
  exists lines. split; [done|].
  rewrite Hths in Hunf. simpl in Hunf.
  assert (in_flight pk = 0%Z /\ download_queue (self s) = []) as [Hidle Hempty].
  { assert (0 <= in_flight pk)%Z by (destruct pk; simpl; lia).
    split; [lia|]. apply length_zero_iff_nil. lia. }
  rewrite Hempty in Horder. simpl in Horder. rewrite app_nil_r in Horder.
  destruct pk; simpl in *; try discriminate Hidle; by rewrite app_nil_r in Horder.
Qed.

End Batches.

(** ** Names without a directory part *)

Section InDirectory.

Variable env : Outside.
Variable cfg : Config.

Lemma contains_slash_cons c s :
  Str.contains "/" (String c s)
  = ((if ascii_dec "/"%char c then true else false) || Str.contains "/" s)%bool.
Proof.
  cbn [Str.contains Str.startswith]. by destruct (ascii_dec "/"%char c).
Qed.

Lemma contains_slash_app s t :
  Str.contains "/" (s +:+ t) = (Str.contains "/" s || Str.contains "/" t)%bool.
Proof.
  induction s as [|c s IH]; [done|].
  rewrite append_cons, !contains_slash_cons, IH. by rewrite orb_assoc.
Qed.

Lemma all_digits_no_slash s : Str.all_digits s = true -> Str.contains "/" s = false.
Proof.
  induction s as [|c s IH]; [done|]. simpl Str.all_digits.
  intros [Hc Hs]%andb_true_iff. rewrite contains_slash_cons, (IH Hs).
  destruct (ascii_dec "/"%char c) as [<-|]; done.
Qed.

Lemma pretty_Z_no_slash (n : Z) : Str.contains "/" (pretty n) = false.
Proof.
  unfold pretty, pretty_Z. destruct n as [|p|p].
  - apply all_digits_no_slash. apply (pretty_N_digits 0%N).
  - apply all_digits_no_slash. apply pretty_N_digits.
  - rewrite contains_slash_app.
    pose proof (all_digits_no_slash _ (pretty_N_digits (N.pos p))) as Hd.
    change (pretty p) with (pretty (N.pos p)). by rewrite Hd.
Qed.

Lemma zeros_no_slash k :
  Str.contains "/" (String.string_of_list_ascii (replicate k "0"%char)) = false.
Proof. induction k as [|k IH]; [done|]. simpl replicate. simpl string_of_list_ascii.
  by rewrite contains_slash_cons, IH. Qed.

Lemma format_d_no_slash width n : Str.contains "/" (Str.format_d width n) = false.
Proof.
  unfold Str.format_d. rewrite !contains_slash_app, zeros_no_slash.
  rewrite (all_digits_no_slash _ (pretty_N_digits _)).
  by destruct (n <? 0)%Z.
Qed.

Lemma after_last_no_slash s : Str.contains "/" (Str.after_last "/" s) = false.
Proof.
  induction s as [|c s IH]; [done|]. simpl Str.after_last.
  destruct (Str.contains "/" s) eqn:Hs; [done|].
  destruct (ascii_dec c "/") as [->|Hc]; [done|].
  rewrite contains_slash_cons, Hs. destruct (ascii_dec "/"%char c) as [<-|]; done.
Qed.

Lemma before_no_slash c s :
  Str.contains "/" s = false -> Str.contains "/" (Str.before c s) = false.
Proof.
  induction s as [|a s IH]; [done|]. rewrite contains_slash_cons.
  intros [Ha Hs]%orb_false_iff. simpl. destruct (ascii_dec a c); [done|].
  rewrite contains_slash_cons, Ha. by apply IH.
Qed.

Lemma splitext_no_slash s stem ext :
  Str.splitext s = (stem, ext) -> Str.contains "/" s = false ->
  Str.contains "/" stem = false /\ Str.contains "/" ext = false.
Proof.
  intros Hsplit. apply splitext_go_app in Hsplit as ->.
  rewrite contains_slash_app. by intros [? ?]%orb_false_iff.
Qed.

Section Plain.

Hypothesis Hpattern : plain_pattern (rename_pattern cfg).
Hypothesis Hguess :
  forall path ext, guess_extension env path = Some ext -> Str.contains "/" ext = false.
Hypothesis Hdate : forall t, Str.contains "/" (strftime env "%Y%m%d" t) = false.
Hypothesis Htime : forall t, Str.contains "/" (strftime env "%H%M%S" t) = false.

Lemma format_pattern_no_slash pattern index filename (timestamp : Z) date time name :
  plain_pattern pattern ->
  Str.contains "/" filename = false ->
  Str.contains "/" date = false ->
  Str.contains "/" time = false ->
  format_pattern pattern index filename timestamp date time = Ok name ->
  Str.contains "/" name = false.
Proof.
  intros Hplain Hf Hd Ht. revert name.
  induction Hplain as [|seg rest Hseg Hrest IH]; intros name; simpl.
  - by intros [= <-].
  - destruct (format_pattern rest index filename timestamp date time) as [tail|e].
    + specialize (IH tail eq_refl).
      destruct seg as [text|[width| | | | |field]]; intros [= <-];
        rewrite contains_slash_app, IH, ?format_d_no_slash, ?pretty_Z_no_slash; 
        try rewrite Hseg; try rewrite Hf; try rewrite Hd; try rewrite Ht; done.
    + destruct seg as [text|[width| | | | |field]]; done.
Qed.

Lemma get_filename_no_slash url index w name w' :
  get_filename_from_url env cfg url index w = (Ok name, w') ->
  Str.contains "/" name = false.
Proof.
  unfold get_filename_from_url, apply_pattern, time_time, now_strftime, Str.basename.
  unfold_monad. intros H.
  repeat case_match; simplify_eq;
    try (eapply format_pattern_no_slash; [exact Hpattern| |apply Hdate|apply Htime|eassumption]).
  all: rewrite ?contains_slash_app, ?format_d_no_slash, ?pretty_Z_no_slash; try done.
  all: match goal with
       | Hs : Str.splitext _ = (?stem, _) |- _ =>
           apply splitext_no_slash in Hs as [Hstem Hext];
           [|by do 2 apply before_no_slash; apply after_last_no_slash]
       end.
  all: rewrite ?Hstem; simpl; eauto.
  all: try (by do 2 apply before_no_slash; apply after_last_no_slash).
Qed.

Lemma join_no_slash dir name :
  Str.contains "/" name = false ->
  Str.join dir name = dir +:+ name \/ Str.join dir name = dir +:+ "/" +:+ name.
Proof.
  intros Hname. unfold Str.join.
  assert (Str.startswith "/" name = false) as ->.
  { destruct name as [|c name]; [done|]. rewrite contains_slash_cons in Hname.
    apply orb_false_iff in Hname as [Hc _]. cbn [Str.startswith].
    by destruct (ascii_dec "/"%char c). }
  destruct (String.eqb dir "" || Str.endswith dir "/")%bool; eauto.
Qed.

(** No URL takes a download out of the save directory: when neither the
    literal text of the naming pattern nor what [guess_extension] and
    [strftime] return has a [/] in it, the path of a task is the
    directory, a [/] where the directory does not end with one, and a
    name without [/]. *)
Theorem saved_path_stays_in_directory (dir url : string) (index : Z) (w w' : World)
        (path : string) :
  resolve_path env cfg dir url index w = (Ok path, w') ->
  exists name,
    Str.contains "/" name = false /\
    (path = dir +:+ name \/ path = dir +:+ "/" +:+ name).
Proof.
  unfold resolve_path, bind at 1.
  destruct (get_filename_from_url env cfg url index w) as [[name|e] w1] eqn:Hname;
    [|done].
  apply get_filename_no_slash in Hname.
  unfold path_exists, time_time. unfold_monad.
  destruct (fs w1 !! Str.join dir name).
  - destruct (Str.splitext name) as [stem ext] eqn:Hsplit. intros [= <- <-].
    destruct (splitext_no_slash _ _ _ Hsplit Hname) as [Hstem Hext].
    eexists. split; [|apply join_no_slash].
    all: by rewrite !contains_slash_app, Hstem, Hext, pretty_Z_no_slash.
  - intros [= <- <-]. exists name. split; [done|]. by apply join_no_slash.
Qed.

End Plain.

End InDirectory.

(** ** Patterns, delays and streams out of the ordinary *)

Section Edges.

Variable env : Outside.
Variable cfg : Config.

(** A field that [format] is given no value for raises [KeyError]. *)
Lemma format_pattern_unknown pattern name index filename timestamp date time :
  Field (Unknown name) ∈ pattern ->
  exists missing, format_pattern pattern index filename timestamp date time
                  = Raise (KeyError missing).
Proof.
  induction pattern as [|seg rest IH]; intros Hin; [by apply elem_of_nil in Hin|].
  apply elem_of_cons in Hin as [<-|Hin]; simpl; [by eexists|].
  destruct (IH Hin) as (missing & ->).
  destruct seg as [text|[width| | | | |other]]; by eexists.
Qed.

(** A naming pattern with a field other than [index], [filename],
    [timestamp], [date] and [time] names every file
    [image_<index>_<unix time>.jpg], whatever the URL. *)
Theorem unknown_field_falls_back (name url : string) (index : Z) (w : World) :
  Field (Unknown name) ∈ rename_pattern cfg ->
  exists (t : Z) (w' : World),
    get_filename_from_url env cfg url index w
    = (Ok ("image_" +:+ Str.format_d 3 index +:+ "_" +:+ pretty t +:+ ".jpg"), w') /\
    fs w' = fs w.
Proof.
  intros Hfield.
  unfold get_filename_from_url, apply_pattern, time_time, now_strftime.
  unfold_monad.
  destruct (urlparse_path env url) as [parsed|e]; [|by eexists _, _].
  repeat case_match; simplify_eq; try (by eexists _, _);
    match goal with
    | H : format_pattern _ ?i ?f ?t ?d ?tm = Ok _ |- _ =>
        destruct (format_pattern_unknown _ _ i f t d tm Hfield) as (missing & Hraise);
        by rewrite Hraise in H
    end.
Qed.

(** With a negative [retry_delay], [time.sleep] raises in the handler of
    the first failed try: [download_image] makes that one try and raises
    the [ValueError] of [sleep], not the failure of the try. *)
Theorem negative_delay_stops_retries (url path : string) (w w1 : World) (e : exn) :
  (retry_delay cfg < 0)%Z ->
  (0 < retry_attempts cfg)%Z ->
  download_try env cfg url path w = (Raise e, w1) ->
  download_image env cfg url path 0 w
  = (Raise (ValueError "sleep length must be non-negative"), w1) /\
  get_log w1 = get_log w ++ [url].
Proof.
  intros Hdelay Hattempts Htry. split; [|by eapply download_try_get_log].
  rewrite download_image_unfold. unfold try_except. rewrite Htry.
  destruct (0 <? retry_attempts cfg)%Z eqn:Hlt; [|apply Z.ltb_ge in Hlt; lia].
  unfold bind, sleep. destruct (retry_delay cfg <? 0)%Z eqn:Hneg; [done|].
  apply Z.ltb_ge in Hneg. lia.
Qed.

Lemma download_try_breaks_off url path w :
  breaks_off cfg (requests_get env (length (get_log w)) url) ->
  may_write env path = true ->
  exists r e,
    requests_get env (length (get_log w)) url = Ok r /\
    stream_error r = Some e /\
    download_try env cfg url path w
    = (Raise e, set_fs (insert path (body r)) (log_get url w)).
Proof.
  intros (r & e & Hget & Hstatus & Hmax & Hmin & Htype & Hbreak) Hwrite.
  exists r, e. split; [done|]. split; [done|].
  unfold download_try, fetch_and_save, http_get, raise_for_status, save_stream.
  unfold_monad. rewrite Hget. simpl.
  destruct ((400 <=? status_code r) && (status_code r <? 600))%Z%bool eqn:Hst.
  { apply andb_true_iff in Hst. lia. }
  destruct (default 0 (header_content_length r) >? max_file_size cfg)%Z eqn:Hbig; [lia|].
  destruct ((default 0 (header_content_length r) >? 0)
            && (default 0 (header_content_length r) <? min_file_size cfg))%Z%bool
    eqn:Hsmall; [apply andb_true_iff in Hsmall; lia|].
  rewrite Htype, Hwrite, Hbreak. reflexivity.
Qed.

(** A download that breaks off leaves its piece behind: when the body
    of every reply stops short with an exception, [download_image]
    raises the exception of the last try, and the bytes that had come
    are in the file at [save_path], which nothing removes. *)
Theorem broken_stream_leaves_a_file (url path : string) (retry_count : Z) (w : World) :
  (forall n, breaks_off cfg (requests_get env n url)) ->
  may_write env path = true ->
  (0 <= retry_delay cfg)%Z ->
  exists r e k w',
    download_image env cfg url path retry_count w = (Raise e, w') /\
    requests_get env k url = Ok r /\
    stream_error r = Some e /\
    S k = length (get_log w') /\
    fs w' !! path = Some (body r).
Proof.
  intros Hserver Hwrite Hdelay. unfold download_image.
  generalize (Z.to_nat (retry_attempts cfg - retry_count)). intros n.
  revert w. induction n as [|n IH]; intros w; simpl; unfold try_except;
    destruct (download_try_breaks_off url path w (Hserver _) Hwrite)
      as (r & e & Hget & Hbreak & ->).
  - exists r, e, (length (get_log w)). eexists. split; [done|].
    split; [done|]. split; [done|]. simpl. rewrite length_app, lookup_insert_eq.
    split; [simpl; lia|done].
  - unfold bind, sleep. destruct (retry_delay cfg <? 0)%Z eqn:Hneg;
      [apply Z.ltb_lt in Hneg; lia|].
    simpl. apply IH.
Qed.

End Edges.

(** ** The links of the clipboard *)

Section ClipboardLinks.

Lemma startswith_app p s t :
  Str.startswith p s = true -> Str.startswith p (s +:+ t) = true.
Proof.
  revert s. induction p as [|a p IH]; intros [|b s]; simpl; try done.
  destruct (ascii_dec a b); [apply IH|done].
Qed.

Lemma startswith_prefix p s :
  Str.startswith p s = true -> s = p +:+ Text.drop (String.length p) s.
Proof.
  revert s. induction p as [|a p IH]; intros [|b s]; simpl; try done.
  destruct (ascii_dec a b) as [->|]; [|done]. intros H. rewrite append_cons. f_equal. by apply IH.
Qed.

Lemma find_ext {A} (f g : A -> bool) l :
  Forall (fun x => f x = g x) l -> find f l = find g l.
Proof. induction 1 as [|x l Hx _ IH]; simpl; [done|]. by rewrite Hx, IH. Qed.

(** A text that starts with no white-space character starts with none
    when cut short. *)
Lemma space_width_cut s t :
  Text.space_width (s +:+ t) = O -> Text.space_width s = O.
Proof.
  unfold Text.space_width.
  destruct (find (fun space => Str.startswith space s) Text.white_space) as [e|] eqn:Hs;
    [|done].
  apply find_some in Hs as [Hin He].
  destruct (find (fun space => Str.startswith space (s +:+ t)) Text.white_space)
    as [e'|] eqn:Hst.
  - apply find_some in Hst as [Hin' _]. intros Hlen. exfalso.
    assert (Forall (fun e => String.length e <> O) Text.white_space) as Hall
      by (vm_compute; repeat constructor; discriminate).
    rewrite Forall_forall in Hall. by apply (Hall e'); [apply list_elem_of_In|].
  - intros _. exfalso.
    eapply find_none in Hst; [|exact Hin]. simpl in Hst.
    by rewrite startswith_app in Hst.
Qed.

Lemma url_char_cut c s t :
  Clipboard.url_char (String c s +:+ t) = true -> Clipboard.url_char (String c s) = true.
Proof.
  change (String c s +:+ t) with (String c (s +:+ t)).
  unfold Clipboard.url_char.
  intros [Hw Hc]%andb_true_iff. apply andb_true_iff. split; [|exact Hc].
  apply Nat.eqb_eq in Hw. apply Nat.eqb_eq.
  exact (space_width_cut (String c s) t Hw).
Qed.

Lemma all_url_chars_cut s t :
  all_url_chars (s +:+ t) = true -> all_url_chars s = true.
Proof.
  induction s as [|c s IH]; [done|].
  change (String c s +:+ t) with (String c (s +:+ t)).
  cbn [all_url_chars].
  intros [Hc Hs]%andb_true_iff. apply andb_true_iff. split; [|exact (IH Hs)].
  exact (url_char_cut c s t Hc).
Qed.

(** The run is in front of the text it was taken from, and all of the class. *)
Lemma url_run_prefix s :
  exists rest, s = Clipboard.url_run s +:+ rest /\
               all_url_chars (Clipboard.url_run s) = true.
Proof.
  induction s as [|c s (rest & Hs & Hall)]; [by exists ""|].
  cbn [Clipboard.url_run]. destruct (Clipboard.url_char (String c s)) eqn:Hc.
  - exists rest. change (String c (Clipboard.url_run s) +:+ rest)
      with (String c (Clipboard.url_run s +:+ rest)).
    rewrite <- Hs. split; [reflexivity|].
    cbn [all_url_chars]. apply andb_true_iff. split; [|exact Hall].
    rewrite Hs in Hc. exact (url_char_cut c _ rest Hc).
  - exists (String c s). split; reflexivity.
Qed.

Lemma scheme_chars scheme run :
  scheme = "http://" \/ scheme = "https://" ->
  all_url_chars run = true -> all_url_chars (scheme +:+ run) = true.
Proof.
  intros [->| ->] Hrun; rewrite !append_cons, append_nil;
    cbn [all_url_chars]; rewrite Hrun; vm_compute; reflexivity.
Qed.

Lemma match_scheme_spec scheme s found :
  scheme = "http://" \/ scheme = "https://" ->
  Clipboard.match_scheme scheme s = Some found ->
  exists run rest,
    found = scheme +:+ run /\ run <> "" /\ all_url_chars found = true /\
    s = found +:+ rest.
Proof.
  intros Hscheme. unfold Clipboard.match_scheme.
  destruct (Str.startswith scheme s) eqn:Hstart; [|done].
  apply startswith_prefix in Hstart.
  destruct (url_run_prefix (Text.drop (String.length scheme) s)) as (rest & Hs & Hall).
  destruct (Clipboard.url_run (Text.drop (String.length scheme) s)) as [|c run] eqn:Hrun;
    [done|].
  intros [= <-]. exists (String c run), rest.
  split; [done|]. split; [done|]. split; [by apply scheme_chars|].
  rewrite Hstart at 1. rewrite Hs.
  generalize (String c run). intros x. clear.
  induction scheme as [|a p IH]; [done|]. rewrite !append_cons. by rewrite IH.
Qed.

Lemma match_url_spec s found :
  Clipboard.match_url s = Some found ->
  exists scheme run rest,
    (scheme = "http://" \/ scheme = "https://") /\
    found = scheme +:+ run /\ run <> "" /\ all_url_chars found = true /\
    s = found +:+ rest.
Proof.
  unfold Clipboard.match_url.
  destruct (Clipboard.match_scheme "https://" s) as [m|] eqn:Hs.
  - intros [= <-].
    destruct (match_scheme_spec _ _ _ (or_intror eq_refl) Hs) as (run & rest & H).
    exists "https://", run, rest. split; [by right|done].
  - intros Hp.
    destruct (match_scheme_spec _ _ _ (or_introl eq_refl) Hp) as (run & rest & H).
    exists "http://", run, rest. split; [by left|done].
Qed.

Lemma findall_go_matches skip s url :
  url ∈ Clipboard.findall_go skip s ->
  exists before after, s = before +:+ after /\ Clipboard.match_url after = Some url.
Proof.
  revert skip. induction s as [|c s IH]; intros skip; simpl.
  { intros H. by apply elem_of_nil in H. }
  assert (forall k, url ∈ Clipboard.findall_go k s ->
            exists before after,
              String c s = before +:+ after /\ Clipboard.match_url after = Some url)
    as Hlater.
  { intros k Hin. destruct (IH k Hin) as (before & after & -> & Hm).
    by exists (String c before), after. }
  destruct skip as [|k]; [|apply Hlater].
  destruct (Clipboard.match_url (String c s)) as [found|] eqn:Hm; [|apply Hlater].
  intros [->|Hin]%elem_of_cons; [|by eapply Hlater].
  by exists "", (String c s).
Qed.

(** *** Cutting the punctuation *)

Lemma rstrip_chars_prefix chars s :
  exists rest, s = Text.rstrip_chars chars s +:+ rest.
Proof.
  induction s as [|c s (rest & Hs)]; [by exists ""|]. cbn [Text.rstrip_chars].
  destruct (Text.rstrip_chars chars s) as [|a kept] eqn:Hkept.
  - destruct (existsb (Ascii.eqb c) chars).
    + exists (String c s). reflexivity.
    + exists rest. rewrite append_cons. by rewrite <- Hs.
  - exists rest. rewrite append_cons. by rewrite <- Hs.
Qed.

Lemma rstrip_chars_last chars s c :
  last_char (Text.rstrip_chars chars s) = Some c ->
  existsb (Ascii.eqb c) chars = false.
Proof.
  induction s as [|a s IH]; [done|]. cbn [Text.rstrip_chars].
  destruct (Text.rstrip_chars chars s) as [|b kept] eqn:Hkept.
  - destruct (existsb (Ascii.eqb a) chars) eqn:Ha; [done|].
    cbn [last_char]. by intros [= <-].
  - intros Hlast. apply IH. exact Hlast.
Qed.

Lemma rstrip_chars_keep chars c s :
  existsb (Ascii.eqb c) chars = false ->
  Text.rstrip_chars chars (String c s) = String c (Text.rstrip_chars chars s).
Proof.
  intros Hc. cbn [Text.rstrip_chars].
  destruct (Text.rstrip_chars chars s); by rewrite ?Hc.
Qed.

Lemma rstrip_chars_before c b chars s :
  existsb (Ascii.eqb b) chars = false ->
  Text.rstrip_chars chars (String c (String b s))
  = String c (Text.rstrip_chars chars (String b s)).
Proof.
  intros Hb. cbn [Text.rstrip_chars].
  destruct (Text.rstrip_chars chars s); rewrite ?Hb; reflexivity.
Qed.

Lemma rstrip_chars_scheme scheme run :
  scheme = "http://" \/ scheme = "https://" ->
  Text.rstrip_chars Clipboard.trailing_punctuation (scheme +:+ run)
  = scheme +:+ Text.rstrip_chars Clipboard.trailing_punctuation run.
Proof.
  intros [->| ->]; rewrite !append_cons, !append_nil;
    repeat first [ rewrite rstrip_chars_keep by reflexivity
                 | rewrite rstrip_chars_before by reflexivity ];
    reflexivity.
Qed.

Lemma rstrip_chars_id chars s :
  (forall c, last_char s = Some c -> existsb (Ascii.eqb c) chars = false) ->
  Text.rstrip_chars chars s = s.
Proof.
  induction s as [|a s IH]; [done|]. intros Hlast. cbn [Text.rstrip_chars].
  destruct s as [|b s].
  - cbn. by rewrite (Hlast a eq_refl).
  - rewrite IH; [done|]. intros c Hc. apply Hlast. exact Hc.
Qed.

Lemma extracted_link_shape (paste : res string) (url : string) :
  url ∈ (Clipboard.extract_urls_from_clipboard paste).1 ->
  (Str.startswith "http://" url || Str.startswith "https://" url)%bool = true /\
  all_url_chars url = true /\
  (forall c, last_char url = Some c ->
             existsb (Ascii.eqb c) Clipboard.trailing_punctuation = false) /\
  exists content before after,
    paste = Ok content /\ content = before +:+ url +:+ after.
Proof.
  unfold Clipboard.extract_urls_from_clipboard.
  destruct paste as [content|e]; [|intros H; by apply elem_of_nil in H].
  destruct (String.eqb content ""); [intros H; by apply elem_of_nil in H|].
  cbn [fst]. intros (found & -> & Hfound)%list_elem_of_fmap.
  apply findall_go_matches in Hfound as (before & after & -> & Hmatch).
  apply match_url_spec in Hmatch as (scheme & run & rest & Hscheme & -> & _ & Hall & ->).
  destruct (rstrip_chars_prefix Clipboard.trailing_punctuation (scheme +:+ run))
    as (cut & Hcut).
  split; [|split; [|split]].
  - rewrite rstrip_chars_scheme by done.
    destruct Hscheme as [->| ->]; reflexivity.
  - rewrite Hcut in Hall. by apply all_url_chars_cut in Hall.
  - intros c. apply rstrip_chars_last.
  - exists (before +:+ (scheme +:+ run) +:+ rest), before, (cut +:+ rest).
    split; [done|]. rewrite Hcut at 1.
    generalize (Text.rstrip_chars Clipboard.trailing_punctuation (scheme +:+ run)).
    intros x. f_equal. clear. induction x as [|a x IH]; [done|].
    rewrite !append_cons. by rewrite IH.
Qed.

(** What [extract_urls_from_clipboard] returns are links cut out of the
    clipboard text: each starts with [http://] or [https://], holds no
    white space, angle bracket or quote, does not end with one of the
    characters [.,;:!?)}] or a quote, and stands in the text. *)
Theorem extracted_links_are_trimmed (paste : res string) (url : string) :
  url ∈ (Clipboard.extract_urls_from_clipboard paste).1 ->
  (Str.startswith "http://" url || Str.startswith "https://" url)%bool = true /\
  all_url_chars url = true /\
  (forall c, last_char url = Some c ->
             existsb (Ascii.eqb c) Clipboard.trailing_punctuation = false) /\
  exists content before after,
    paste = Ok content /\ content = before +:+ url +:+ after.
Proof. apply extracted_link_shape. Qed.

End ClipboardLinks.


Section OnePerLine.

Lemma append_empty s : s +:+ "" = s.
Proof. induction s as [|c s IH]; [done|]. rewrite append_cons. by rewrite IH. Qed.

Lemma append_assoc s t u : (s +:+ t) +:+ u = s +:+ (t +:+ u).
Proof. induction s as [|c s IH]; [done|]. rewrite !append_cons. by rewrite IH. Qed.

(** An ASCII character completes no white-space character. *)
Lemma startswith_before_ascii e s c t :
  no_ascii e = true -> (nat_of_ascii c < 128)%nat ->
  Str.startswith e (s +:+ String c t) = Str.startswith e s.
Proof.
  intros He Hc. revert s. induction e as [|b e IH]; intros s.
  - by destruct s.
  - cbn [no_ascii] in He. apply andb_true_iff in He as [Hb He].
    apply Nat.leb_le in Hb. destruct s as [|a s].
    + rewrite append_nil. cbn [Str.startswith].
      destruct (ascii_dec b c) as [->|]; [lia|done].
    + rewrite append_cons. cbn [Str.startswith].
      destruct (ascii_dec b a); [by apply IH|done].
Qed.

Lemma space_width_before_ascii a s c t :
  (nat_of_ascii c < 128)%nat ->
  Text.space_width (String a s +:+ String c t) = Text.space_width (String a s).
Proof.
  intros Hc. unfold Text.space_width.
  erewrite find_ext; [reflexivity|].
  assert (Forall (fun e => match e with
                           | EmptyString => False
                           | String _ r => no_ascii r = true
                           end) Text.white_space) as Hall
    by (vm_compute; repeat constructor).
  eapply Forall_impl; [exact Hall|]. intros [|b e] He; [done|].
  rewrite append_cons. cbn [Str.startswith].
  destruct (ascii_dec b a); [|done]. by apply startswith_before_ascii.
Qed.

Lemma url_char_before_ascii a s c t :
  (nat_of_ascii c < 128)%nat ->
  Clipboard.url_char (String a s +:+ String c t) = Clipboard.url_char (String a s).
Proof.
  intros Hc. change (String a s +:+ String c t) with (String a (s +:+ String c t)).
  unfold Clipboard.url_char.
  change (String a (s +:+ String c t)) with (String a s +:+ String c t).
  by rewrite space_width_before_ascii.
Qed.

(** A run of the class ends where the text ends or an ASCII character
    outside the class stands. *)
Lemma url_run_whole run after :
  all_url_chars run = true ->
  (after = "" \/ exists c t, after = String c t /\ (nat_of_ascii c < 128)%nat /\
                             Clipboard.url_char after = false) ->
  Clipboard.url_run (run +:+ after) = run.
Proof.
  intros Hrun Hafter. induction run as [|a run IH].
  - rewrite append_nil. destruct Hafter as [->|(c & t & -> & _ & Hc)]; [done|].
    cbn [Clipboard.url_run]. by rewrite Hc.
  - cbn [all_url_chars] in Hrun. apply andb_true_iff in Hrun as [Ha Hrun].
    assert (Clipboard.url_char (String a run +:+ after) = true) as Hhere.
    { destruct Hafter as [->|(c & t & -> & Hc & _)].
      - by rewrite append_empty.
      - by rewrite url_char_before_ascii. }
    change (String a run +:+ after) with (String a (run +:+ after)) in *.
    cbn [Clipboard.url_run]. rewrite Hhere. by rewrite IH.
Qed.

Lemma findall_go_skip passed s :
  Clipboard.findall_go (String.length passed) (passed +:+ s) = Clipboard.findall_go 0 s.
Proof.
  induction passed as [|c passed IH]; [done|].
  rewrite append_cons. cbn [Clipboard.findall_go String.length]. exact IH.
Qed.

Lemma match_url_link url after :
  link url ->
  (after = "" \/ exists c t, after = String c t /\ (nat_of_ascii c < 128)%nat /\
                             Clipboard.url_char after = false) ->
  Clipboard.match_url (url +:+ after) = Some url.
Proof.
  intros (scheme & rest & Hscheme & -> & Hrest & Hall & _) Hafter.
  assert (all_url_chars rest = true) as Hrestall.
  { destruct Hscheme as [->| ->]; rewrite !append_cons, append_nil in Hall;
      cbn [all_url_chars] in Hall;
      repeat (apply andb_true_iff in Hall as [_ Hall]); exact Hall. }
  assert (Clipboard.match_scheme scheme ((scheme +:+ rest) +:+ after)
          = Some (scheme +:+ rest)) as Hm.
  { unfold Clipboard.match_scheme.
    assert (Str.startswith scheme ((scheme +:+ rest) +:+ after) = true) as ->
      by (destruct Hscheme as [->| ->]; reflexivity).
    assert (Text.drop (String.length scheme) ((scheme +:+ rest) +:+ after)
            = rest +:+ after) as ->
      by (destruct Hscheme as [->| ->]; reflexivity).
    rewrite url_run_whole by done. by destruct rest. }
  unfold Clipboard.match_url. destruct Hscheme as [->| ->].
  - assert (Clipboard.match_scheme "https://" (("http://" +:+ rest) +:+ after) = None)
      as -> by reflexivity.
    exact Hm.
  - by rewrite Hm.
Qed.

Lemma findall_go_link url after :
  link url ->
  (after = "" \/ exists c t, after = String c t /\ (nat_of_ascii c < 128)%nat /\
                             Clipboard.url_char after = false) ->
  Clipboard.findall_go 0 (url +:+ after) = url :: Clipboard.findall_go 0 after.
Proof.
  intros Hlink Hafter. pose proof (match_url_link url after Hlink Hafter) as Hm.
  destruct url as [|c url].
  { destruct Hlink as (scheme & rest & [->| ->] & Hu & _); discriminate Hu. }
  rewrite append_cons in *. cbn [Clipboard.findall_go]. rewrite Hm.
  cbn [String.length Nat.sub]. rewrite ?Nat.sub_0_r. by rewrite findall_go_skip.
Qed.

Lemma rstrip_links urls :
  Forall link urls -> map (Text.rstrip_chars Clipboard.trailing_punctuation) urls = urls.
Proof.
  induction 1 as [|url rest Hurl Hrest IH]; [done|]. cbn [map]. f_equal; [|exact IH].
  destruct Hurl as (_ & _ & _ & _ & _ & _ & Hlast). by apply rstrip_chars_id.
Qed.

(** A clipboard that holds links, one per line, gives back those links,
    in their order. *)
Theorem links_one_per_line (urls : list string) :
  Forall link urls ->
  Clipboard.extract_urls_from_clipboard (Ok (String.concat (String "010" "") urls))
  = (urls, None).
Proof.
  intros Hlinks.
  assert (Clipboard.findall (String.concat (String "010" "") urls) = urls) as Hfind.
  { unfold Clipboard.findall. induction Hlinks as [|url rest Hurl Hrest IH]; [done|].
    cbn [String.concat]. destruct rest as [|next rest].
    - rewrite <- (append_empty url) at 1. rewrite findall_go_link; [done..|by left].
    - rewrite findall_go_link; [|done|].
      + f_equal. rewrite append_cons, append_nil. exact IH.
      + right. eexists _, _. split; [by rewrite append_cons, append_nil|].
        split; [vm_compute; lia|reflexivity]. }
  unfold Clipboard.extract_urls_from_clipboard.
  destruct (String.eqb (String.concat (String "010" "") urls) "") eqn:Hempty.
  - apply String.eqb_eq in Hempty. rewrite Hempty in Hfind.
    by rewrite <- Hfind.
  - rewrite Hfind. f_equal. by apply rstrip_links.
Qed.

(** *** Links with punctuation between them *)

Lemma space_width_ascii c t :
  (nat_of_ascii c < 128)%nat ->
  Text.space_width (String c t) = Text.space_width (String c "").
Proof.
  intros Hc. unfold Text.space_width.
  erewrite find_ext; [reflexivity|].
  assert (Forall (fun e => match e with
                           | EmptyString => False
                           | String b r => (nat_of_ascii b < 128)%nat -> r = ""
                           end) Text.white_space) as Hall.
  { vm_compute. repeat constructor; intros H; by vm_compute in H; lia. }
  eapply Forall_impl; [exact Hall|]. intros [|b e] He; [done|].
  cbn [Str.startswith]. destruct (ascii_dec b c) as [->|]; [|done].
  by rewrite (He Hc).
Qed.

Lemma url_char_ascii c t :
  (nat_of_ascii c < 128)%nat ->
  Clipboard.url_char (String c t) = Clipboard.url_char (String c "").
Proof. intros Hc. unfold Clipboard.url_char. by rewrite space_width_ascii. Qed.

Lemma all_url_chars_app s c t :
  all_url_chars s = true -> (nat_of_ascii c < 128)%nat ->
  all_url_chars (String c t) = true ->
  all_url_chars (s +:+ String c t) = true.
Proof.
  intros Hs Hc Ht. induction s as [|a s IH]; [done|].
  cbn [all_url_chars] in Hs. apply andb_true_iff in Hs as [Ha Hs].
  pose proof (url_char_before_ascii a s c t Hc) as Hhere.
  change (String a s +:+ String c t) with (String a (s +:+ String c t)) in *.
  cbn [all_url_chars]. by rewrite Hhere, Ha, (IH Hs).
Qed.

Lemma last_char_app s c t : last_char (s +:+ String c t) = last_char (String c t).
Proof.
  induction s as [|a s IH]; [done|]. rewrite append_cons.
  change (last_char (String a (s +:+ String c t)))
    with (match s +:+ String c t with
          | EmptyString => Some a
          | String _ _ => last_char (s +:+ String c t)
          end).
  rewrite IH. by destruct s.
Qed.

(** Punctuation does not part two links: with a comma, a semicolon or
    another ASCII character of the class between them and no white
    space, the two come out as one link. *)
Theorem punctuation_does_not_part_links (first second : string) (c : ascii) :
  link first -> link second ->
  (nat_of_ascii c < 128)%nat ->
  Clipboard.url_char (String c "") = true ->
  Clipboard.extract_urls_from_clipboard (Ok (first +:+ String c second))
  = ([first +:+ String c second], None).
Proof.
  intros (scheme & rest & Hscheme & -> & Hrest & Hall & _) Hsecond Hc Hclass.
  assert (link ((scheme +:+ rest) +:+ String c second)) as Hlink.
  { destruct Hsecond as (scheme2 & rest2 & Hscheme2 & -> & Hrest2 & Hall2 & Hlast2).
    exists scheme, (rest +:+ String c (scheme2 +:+ rest2)).
    split; [done|]. split; [by rewrite append_assoc|]. split; [by destruct rest|].
    split.
    - apply all_url_chars_app; [done..|]. cbn [all_url_chars].
      by rewrite url_char_ascii, Hclass, Hall2.
    - intros x. rewrite last_char_app.
      destruct Hscheme2 as [->| ->]; apply Hlast2. }
  unfold Clipboard.extract_urls_from_clipboard.
  assert (String.eqb ((scheme +:+ rest) +:+ String c second) "" = false) as ->
    by (destruct Hscheme as [->| ->]; reflexivity).
  unfold Clipboard.findall.
  rewrite <- (append_empty ((scheme +:+ rest) +:+ String c second)) at 1.
  rewrite findall_go_link; [|done|by left].
  cbn [Clipboard.findall_go map]. f_equal. f_equal.
  destruct Hlink as (_ & _ & _ & _ & _ & _ & Hlast). by apply rstrip_chars_id.
Qed.

End OnePerLine.

(** ** The box of links *)

Section TextBox.

Lemma all_url_chars_no_space s : all_url_chars s = true -> no_space s = true.
Proof.
  induction s as [|c s IH]; [done|]. cbn [all_url_chars no_space].
  intros [Hc Hs]%andb_true_iff. rewrite (IH Hs), andb_true_r.
  unfold Clipboard.url_char in Hc. by apply andb_true_iff in Hc as [Hc _].
Qed.

Lemma lstrip_no_space c s : Text.space_width (String c s) = O -> Text.lstrip (String c s) = String c s.
Proof. intros H. unfold Text.lstrip. cbn [Text.lstrip_go]. by rewrite H. Qed.

Lemma lstrip_newline s : Text.lstrip (Gui.newline +:+ s) = Text.lstrip s.
Proof. reflexivity. Qed.

Lemma space_width_newline a s t :
  Text.space_width (String a s +:+ Gui.newline +:+ t) = Text.space_width (String a s).
Proof. apply space_width_before_ascii. vm_compute. lia. Qed.

(** [rstrip] passes a text without white space that a newline follows. *)
Lemma rstrip_no_space s t :
  no_space s = true ->
  Text.rstrip (s +:+ Gui.newline +:+ t) = s +:+ Text.rstrip (Gui.newline +:+ t).
Proof.
  induction s as [|c s IH]; [done|]. cbn [no_space].
  intros [Hc Hs]%andb_true_iff. apply Nat.eqb_eq in Hc.
  change (String c s +:+ Gui.newline +:+ t) with (String c (s +:+ Gui.newline +:+ t)).
  cbn [Text.rstrip].
  change (String c (s +:+ Gui.newline +:+ t)) with (String c s +:+ Gui.newline +:+ t).
  assert (Text.lstrip (String c s +:+ Gui.newline +:+ t)
          = String c s +:+ Gui.newline +:+ t) as ->.
  { change (String c s +:+ Gui.newline +:+ t) with (String c (s +:+ Gui.newline +:+ t)).
    apply lstrip_no_space.
    change (String c (s +:+ Gui.newline +:+ t)) with (String c s +:+ Gui.newline +:+ t).
    by rewrite space_width_newline. }
  change (String c s +:+ Gui.newline +:+ t) with (String c (s +:+ Gui.newline +:+ t)).
  cbn [String.eqb]. by rewrite (IH Hs).
Qed.

Lemma rstrip_id s : no_space s = true -> Text.rstrip s = s.
Proof.
  induction s as [|c s IH]; [done|]. cbn [no_space].
  intros [Hc Hs]%andb_true_iff. apply Nat.eqb_eq in Hc.
  cbn [Text.rstrip]. rewrite (lstrip_no_space c s Hc). cbn [String.eqb]. by rewrite (IH Hs).
Qed.

Lemma strip_id s : no_space s = true -> Text.strip s = s.
Proof.
  intros Hs. unfold Text.strip. destruct s as [|c s]; [done|].
  rewrite lstrip_no_space; [by apply rstrip_id|].
  cbn [no_space] in Hs. apply andb_true_iff in Hs as [Hc _]. by apply Nat.eqb_eq.
Qed.

Lemma lstrip_urls_text url rest :
  listed url ->
  Text.lstrip (Gui.urls_text (url :: rest)) = Gui.urls_text (url :: rest).
Proof.
  intros [Hne Hs]. cbn [Gui.urls_text foldr]. destruct url as [|c url]; [done|].
  change (String c url +:+ Gui.newline +:+ ?t) with (String c (url +:+ Gui.newline +:+ t)).
  apply lstrip_no_space.
  change (String c (url +:+ Gui.newline +:+ ?t)) with (String c url +:+ Gui.newline +:+ t).
  rewrite space_width_newline.
  cbn [no_space] in Hs. apply andb_true_iff in Hs as [Hc _]. by apply Nat.eqb_eq.
Qed.

Lemma rstrip_urls_text urls :
  Forall listed urls ->
  Text.rstrip (Gui.urls_text urls) = String.concat Gui.newline urls.
Proof.
  induction 1 as [|url rest Hurl Hrest IH]; [reflexivity|].
  change (Gui.urls_text (url :: rest))
    with (url +:+ Gui.newline +:+ Gui.urls_text rest).
  rewrite rstrip_no_space by apply Hurl.
  destruct Hrest as [|next rest Hnext Hrest].
  - cbn [String.concat]. change (Text.rstrip (Gui.newline +:+ Gui.urls_text [])) with "".
    by rewrite append_empty.
  - change (Gui.newline +:+ Gui.urls_text (next :: rest))
      with (String "010" (Gui.urls_text (next :: rest))).
    cbn [Text.rstrip].
    change (String "010" (Gui.urls_text (next :: rest)))
      with (Gui.newline +:+ Gui.urls_text (next :: rest)).
    rewrite lstrip_newline, lstrip_urls_text by done.
    assert (String.eqb (Gui.urls_text (next :: rest)) "" = false) as ->.
    { destruct Hnext as [Hne _]. destruct next; [done|reflexivity]. }
    rewrite IH. reflexivity.
Qed.

Lemma no_space_not_newline c s :
  no_space (String c s) = true -> Ascii.eqb c "010" = false.
Proof.
  cbn [no_space]. intros [Hc _]%andb_true_iff. apply Nat.eqb_eq in Hc.
  destruct (Ascii.eqb c "010") eqn:Heq; [|done].
  apply Ascii.eqb_eq in Heq. subst c. discriminate Hc.
Qed.

Lemma split_no_space s t :
  no_space s = true ->
  Text.split "010" (s +:+ Gui.newline +:+ t) = s :: Text.split "010" t.
Proof.
  induction s as [|c s IH]; [done|]. intros Hs.
  pose proof (no_space_not_newline c s Hs) as Hc.
  cbn [no_space] in Hs. apply andb_true_iff in Hs as [_ Hs].
  change (String c s +:+ Gui.newline +:+ t) with (String c (s +:+ Gui.newline +:+ t)).
  cbn [Text.split]. by rewrite Hc, (IH Hs).
Qed.

Lemma split_whole s : no_space s = true -> Text.split "010" s = [s].
Proof.
  induction s as [|c s IH]; [done|]. intros Hs.
  pose proof (no_space_not_newline c s Hs) as Hc.
  cbn [no_space] in Hs. apply andb_true_iff in Hs as [_ Hs].
  cbn [Text.split]. by rewrite Hc, (IH Hs).
Qed.

Lemma split_concat url rest :
  Forall listed (url :: rest) ->
  Text.split "010" (String.concat Gui.newline (url :: rest)) = url :: rest.
Proof.
  revert url. induction rest as [|next rest IH]; intros url Hall.
  - cbn [String.concat]. apply split_whole. by inversion Hall as [|? ? [_ ?] _].
  - cbn [String.concat]. inversion Hall as [|? ? [_ Hs] Hrest]; subst.
    rewrite split_no_space by done. f_equal. by apply IH.
Qed.

(** The box of links read back gives the links put in, when none is
    empty or holds white space. *)
Lemma urls_text_read_back urls :
  Forall listed urls -> Gui.urls_of_text (Gui.urls_text urls) = urls.
Proof.
  intros Hall. unfold Gui.urls_of_text.
  destruct urls as [|url rest]; [reflexivity|].
  change (Text.strip (Gui.urls_text (url :: rest)))
    with (Text.rstrip (Text.lstrip (Gui.urls_text (url :: rest)))).
  rewrite lstrip_urls_text by (by inversion Hall).
  rewrite rstrip_urls_text, split_concat by done.
  generalize (url :: rest) Hall. clear. intros urls.
  induction 1 as [|url rest [Hne Hs] Hrest IH]; [done|].
  rewrite filter_cons_True by (by rewrite strip_id).
  cbn [map]. by rewrite strip_id, IH.
Qed.

Section Refresh.

Variable env : Outside.
Variable cfg : Config.

Lemma image_urls_of_sub urls w image_urls w' :
  image_urls_of env cfg urls w = (Ok image_urls, w') ->
  forall url, url ∈ image_urls -> url ∈ urls.
Proof.
  revert w image_urls. induction urls as [|u rest IH]; intros w image_urls; simpl.
  - unfold ret. intros [= <- <-] url H. by apply elem_of_nil in H.
  - unfold bind at 1. destruct (is_image_url env cfg u w) as [[keep|e] w1]; [|done].
    unfold bind. destruct (image_urls_of env cfg rest w1) as [[others|e] w2] eqn:Hrest;
      [|done].
    unfold ret. intros [= <- <-] url Hin.
    specialize (IH _ _ Hrest). destruct keep; set_solver.
Qed.

(** The links [refresh_clipboard] lists in the box are the links
    [start_download] reads back from it and hands to [download_all]. *)
Theorem listed_links_are_read_back (paste : res string) (w w' : World)
        (image_urls : list string) :
  image_urls_of env cfg (Clipboard.extract_urls_from_clipboard paste).1 w
    = (Ok image_urls, w') ->
  Gui.urls_of_text (Gui.urls_text image_urls) = image_urls.
Proof.
  intros Hfilter. apply urls_text_read_back. apply Forall_forall. intros url Hin.
  eapply image_urls_of_sub in Hin; [|exact Hfilter].
  apply extracted_link_shape in Hin as (Hscheme & Hall & _). split.
  - intros ->. discriminate Hscheme.
  - by apply all_url_chars_no_space.
Qed.

End Refresh.

End TextBox.

(** ** The pages of a PDF *)

Section Archive.

Import ZipPdf.

Variable env : ZipPdf.Outside.







(** What one turn of the loop leaves on the canvas when nothing raised:
    the image, and a new page unless the file is the last. *)
Lemma draw_page_events zip_path temp img_file i n events :
  draw_page env zip_path temp img_file i n = Done events ->
  exists x_offset y_offset width height,
    events = DrawImage (Str.join temp img_file) x_offset y_offset width height
             :: (if (i <? n)%nat then [ShowPage] else [])
             ++ [Print (Processed img_file i n)].
Proof.
  unfold draw_page. intros H.
  repeat case_match; simplify_eq; by eexists _, _, _, _.
Qed.













End Archive.


Section OutputPath.

Import ZipPdf.

Variable env : ZipPdf.Outside.

Lemma after_last_length c p : (String.length (Str.after_last c p) <= String.length p)%nat.
Proof.
  induction p as [|a p IH]; [done|]. simpl.
  destruct (Str.contains (String c "") p); [lia|].
  destruct (ascii_dec a c); simpl; lia.
Qed.

Lemma substring_whole p : String.substring 0 (String.length p) p = p.
Proof. induction p as [|a p IH]; [done|]. simpl. by rewrite IH. Qed.

(** The part of a path before its file name, and the file name, are the path. *)
Lemma after_last_suffix c p :
  String.substring 0 (String.length p - String.length (Str.after_last c p)) p
  +:+ Str.after_last c p = p.
Proof.
  induction p as [|a p IH]; [done|]. cbn [Str.after_last].
  destruct (Str.contains (String c "") p).
  - pose proof (after_last_length c p).
    replace (String.length (String a p) - String.length (Str.after_last c p))%nat
      with (S (String.length p - String.length (Str.after_last c p))) by (simpl; lia).
    cbn [String.substring]. rewrite append_cons. by rewrite IH.
  - destruct (ascii_dec a c).
    + replace (String.length (String a p) - String.length p)%nat with 1%nat by (simpl; lia).
      cbn [String.substring]. by destruct p.
    + by rewrite Nat.sub_diag.
Qed.

(** [root + ext == path], as [os.path.splitext] promises. *)
Lemma splitext_parts p : (splitext p).1 +:+ (splitext p).2 = p.
Proof.
  unfold splitext. destruct (Str.splitext (Str.basename p)) as [stem ext] eqn:Hsplit.
  cbn [fst snd]. apply splitext_go_app in Hsplit.
  rewrite append_assoc, <- Hsplit. apply after_last_suffix.
Qed.

Lemma draw_pages_no_canvas zip_path temp image_files i n path :
  NewCanvas path ∉ draw_pages env zip_path temp image_files i n.
Proof.
  revert i. induction image_files as [|img_file rest IH]; intros i; cbn [draw_pages].
  - apply not_elem_of_nil.
  - rewrite elem_of_app. intros [Hin|Hin]; [|by apply (IH (S i))].
    destruct (draw_page env zip_path temp img_file i n) as [events|e] eqn:Hpage.
    + destruct (draw_page_events _ _ _ _ _ _ _ Hpage) as (x & y & wd & ht & ->).
      destruct (i <? n)%nat; set_solver.
    + set_solver.
Qed.

(** The one canvas [zip_to_pdf] makes is on the output path. *)
Lemma zip_to_pdf_canvas_path zip_path output_pdf sort_by_name path :
  NewCanvas path ∈ zip_to_pdf env zip_path output_pdf sort_by_name ->
  path = output_path zip_path output_pdf.
Proof.
  unfold zip_to_pdf.
  destruct (path_exists env zip_path); cbn [negb]; [|set_solver].
  destruct (namelist env zip_path) as [file_list|e]; [|set_solver].
  destruct (filter (fun f => is_image_file f = true) file_list) as [|first others];
    [set_solver|].
  destruct (temp_dir env) as [temp|e]; [|destruct sort_by_name; set_solver].
  pose proof (draw_pages_no_canvas zip_path temp) as Hloop.
  destruct sort_by_name, (save env _), (cleanup env temp); cbn [app];
    rewrite ?elem_of_cons, ?elem_of_app, ?elem_of_cons, ?elem_of_nil;
    intros H; decompose [or] H; clear H; try done; simplify_eq; try done;
    exfalso; eapply Hloop; eassumption.
Qed.

(** Left to name the PDF, [zip_to_pdf] puts [.pdf] in the place of the
    extension of the archive: it writes over the archive when, and only
    when, that extension is [.pdf] itself. *)
Theorem archive_is_not_overwritten (zip_path : string) (sort_by_name : bool) (path : string) :
  NewCanvas path ∈ zip_to_pdf env zip_path None sort_by_name ->
  path = (splitext zip_path).1 +:+ ".pdf" /\
  (path = zip_path <-> (splitext zip_path).2 = ".pdf").
Proof.
  intros Hcanvas. apply zip_to_pdf_canvas_path in Hcanvas. cbn [output_path] in Hcanvas.
  split; [done|]. subst path.
  pose proof (splitext_parts zip_path) as Hparts. split.
  - intros Heq. pose proof (eq_trans Heq (eq_sym Hparts)) as Hsame.
    by apply (inj (String.append _)) in Hsame.
  - intros Hext. by rewrite <- Hext.
Qed.

(** Every PDF of a batch is named after an archive of the folder: a
    canvas is made only on [output_folder] joined with the name of a file
    of the folder that ends in [.zip], in any case of the letters, with
    [.pdf] in the place of its extension; the output folder is the one
    given, or [pdf_output] inside the folder of the archives. *)
Theorem batch_names_the_pdfs (folder_path : string) (output_folder : option string)
        (path : string) :
  NewCanvas path ∈ (batch_convert_zips_to_pdfs env folder_path output_folder).1 ->
  exists names zip_file,
    listdir env folder_path = Done names /\
    zip_file ∈ names /\
    Str.endswith (Str.lower zip_file) ".zip" = true /\
    path = Str.join (default (Str.join folder_path "pdf_output") output_folder)
                    ((splitext zip_file).1 +:+ ".pdf").
Proof.
  unfold batch_convert_zips_to_pdfs.
  destruct (path_exists env folder_path); cbn [negb]; [|set_solver].
  destruct (listdir env folder_path) as [names|e]; [|set_solver].
  destruct (filter (fun f => Str.endswith (Str.lower f) ".zip" = true) names)
    as [|first others] eqn:Hzips; [set_solver|].
  rewrite <- Hzips. clear Hzips first others.
  set (out := match output_folder with
              | Some p => p
              | None => Str.join folder_path "pdf_output"
              end).
  assert (default (Str.join folder_path "pdf_output") output_folder = out) as ->
    by by destruct output_folder.
  destruct (makedirs env out); cbn [fst]; [|set_solver].
  rewrite !elem_of_cons. intros [H|[H|H]]; [done..|].
  apply list_elem_of_In, in_flat_map in H as (zip_file & Hin & H).
  apply list_elem_of_In, list_elem_of_filter in Hin as [Hzip Hin].
  apply list_elem_of_In, elem_of_cons in H as [H|H]; [done|].
  apply zip_to_pdf_canvas_path in H. exists names, zip_file. done.
Qed.

End OutputPath.

(** ** The further theorems on concrete runs *)

(** A file beside the destination is as it was after the download. *)
Lemma download_image_leaves_other_files_witness :
  fs (download_image Scenario.env default_config Scenario.a_jpg "/pics/001_a.jpg" 0
        Cases.old_file).2 !! "/pics/000_old.jpg"
  = fs Cases.old_file !! "/pics/000_old.jpg".
Proof.
  apply (download_image_leaves_other_files Scenario.env default_config).
  discriminate.
Defined.

(** The payload arrives: the file is the body of the reply. *)
Lemma download_image_returns_checked_file_witness :
  exists w' response,
    download_image Scenario.env default_config Scenario.a_jpg "/pics/001_a.jpg" 0
      Scenario.empty_world = (Ok true, w') /\
    fs w' !! "/pics/001_a.jpg" = Some (body response) /\
    image_verify Scenario.env (body response) = true.
Proof.
  assert (download_image Scenario.env default_config Scenario.a_jpg "/pics/001_a.jpg" 0
            Scenario.empty_world
          = (Ok true, set_fs (insert "/pics/001_a.jpg" Scenario.payload)
                        (log_get Scenario.a_jpg Scenario.empty_world))) as Hcall.
  { apply download_image_serves.
    - exists Scenario.reply. repeat split; reflexivity.
    - repeat split; try reflexivity; vm_compute; discriminate.
    - reflexivity. }
  destruct (download_image_returns_checked_file Scenario.env default_config
              Scenario.a_jpg "/pics/001_a.jpg" 0 Scenario.empty_world _ true Hcall)
    as (_ & response & k & _ & _ & _ & Hfile & _ & _ & Hverify).
  eexists _, response. split; [exact Hcall|]. split; [exact Hfile|exact Hverify].
Defined.

(** Sixty megabytes declared: nothing is written. *)
Lemma declared_size_out_of_bounds_witness :
  exists e w',
    download_image Cases.oversized default_config Scenario.a_jpg "/pics/001_a.jpg" 0
      Scenario.empty_world = (Raise e, w') /\
    fs w' = fs Scenario.empty_world.
Proof.
  apply (declared_size_out_of_bounds Cases.oversized default_config).
  intros n. exists Cases.oversized_reply, (60 * 1024 * 1024)%Z.
  split; [reflexivity|]. split; [reflexivity|]. left. simpl. lia.
Defined.

(** Three thousand bytes with no length declared pass a cap of two thousand. *)
Lemma body_length_is_not_capped_witness :
  download_image Cases.chunked Cases.small_cap Scenario.a_jpg "/pics/001_a.jpg" 0
    Scenario.empty_world
  = (Ok true, set_fs (insert "/pics/001_a.jpg" (body Cases.chunked_reply))
                (log_get Scenario.a_jpg Scenario.empty_world)) /\
  (max_file_size Cases.small_cap < Z.of_nat (length (body Cases.chunked_reply)))%Z.
Proof.
  split.
  - apply (body_length_is_not_capped Cases.chunked Cases.small_cap).
    + reflexivity.
    + left. simpl. lia.
    + simpl. lia.
    + left. simpl. lia.
    + reflexivity.
    + reflexivity.
    + reflexivity.
    + vm_compute. discriminate.
    + reflexivity.
    + reflexivity.
  - vm_compute. reflexivity.
Defined.


(** The same batch: what is listed is on disk. *)
Lemma saved_files_are_on_disk_witness :
  match download_all Scenario.env default_config (replicate 25 0%nat)
          [Scenario.a_jpg; Scenario.b_jpg] Scenario.empty_world new_downloader with
  | Some (_, w', d') =>
      NoDup (downloaded_files d') /\
      forall path, path ∈ downloaded_files d' ->
                   checked_file Scenario.env default_config w' path
  | None => False
  end.
Proof.
  assert (Scenario.summary
            (download_all Scenario.env default_config (replicate 25 0%nat)
               [Scenario.a_jpg; Scenario.b_jpg] Scenario.empty_world new_downloader) <> None)
    as Hsome by (vm_compute; discriminate).
  assert (index_led (rename_pattern default_config)) as Hled.
  { exists 3%nat, "_"%char, "", [Field Filename].
    split; [reflexivity|]. split; [reflexivity|discriminate]. }
  destruct (download_all Scenario.env default_config (replicate 25 0%nat)
              [Scenario.a_jpg; Scenario.b_jpg] Scenario.empty_world new_downloader)
    as [[[r w'] d']|] eqn:Hrun.
  - exact (saved_files_are_on_disk Scenario.env default_config _ _ _ new_downloader r w' d'
             Hled eq_refl Hrun).
  - exact (Hsome eq_refl).
Defined.

(** The same two links a second time: nothing to do. *)
Lemma repeated_links_are_dropped_witness :
  match download_all Scenario.env default_config (replicate 25 0%nat)
          [Scenario.a_jpg; Scenario.b_jpg] Scenario.empty_world new_downloader with
  | Some (_, w', d') =>
      download_all Scenario.env default_config [] [Scenario.a_jpg; Scenario.b_jpg] w' d'
      = Some (Ok false, w', reset_stats d')
  | None => False
  end.
Proof.
  assert (Scenario.summary
            (download_all Scenario.env default_config (replicate 25 0%nat)
               [Scenario.a_jpg; Scenario.b_jpg] Scenario.empty_world new_downloader) <> None)
    as Hsome by (vm_compute; discriminate).
  destruct (download_all Scenario.env default_config (replicate 25 0%nat)
              [Scenario.a_jpg; Scenario.b_jpg] Scenario.empty_world new_downloader)
    as [[[r w'] d']|] eqn:Hrun.
  - assert (forall url, url ∈ [Scenario.a_jpg; Scenario.b_jpg] ->
              url ∈ [Scenario.a_jpg; Scenario.b_jpg] /\
              has_image_extension Scenario.env default_config url) as Hsame.
    { intros url Hin. split; [exact Hin|].
      apply elem_of_cons in Hin as [->|Hin]; [exists "/a.jpg"; split; reflexivity|].
      apply elem_of_cons in Hin as [->|Hin]; [exists "/b.jpg"; split; reflexivity|].
      apply elem_of_nil in Hin. destruct Hin. }
    exact (repeated_links_are_dropped Scenario.env default_config (replicate 25 0%nat)
             [Scenario.a_jpg; Scenario.b_jpg] Scenario.empty_world new_downloader r w' d'
             [] [Scenario.a_jpg; Scenario.b_jpg] w' eq_refl Hrun Hsame).
  - exact (Hsome eq_refl).
Defined.

(** A page that is no image: [False], and nothing was fetched. *)
Lemma false_return_changes_nothing_witness :
  exists w',
    download_all Scenario.env default_config [] ["http://example.com/page"]
      Scenario.empty_world new_downloader
    = Some (Ok false, w', reset_stats new_downloader) /\
    fs w' = fs Scenario.empty_world /\ get_log w' = [].
Proof.
  assert (download_all Scenario.env default_config [] ["http://example.com/page"]
            Scenario.empty_world new_downloader
          = Some (Ok false, log_head "http://example.com/page" Scenario.empty_world,
                  set_url_hash_set (url_hash_set new_downloader)
                    (reset_stats new_downloader))) as Hrun by reflexivity.
  destruct (false_return_changes_nothing Scenario.env default_config _ _ _ _ _ _ Hrun)
    as (Hfs & Hlog & _ & Hd).
  eexists. split; [exact Hrun|]. split; [exact Hfs|exact Hlog].
Defined.

(** No worker and one link: the batch never returns. *)
Lemma no_worker_no_return_witness :
  download_all Scenario.env Cases.no_workers (replicate 25 0%nat) [Scenario.a_jpg]
    Scenario.empty_world new_downloader = None.
Proof.
  apply (proj2 (no_worker_no_return Scenario.env Cases.no_workers (replicate 25 0%nat)
                  [Scenario.a_jpg] Scenario.empty_world new_downloader
                  ltac:(simpl; lia) ltac:(simpl; lia)) Scenario.a_jpg).
  - apply list_elem_of_here.
  - by exists "/a.jpg".
  - apply not_elem_of_empty.
Defined.

(** One worker, two links: the lines come in the order of the links. *)
Lemma one_worker_prints_in_order_witness :
  match download_all Scenario.env Scenario.one_worker (replicate 24 0%nat)
          [Scenario.a_jpg; Scenario.b_jpg] Scenario.empty_world new_downloader with
  | Some (_, _, d') => map line_url (printed d') = [Scenario.a_jpg; Scenario.b_jpg]
  | None => False
  end.
Proof.
  assert (Scenario.summary
            (download_all Scenario.env Scenario.one_worker (replicate 24 0%nat)
               [Scenario.a_jpg; Scenario.b_jpg] Scenario.empty_world new_downloader) <> None)
    as Hsome by (vm_compute; discriminate).
  assert ((collect_image_urls Scenario.env Scenario.one_worker
             [Scenario.a_jpg; Scenario.b_jpg] [] Scenario.empty_world
             (reset_stats new_downloader)).1.1 = Ok [Scenario.a_jpg; Scenario.b_jpg])
    as Hurls by reflexivity.
  destruct (download_all Scenario.env Scenario.one_worker (replicate 24 0%nat)
              [Scenario.a_jpg; Scenario.b_jpg] Scenario.empty_world new_downloader)
    as [[[r w'] d']|] eqn:Hrun.
  - destruct (one_worker_prints_in_order Scenario.env Scenario.one_worker _ _ _
                new_downloader r w' d' eq_refl eq_refl eq_refl Hrun)
      as (image_urls & lines & Hcollect & Hprinted & Horder).
    rewrite Hurls in Hcollect. injection Hcollect as <-.
    rewrite Hprinted. exact Horder.
  - exact (Hsome eq_refl).
Defined.

(** The default pattern: the task of [a.jpg] lies in [/pics]. *)
Lemma saved_path_stays_in_directory_witness :
  exists name,
    Str.contains "/" name = false /\
    ("/pics/001_a.jpg" = "/pics" +:+ name \/ "/pics/001_a.jpg" = "/pics" +:+ "/" +:+ name).
Proof.
  assert ((resolve_path Scenario.env default_config "/pics" Scenario.a_jpg 1
             Scenario.empty_world).1 = Ok "/pics/001_a.jpg") as Hpath by reflexivity.
  destruct (resolve_path Scenario.env default_config "/pics" Scenario.a_jpg 1
              Scenario.empty_world) as [r w'] eqn:Hcall.
  simpl in Hpath. subst r.
  assert (plain_pattern (rename_pattern default_config)) as Hplain
      by (repeat constructor).
  assert (forall path ext, guess_extension Scenario.env path = Some ext ->
                           Str.contains "/" ext = false) as Hguess
      by (intros path ext Hsome; discriminate Hsome).
  assert (forall t, Str.contains "/" (strftime Scenario.env "%Y%m%d" t) = false) as Hdate
      by (intros t; apply pretty_Z_no_slash).
  assert (forall t, Str.contains "/" (strftime Scenario.env "%H%M%S" t) = false) as Htime
      by (intros t; apply pretty_Z_no_slash).
  exact (saved_path_stays_in_directory Scenario.env default_config Hplain Hguess Hdate Htime
           "/pics" Scenario.a_jpg 1 Scenario.empty_world w' "/pics/001_a.jpg" Hcall).
Defined.

(** The first link of the sentence, without the comma behind it. *)
Lemma extracted_links_are_trimmed_witness :
  all_url_chars "http://example.com/a.jpg" = true /\
  exists before after,
    Cases.sentence = before +:+ "http://example.com/a.jpg" +:+ after.
Proof.
  destruct (extracted_links_are_trimmed (Ok Cases.sentence) "http://example.com/a.jpg")
    as (_ & Hclass & _ & content & before & after & Hpaste & Htext).
  - assert ((Clipboard.extract_urls_from_clipboard (Ok Cases.sentence)).1
            = ["http://example.com/a.jpg"; "https://example.com/b.png"]) as ->
      by (vm_compute; reflexivity).
    apply list_elem_of_here.
  - split; [exact Hclass|]. injection Hpaste as <-. by exists before, after.
Defined.

(** Two links on two lines. *)
Lemma links_one_per_line_witness :
  Clipboard.extract_urls_from_clipboard
    (Ok (String.concat (String "010" "") [Scenario.a_jpg; Scenario.b_jpg]))
  = ([Scenario.a_jpg; Scenario.b_jpg], None).
Proof.
  apply links_one_per_line.
  constructor; [|constructor; [|constructor]].
  - exists "http://", "example.com/a.jpg". split; [by left|]. split; [reflexivity|].
    split; [discriminate|]. split; [vm_compute; reflexivity|].
    intros c Hlast. vm_compute in Hlast. injection Hlast as <-. reflexivity.
  - exists "http://", "example.com/b.jpg". split; [by left|]. split; [reflexivity|].
    split; [discriminate|]. split; [vm_compute; reflexivity|].
    intros c Hlast. vm_compute in Hlast. injection Hlast as <-. reflexivity.
Defined.

(** Two links with a comma between them come out as one. *)
Lemma punctuation_does_not_part_links_witness :
  Clipboard.extract_urls_from_clipboard
    (Ok "http://example.com/a.jpg,http://example.com/b.jpg")
  = (["http://example.com/a.jpg,http://example.com/b.jpg"], None).
Proof.
  apply (punctuation_does_not_part_links Scenario.a_jpg Scenario.b_jpg ","%char).
  - exists "http://", "example.com/a.jpg". split; [by left|]. split; [reflexivity|].
    split; [discriminate|]. split; [vm_compute; reflexivity|].
    intros c Hlast. vm_compute in Hlast. injection Hlast as <-. reflexivity.
  - exists "http://", "example.com/b.jpg". split; [by left|]. split; [reflexivity|].
    split; [discriminate|]. split; [vm_compute; reflexivity|].
    intros c Hlast. vm_compute in Hlast. injection Hlast as <-. reflexivity.
  - vm_compute. lia.
  - vm_compute. reflexivity.
Defined.

(** A link to an image and a link to a page: the box holds the first,
    and the first is read back. *)
Lemma listed_links_are_read_back_witness :
  Gui.urls_of_text (Gui.urls_text [Scenario.a_jpg]) = [Scenario.a_jpg].
Proof.
  assert ((image_urls_of Scenario.env default_config
             (Clipboard.extract_urls_from_clipboard
                (Ok "http://example.com/a.jpg http://example.com/page")).1
             Scenario.empty_world).1 = Ok [Scenario.a_jpg]) as Hlist
    by (vm_compute; reflexivity).
  destruct (image_urls_of Scenario.env default_config
              (Clipboard.extract_urls_from_clipboard
                 (Ok "http://example.com/a.jpg http://example.com/page")).1
              Scenario.empty_world) as [r w'] eqn:Hcall.
  simpl in Hlist. subst r.
  exact (listed_links_are_read_back Scenario.env default_config _ _ _ _ Hcall).
Defined.


(** [album.zip] becomes [album.pdf]. *)
Lemma archive_is_not_overwritten_witness :
  "album.pdf" = (ZipPdf.splitext "album.zip").1 +:+ ".pdf" /\
  "album.pdf" <> "album.zip".
Proof.
  destruct (archive_is_not_overwritten Cases.album "album.zip" true "album.pdf")
    as [Hpath Hsame].
  - apply (list_elem_of_lookup_2 _ 2%nat). vm_compute. reflexivity.
  - split; [exact Hpath|]. intros Heq. apply Hsame in Heq. discriminate Heq.
Defined.

(** The folder [/zips]: [album.zip] goes to [/zips/pdf_output/album.pdf]. *)
Lemma batch_names_the_pdfs_witness :
  exists names zip_file,
    ZipPdf.listdir Cases.album "/zips" = ZipPdf.Done names /\
    zip_file ∈ names /\
    "/zips/pdf_output/album.pdf"
    = Str.join (Str.join "/zips" "pdf_output") ((ZipPdf.splitext zip_file).1 +:+ ".pdf").
Proof.
  destruct (batch_names_the_pdfs Cases.album "/zips" None "/zips/pdf_output/album.pdf")
    as (names & zip_file & Hdir & Hin & _ & Hpath).
  - apply (list_elem_of_lookup_2 _ 5%nat). vm_compute. reflexivity.
  - exists names, zip_file. split; [exact Hdir|]. split; [exact Hin|exact Hpath].
Defined.

(** A pattern with the field [name]: the seventh file is [image_007_..jpg]. *)
Lemma unknown_field_falls_back_witness :
  exists (t : Z) (w' : World),
    get_filename_from_url Scenario.env Cases.odd_pattern Scenario.a_jpg 7
      Scenario.empty_world
    = (Ok ("image_" +:+ Str.format_d 3 7 +:+ "_" +:+ pretty t +:+ ".jpg"), w').
Proof.
  destruct (unknown_field_falls_back Scenario.env Cases.odd_pattern "name" Scenario.a_jpg 7
              Scenario.empty_world) as (t & w' & Hname & _).
  - apply list_elem_of_here.
  - by exists t, w'.
Defined.

(** The network is down and the delay is negative: one try, and the
    error of [sleep]. *)
Lemma negative_delay_stops_retries_witness :
  download_image Scenario.offline Cases.negative_delay Scenario.a_jpg "/pics/001_a.jpg" 0
    Scenario.empty_world
  = (Raise (ValueError "sleep length must be non-negative"),
     log_get Scenario.a_jpg Scenario.empty_world).
Proof.
  apply (proj1 (negative_delay_stops_retries Scenario.offline Cases.negative_delay
                  Scenario.a_jpg "/pics/001_a.jpg" Scenario.empty_world _
                  (RequestException "connection refused")
                  ltac:(simpl; lia) ltac:(simpl; lia) eq_refl)).
Defined.

(** Ten bytes of every reply arrive: they stay in the file. *)
Lemma broken_stream_leaves_a_file_witness :
  exists r e k w',
    download_image Cases.cut_off default_config Scenario.a_jpg "/pics/001_a.jpg" 0
      Scenario.empty_world = (Raise e, w') /\
    requests_get Cases.cut_off k Scenario.a_jpg = Ok r /\
    stream_error r = Some e /\
    S k = length (get_log w') /\
    fs w' !! "/pics/001_a.jpg" = Some (body r).
Proof.
  apply (broken_stream_leaves_a_file Cases.cut_off default_config).
  - intros n. exists Cases.cut_off_reply, (RequestException "connection broken").
    split; [reflexivity|]. split; [left; simpl; lia|]. split; [simpl; lia|].
    split; [left; simpl; lia|]. split; reflexivity.
  - reflexivity.
  - simpl. lia.
Defined.
